(** * multilingual-markdown (mmg): configuration extraction and conversion

    A shallow embedding of [mmg/config.py] and [mmg/api.py].

    Python values are modelled as follows.
    - [str] is [string]; one [ascii] stands for one code point, so the
      model covers the code points below 256.
    - a [dict] is an association list in insertion order with distinct
      keys ([dict_set] overwrites in place, as Python does).
    - an exception is a value of [exn]; a call that may raise returns a
      [result].
    - printing ([print_log]) has no effect on any returned value and is
      left out. *)

From Stdlib Require Import String Ascii List Arith Bool Lia ZArith.
From Stdlib Require Import DecimalString.
Import ListNotations.
Local Open Scope string_scope.
Local Open Scope list_scope.

Set Implicit Arguments.

(* ================================================================== *)
(** * Python primitives *)
(* ================================================================== *)

Module Py.

(** ** Exceptions and fallible calls *)

Inductive exn : Type :=
| BadConfigError (msg : string)   (* mmg.exceptions.BadConfigError *)
| AttributeError
| TypeError
| ValueError
| IndexError
| KeyError (key : string).

Inductive result (A : Type) : Type :=
| Ok (a : A)
| Raise (e : exn).
Arguments Ok {A} a.
Arguments Raise {A} e.

Definition bind {A B} (c : result A) (k : A -> result B) : result B :=
  match c with
  | Ok a => k a
  | Raise e => Raise e
  end.

Definition is_BadConfigError (e : exn) : bool :=
  match e with BadConfigError _ => true | _ => false end.

(** ** Characters *)

Definition LF : ascii := ascii_of_nat 10.
Definition CR : ascii := ascii_of_nat 13.
Definition nl : string := String LF "".

(** [str.isspace] on one code point below 256. *)
Definition is_space (c : ascii) : bool :=
  let n := nat_of_ascii c in
  (Nat.leb 9 n && Nat.leb n 13) || (Nat.leb 28 n && Nat.leb n 32)
  || Nat.eqb n 133 || Nat.eqb n 160.

(** Line boundaries of [str.splitlines] below 256 (CR is handled apart
    because of CR LF). *)
Definition is_linebreak (c : ascii) : bool :=
  let n := nat_of_ascii c in
  Nat.eqb n 10 || Nat.eqb n 11 || Nat.eqb n 12
  || Nat.eqb n 28 || Nat.eqb n 29 || Nat.eqb n 30 || Nat.eqb n 133.

(** ** Strings *)

Definition is_empty (s : string) : bool :=
  match s with EmptyString => true | String _ _ => false end.

(** [s.lstrip()] *)
Fixpoint lstrip (s : string) : string :=
  match s with
  | EmptyString => EmptyString
  | String c r => if is_space c then lstrip r else s
  end.

(** [s.rstrip()] *)
Fixpoint rstrip (s : string) : string :=
  match s with
  | EmptyString => EmptyString
  | String c r =>
      let r' := rstrip r in
      if is_space c && is_empty r' then EmptyString else String c r'
  end.

(** [s.strip()] *)
Definition strip (s : string) : string := rstrip (lstrip s).

(** [s.replace(" ", "")] *)
Fixpoint remove_spaces (s : string) : string :=
  match s with
  | EmptyString => EmptyString
  | String c r =>
      if Ascii.eqb c " " then remove_spaces r else String c (remove_spaces r)
  end.

(** [s.split(",")]: never empty, [""] for the empty string. *)
Fixpoint split_comma (s : string) : list string :=
  match s with
  | EmptyString => [EmptyString]
  | String c r =>
      if Ascii.eqb c "," then EmptyString :: split_comma r
      else match split_comma r with
           | x :: xs => String c x :: xs
           | [] => [String c EmptyString]
           end
  end.

(** [sep.join(parts)] *)
Definition join (sep : string) (parts : list string) : string :=
  String.concat sep parts.

(** [s.splitlines()]: [cur] is the line being read. *)
Fixpoint splitlines_from (cur : string) (s : string) : list string :=
  match s with
  | EmptyString => if is_empty cur then [] else [cur]
  | String c r =>
      if Ascii.eqb c CR then
        match r with
        | String c' r' =>
            if Ascii.eqb c' LF then cur :: splitlines_from EmptyString r'
            else cur :: splitlines_from EmptyString r
        | EmptyString => cur :: splitlines_from EmptyString r
        end
      else if is_linebreak c then cur :: splitlines_from EmptyString r
      else splitlines_from (cur ++ String c EmptyString) r
  end.

Definition splitlines (s : string) : list string :=
  splitlines_from EmptyString s.

(** Iterating a [str] yields its characters as strings of length one. *)
Definition chars (s : string) : list string :=
  map (fun c => String c EmptyString) (list_ascii_of_string s).

(** [str(n)] for a non-negative [int]. *)
Definition str_of_nat (n : nat) : string :=
  NilEmpty.string_of_uint (Nat.to_uint n).

(** Does the string contain the character? *)
Fixpoint has_char (p : ascii -> bool) (s : string) : bool :=
  match s with
  | EmptyString => false
  | String c r => p c || has_char p r
  end.

(** ** Dictionaries (insertion ordered, distinct keys) *)

Definition dict (V : Type) : Type := list (string * V).

Fixpoint dict_get {V} (d : dict V) (k : string) : option V :=
  match d with
  | [] => None
  | (k', v) :: d' => if String.eqb k' k then Some v else dict_get d' k
  end.

(** [d[k] = v] *)
Fixpoint dict_set {V} (d : dict V) (k : string) (v : V) : dict V :=
  match d with
  | [] => [(k, v)]
  | (k', v') :: d' =>
      if String.eqb k' k then (k', v) :: d' else (k', v') :: dict_set d' k v
  end.

Definition dict_keys {V} (d : dict V) : list string := map fst d.

Definition dict_mem {V} (d : dict V) (k : string) : bool :=
  match dict_get d k with Some _ => true | None => false end.

(** [d[k]], raising [KeyError] *)
Definition dict_item {V} (d : dict V) (k : string) : result V :=
  match dict_get d k with
  | Some v => Ok v
  | None => Raise (KeyError k)
  end.

(** [{k: f(k) for k in keys}] *)
Definition dict_comp {V} (keys : list string) (f : string -> V) : dict V :=
  fold_left (fun d k => dict_set d k (f k)) keys [].

(** The keys of a comprehension over [keys]: first occurrences, in order. *)
Fixpoint first_occurrences (seen : list string) (keys : list string)
  : list string :=
  match keys with
  | [] => []
  | k :: ks =>
      if existsb (String.eqb k) seen then first_occurrences seen ks
      else k :: first_occurrences (seen ++ [k]) ks
  end.

End Py.

Import Py.

Declare Scope py_scope.
Notation "x <- c ;; k" := (bind c (fun x => k))
  (at level 61, c at next level, right associativity) : py_scope.
Local Open Scope py_scope.

(* ================================================================== *)
(** * Documents *)
(* ================================================================== *)

(** Scalars a YAML loader produces besides [str]. A float is kept as
    the bit pattern of its binary64 value: it is only ever copied. *)
Inductive scalar : Type :=
| PyNone
| PyBool (b : bool)
| PyInt (z : Z)
| PyFloat (bits : Z).

(** A tree loaded from YAML: nested [dict] / [list] / [str] / scalar. *)
#[warnings="-register-all"]
Inductive yaml : Type :=
| YDict (items : dict yaml)
| YList (elems : list yaml)
| YStr (s : string)
| YScalar (c : scalar).

(** [copy.deepcopy(v)] rebuilds the tree node by node. *)
Fixpoint deepcopy (v : yaml) : yaml :=
  match v with
  | YDict items => YDict (map (fun kv => (fst kv, deepcopy (snd kv))) items)
  | YList elems => YList (map deepcopy elems)
  | YStr s => YStr s
  | YScalar c => YScalar c
  end.

(** The invariant of Python dictionaries: keys are distinct, at every
    level of the tree. *)
Fixpoint wf_yaml (v : yaml) : Prop :=
  match v with
  | YDict items =>
      NoDup (dict_keys items)
      /\ (fix all (l : dict yaml) : Prop :=
            match l with
            | [] => True
            | kv :: l' => wf_yaml (snd kv) /\ all l'
            end) items
  | YList elems =>
      (fix all (l : list yaml) : Prop :=
         match l with
         | [] => True
         | x :: l' => wf_yaml x /\ all l'
         end) elems
  | YStr _ | YScalar _ => True
  end.

(** The ["source"] of a notebook cell: a list of lines, or one string. *)
Inductive cell_source : Type :=
| SrcLines (lines : list string)
| SrcStr (s : string).

Record cell : Type := mkCell {
  cell_type : string;
  source : cell_source
}.

(** A notebook, as far as the converter reads it: [base_jn["cells"]]. *)
Record notebook : Type := mkNotebook {
  cells : list cell
}.

(** [for line in cell]: a list yields its items, a string its characters. *)
Definition iter_source (src : cell_source) : list string :=
  match src with
  | SrcLines lines => lines
  | SrcStr s => chars s
  end.

(* ================================================================== *)
(** * mmg/config.py *)
(* ================================================================== *)

Definition RESERVED_KEYWORDS : list string := ["common"; "ignore"; "<Unknown>"].

(** The value of [Config.lang_tags]. The markdown extractor and the
    [str] and [list] forms of the YAML extractor store a list of
    strings; the YAML extractor stores any other object as it is. *)
Inductive lang_tags_t : Type :=
| Tags (l : list string)
| RawTags (v : yaml).

Record Config : Type := mkConfig {
  lang_tags : lang_tags_t;
  no_suffix : option string
}.

(** [Config()] *)
Definition Config_default : Config := mkConfig (Tags []) None.

(** Truth value of a tree, as [if value:] tests it. *)
Definition truthy_yaml (v : yaml) : bool :=
  match v with
  | YDict items => negb (Nat.eqb (length items) 0)
  | YList elems => negb (Nat.eqb (length elems) 0)
  | YStr s => negb (is_empty s)
  | YScalar PyNone => false
  | YScalar (PyBool b) => b
  | YScalar (PyInt z) => negb (Z.eqb z 0)
  | YScalar (PyFloat bits) =>
      negb (Z.eqb bits 0 || Z.eqb bits (Z.shiftl 1 63))
  end.

Definition truthy_tags (t : lang_tags_t) : bool :=
  match t with
  | Tags l => negb (Nat.eqb (length l) 0)
  | RawTags v => truthy_yaml v
  end.

Definition truthy_opt_str (o : option string) : bool :=
  match o with
  | None => false
  | Some s => negb (is_empty s)
  end.

(** [mmg.utils] is not part of the sources at hand. Its regular
    expressions and its code-block scan are taken as operations:
    - [comment_match line]: [REGEX_PATTERN["comment"].match(line)] succeeds;
    - [lang_tags_search line]: [REGEX_PATTERN["lang_tags"].search(line)],
      giving [m.group(2)];
    - [no_suffix_search line]: [REGEX_PATTERN["no_suffix"].search(line)],
      giving [m.group(1)];
    - [flag_code_block_lines doc]: the mask of lines inside code fences. *)
Class MarkerGrammar : Type := {
  comment_match : string -> bool;
  lang_tags_search : string -> option string;
  no_suffix_search : string -> option string;
  flag_code_block_lines : list string -> list bool
}.

Definition already_defined (config_name : string) : string :=
  "The configuration '" ++ config_name ++ "' is already defined.".

(** [_check_duplicate_config_value(value, config_name)], the truth
    value of [value] being passed in. *)
Definition _check_duplicate_config_value (value : bool) (config_name : string)
  : result unit :=
  if value then Raise (BadConfigError (already_defined config_name))
  else Ok tt.

Section config_md.
Context {G : MarkerGrammar}.

Definition _try_update_lang_tags (line : string) (cfg : Config)
  : result Config :=
  match lang_tags_search line with
  | Some group2 =>
      _ <- _check_duplicate_config_value
             (truthy_tags (lang_tags cfg)) "lang_tags" ;;
      let lang_tags := split_comma (remove_spaces group2) in
      Ok (mkConfig (Tags lang_tags) (no_suffix cfg))
  | None => Ok cfg
  end.

Definition _try_update_no_suffix (line : string) (cfg : Config)
  : result Config :=
  match no_suffix_search line with
  | Some group1 =>
      _ <- _check_duplicate_config_value
             (truthy_opt_str (no_suffix cfg)) "no_suffix" ;;
      Ok (mkConfig (lang_tags cfg) (Some group1))
  | None => Ok cfg
  end.

(** [raise BadConfigError(f"{e} [Check line: {line_num + 1}]")] *)
Definition check_line (e : string) (line_num : nat) : string :=
  e ++ " [Check line: " ++ str_of_nat (line_num + 1) ++ "]".

(** The loop of [extract_config_from_md], from line [line_num] on. *)
Fixpoint extract_loop (is_in_code_block : list bool) (line_num : nat)
    (lines : list string) (cfg : Config) : result Config :=
  match lines with
  | [] => Ok cfg
  | line :: rest =>
      match nth_error is_in_code_block line_num with
      | None => Raise IndexError
      | Some true => extract_loop is_in_code_block (S line_num) rest cfg
      | Some false =>
          if comment_match line then
            match (cfg1 <- _try_update_lang_tags line cfg ;;
                   _try_update_no_suffix line cfg1) with
            | Ok cfg2 =>
                extract_loop is_in_code_block (S line_num) rest cfg2
            | Raise (BadConfigError e) =>
                Raise (BadConfigError (check_line e line_num))
            | Raise other => Raise other
            end
          else extract_loop is_in_code_block (S line_num) rest cfg
      end
  end.

Definition extract_config_from_md (base_doc : list string) : result Config :=
  let cfg := Config_default in
  let is_in_code_block := flag_code_block_lines base_doc in
  extract_loop is_in_code_block 0 base_doc cfg.

Definition is_markdown (c : cell) : bool := String.eqb (cell_type c) "markdown".

Definition extract_config_from_jupyter (base_jn : notebook) : result Config :=
  let md_cells := map source (filter is_markdown (cells base_jn)) in
  let md_cells := flat_map iter_source md_cells in
  extract_config_from_md md_cells.

End config_md.

(** [sys.get_int_max_str_digits()], as Python sets it by default. *)
Definition int_max_str_digits : Z := 4300.

(** Does [str(z)] raise [ValueError]: has [z] more decimal digits than
    the limit? *)
Definition int_too_long (z : Z) : bool :=
  Z.leb (10 ^ int_max_str_digits) (Z.abs z).

(** Does the tree hold an integer that [str] refuses to print? The
    rendering of a container renders what it holds. *)
Fixpoint has_long_int (v : yaml) : bool :=
  match v with
  | YDict items => existsb (fun kv => has_long_int (snd kv)) items
  | YList elems => existsb has_long_int elems
  | YStr _ => false
  | YScalar (PyInt z) => int_too_long z
  | YScalar _ => false
  end.

Section config_yml.
(** [str(v)] of an object that is not a [str] (a number, [None], a
    nested container), when it returns: Python's own rendering, taken
    as given. *)
Variable py_repr : yaml -> string.

(** [str(v)]. A [str] is returned as it is; an integer of more than
    4300 digits, alone or inside a container, makes [str] raise
    [ValueError]. *)
Definition py_str (v : yaml) : result string :=
  match v with
  | YStr s => Ok s
  | _ => if has_long_int v then Raise ValueError else Ok (py_repr v)
  end.

(** [[str(tag).strip() for tag in lang_tags]] *)
Fixpoint str_strip_all (elems : list yaml) : result (list string) :=
  match elems with
  | [] => Ok []
  | tag :: rest =>
      s <- py_str tag ;;
      l <- str_strip_all rest ;;
      Ok (strip s :: l)
  end.

Definition extract_config_from_yml (base_yml : yaml) : result Config :=
  let cfg := Config_default in
  match base_yml with
  | YDict top =>
      let mmg_config :=
        match dict_get top "mmg" with Some v => v | None => YDict [] end in
      match mmg_config with
      | YDict mmg =>
          cfg1 <-
            (if dict_mem mmg "lang_tags" then
               if truthy_tags (lang_tags cfg) then
                 Raise (BadConfigError (already_defined "lang_tags"))
               else
                 let v :=
                   match dict_get mmg "lang_tags" with
                   | Some v => v
                   | None => YList []
                   end in
                 tags <-
                   match v with
                   | YStr s => Ok (Tags (split_comma (remove_spaces s)))
                   | YList elems =>
                       l <- str_strip_all elems ;; Ok (Tags l)
                   | _ => Ok (RawTags v)
                   end ;;
                 Ok (mkConfig tags (no_suffix cfg))
             else Ok cfg) ;;
          (if dict_mem mmg "no_suffix" then
             if truthy_opt_str (no_suffix cfg1) then
               Raise (BadConfigError (already_defined "no_suffix"))
             else
               let v :=
                 match dict_get mmg "no_suffix" with
                 | Some v => v
                 | None => YScalar PyNone
                 end in
               s <- py_str v ;;
               Ok (mkConfig (lang_tags cfg1) (Some (strip s)))
           else Ok cfg1)
      | _ => Ok cfg
      end
  | _ => Raise AttributeError   (* no [get] on a list, str or scalar *)
  end.

End config_yml.

(* ================================================================== *)
(** * mmg/api.py *)
(* ================================================================== *)

(** Modelled from the spec: the enumeration [HealthStatus] of
    [mmg/health.py], which is not part of the sources at hand. *)
Inductive HealthStatus : Type := HEALTHY | WARNING | UNHEALTHY.

(** [status.name] *)
Definition status_name (s : HealthStatus) : string :=
  match s with
  | HEALTHY => "HEALTHY"
  | WARNING => "WARNING"
  | UNHEALTHY => "UNHEALTHY"
  end.

Definition is_healthy (s : HealthStatus) : bool :=
  match s with HEALTHY => true | _ => false end.

(** What a conversion is run on: [base: any] in [_health_check]. *)
Inductive base : Type :=
| BaseMd (doc : list string)
| BaseJn (nb : notebook)
| BaseYml (tree : yaml).

(** [mmg.health.HealthChecker] is not part of the sources at hand:
    [health_check base cfg extension] stands for one run of a fresh
    checker, giving the verdict and [hc.error_messages] after it. *)
Class HealthChecker : Type := {
  health_check : base -> Config -> string -> result (HealthStatus * list string)
}.

(** [mmg.classifier.MarkdownClassifier] is not part of the sources at
    hand: its constructor, its method [classify] and its attribute
    [docs] are taken as operations on the object's state. *)
Class MarkdownClassifier : Type := {
  md_state : Type;
  md_new : lang_tags_t -> md_state;
  md_classify : md_state -> list string -> md_state;
  md_docs : md_state -> dict (list string)
}.

(** Its method [insert_toc], the table of contents pass. *)
Class MarkdownToc (MC : MarkdownClassifier) : Type := {
  md_insert_toc : md_state -> md_state
}.

(** [mmg.classifier.JupyterClassifier], likewise. *)
Class JupyterClassifier : Type := {
  jn_state : Type;
  jn_new : lang_tags_t -> jn_state;
  jn_init_targets : jn_state -> notebook -> jn_state;
  jn_push : jn_state -> cell -> jn_state;
  jn_insert_toc : jn_state -> jn_state;
  jn_docs : jn_state -> dict notebook
}.

(** [for lang in cfg.lang_tags]: the languages iterated, as dictionary
    keys. A list yields its items and a dict its keys; a scalar is not
    iterable. *)
Definition tags_iter (t : lang_tags_t) : result (list string) :=
  match t with
  | Tags l => Ok l
  | RawTags (YDict items) => Ok (dict_keys items)
  | RawTags (YStr s) => Ok (chars s)
  | RawTags (YList elems) =>
      fold_right
        (fun x acc =>
           match x with
           | YStr s => l <- acc ;; Ok (s :: l)
           | _ => Raise TypeError
           end) (Ok []) elems
  | RawTags (YScalar _) => Raise TypeError
  end.

(** The message of the error raised by a failed health check. *)
Definition health_check_failed (status : HealthStatus)
    (error_messages : list string) : string :=
  "Health check failed." ++ nl ++ " - Status: " ++ status_name status
  ++ nl ++ " - Error:" ++ nl ++ join nl error_messages.

Section api.
Context {G : MarkerGrammar} {HC : HealthChecker}.
Context {MC : MarkdownClassifier} {TOC : MarkdownToc MC}.
Context {JC : JupyterClassifier}.
Variable py_repr : yaml -> string.

(** [_health_check]. The arguments [print_log], [file_name] and
    [verbosity] only drive what is printed; they are left out, here
    and in the four converters. *)
Definition _health_check (b : base) (cfg : Config) (extension : string)
    (skip_health_check force_convert : bool) : result unit :=
  if negb skip_health_check then
    r <- health_check b cfg extension ;;
    let status := fst r in
    if negb force_convert && negb (is_healthy status) then
      let error_messages := snd r in
      Raise (BadConfigError (health_check_failed status error_messages))
    else Ok tt
  else Ok tt.

(** [cfg if cfg else extract(...)]: a [Config] object is always true. *)
Definition cfg_or (cfg : option Config) (extract : result Config)
  : result Config :=
  match cfg with
  | Some c => Ok c
  | None => extract
  end.

Definition convert_base_doc (base_doc : list string) (cfg : option Config)
    (skip_health_check force_convert : bool)
  : result (dict (list string)) :=
  cfg <- cfg_or cfg (extract_config_from_md base_doc) ;;
  _ <- _health_check (BaseMd base_doc) cfg "md"
         skip_health_check force_convert ;;
  let target_docs := md_new (lang_tags cfg) in
  let target_docs := md_classify target_docs base_doc in
  let target_docs := md_insert_toc target_docs in
  Ok (md_docs target_docs).

Definition convert (base_md : string) (cfg : option Config)
    (skip_health_check force_convert : bool) : result (dict string) :=
  let base_doc := splitlines base_md in
  target_docs <- convert_base_doc base_doc cfg
                   skip_health_check force_convert ;;
  Ok (map (fun kv => (fst kv, join nl (snd kv))) target_docs).

Definition convert_base_jupyter (base_jn : notebook) (cfg : option Config)
    (skip_health_check force_convert : bool) : result (dict notebook) :=
  cfg <- cfg_or cfg (extract_config_from_jupyter base_jn) ;;
  _ <- _health_check (BaseJn base_jn) cfg "ipynb"
         skip_health_check force_convert ;;
  let jupyter_docs := jn_new (lang_tags cfg) in
  let jupyter_docs := jn_init_targets jupyter_docs base_jn in
  let jupyter_docs := fold_left jn_push (cells base_jn) jupyter_docs in
  let jupyter_docs := jn_insert_toc jupyter_docs in
  Ok (jn_docs jupyter_docs).

(** [for lang in langs: result_dicts[lang][key] = value(lang)] *)
Fixpoint assign_all (langs : list string) (result_dicts : dict (dict yaml))
    (key : string) (value : string -> result yaml)
  : result (dict (dict yaml)) :=
  match langs with
  | [] => Ok result_dicts
  | lang :: rest =>
      v <- value lang ;;
      d <- dict_item result_dicts lang ;;
      assign_all rest (dict_set result_dicts lang (dict_set d key v))
        key value
  end.

(** [for lang in langs: result_dicts[lang].append(value(lang))] *)
Fixpoint append_all (langs : list string) (result_dicts : dict (list yaml))
    (value : string -> result yaml) : result (dict (list yaml)) :=
  match langs with
  | [] => Ok result_dicts
  | lang :: rest =>
      v <- value lang ;;
      l <- dict_item result_dicts lang ;;
      append_all rest (dict_set result_dicts lang (l ++ [v])) value
  end.

(** [{lang: value(lang) for lang in langs}], [value] may raise. *)
Fixpoint dict_comp_r (langs : list string) (acc : dict yaml)
    (value : string -> result yaml) : result (dict yaml) :=
  match langs with
  | [] => Ok acc
  | lang :: rest =>
      v <- value lang ;;
      dict_comp_r rest (dict_set acc lang v) value
  end.

(** The loop [for key, value in obj.items()] of [process_obj];
    [process] is the recursive call. *)
Fixpoint dict_loop (process : yaml -> result (dict yaml))
    (langs : list string) (items : dict yaml)
    (result_dicts : dict (dict yaml)) : result (dict (dict yaml)) :=
  match items with
  | [] => Ok result_dicts
  | (key, value) :: rest =>
      if String.eqb key "mmg" then
        result_dicts <-
          assign_all langs result_dicts key
            (fun _ => Ok (deepcopy value)) ;;
        dict_loop process langs rest result_dicts
      else
        processed <- process value ;;
        result_dicts <-
          assign_all langs result_dicts key
            (fun lang => dict_item processed lang) ;;
        dict_loop process langs rest result_dicts
  end.

(** The loop [for item in obj] of [process_obj]. *)
Fixpoint list_loop (process : yaml -> result (dict yaml))
    (langs : list string) (elems : list yaml)
    (result_dicts : dict (list yaml)) : result (dict (list yaml)) :=
  match elems with
  | [] => Ok result_dicts
  | item :: rest =>
      processed <- process item ;;
      result_dicts <-
        append_all langs result_dicts
          (fun lang => dict_item processed lang) ;;
      list_loop process langs rest result_dicts
  end.

(** The helper [process_obj] of [convert_base_yml], a closure over
    [cfg]. Every branch starts by iterating [cfg.lang_tags]; the
    list it yields is the same at each later iteration. *)
Fixpoint process_obj (cfg : Config) (obj : yaml) : result (dict yaml) :=
  match obj with
  | YDict items =>
      langs <- tags_iter (lang_tags cfg) ;;
      let result_dicts := dict_comp langs (fun _ => @nil (string * yaml)) in
      result_dicts <-
        dict_loop (process_obj cfg) langs items result_dicts ;;
      Ok (map (fun kv => (fst kv, YDict (snd kv))) result_dicts)
  | YList elems =>
      langs <- tags_iter (lang_tags cfg) ;;
      let result_dicts := dict_comp langs (fun _ => @nil yaml) in
      result_dicts <-
        list_loop (process_obj cfg) langs elems result_dicts ;;
      Ok (map (fun kv => (fst kv, YList (snd kv))) result_dicts)
  | YStr s =>
      let lines := splitlines s in
      let classifier := md_new (lang_tags cfg) in
      let classifier := md_classify classifier lines in
      langs <- tags_iter (lang_tags cfg) ;;
      dict_comp_r langs []
        (fun lang =>
           doc <- dict_item (md_docs classifier) lang ;;
           Ok (YStr (join nl doc)))
  | YScalar c =>
      langs <- tags_iter (lang_tags cfg) ;;
      Ok (dict_comp langs (fun _ => deepcopy obj))
  end.

Definition convert_base_yml (base_yml : yaml) (cfg : option Config)
    (skip_health_check force_convert : bool) : result (dict yaml) :=
  cfg <- cfg_or cfg (extract_config_from_yml py_repr base_yml) ;;
  _ <- _health_check (BaseYml base_yml) cfg "yml"
         skip_health_check force_convert ;;
  let converted := process_obj cfg base_yml in
  converted.

End api.

(* ================================================================== *)
(** * The classification engine *)
(* ================================================================== *)

Definition UNKNOWN : string := "<Unknown>".
Definition COMMON : string := "common".
Definition IGNORE : string := "ignore".

(** Modelled from the spec: a marker (section 3 and glossary), "a
    directive line (config declaration or language switch) recognized
    by the Marker Grammar". *)
Inductive Marker : Type :=
| LangSwitch (tag : string)
| ConfigLangTags (tags : string)
| ConfigNoSuffix (tag : string).

Section classifier.
(** Modelled from the spec: the marker grammar of section 4.1, part of
    [mmg/utils.py], which is not part of the sources at hand.
    [marker_of line] is the marker the line holds, if it holds one; a
    line holds at most one. *)
Variable marker_of : string -> option Marker.

(** Modelled from the spec: "append to every declared language's
    output" (section 4.3). *)
Definition emit_all (docs : dict (list string)) (line : string)
  : dict (list string) :=
  map (fun kv => (fst kv, snd kv ++ [line])) docs.

(** Modelled from the spec: "append only to that language's output"
    (section 4.3). *)
Definition emit_one (docs : dict (list string)) (tag line : string)
  : dict (list string) :=
  match dict_get docs tag with
  | Some doc => dict_set docs tag (doc ++ [line])
  | None => docs
  end.

(** Modelled from the spec: step 2 of section 4.3, the routing of a
    content line by the active tag. *)
Definition route (docs : dict (list string)) (active line : string)
  : dict (list string) :=
  if String.eqb active UNKNOWN then emit_all docs line
  else if String.eqb active COMMON then emit_all docs line
  else if String.eqb active IGNORE then docs
  else if dict_mem docs active then emit_one docs active line
  else docs.

(** Modelled from the spec: one line of the state machine of section
    4.3. The state is the active tag and the outputs so far. A marker
    line goes to no output ("marker lines elided"); a language switch
    sets the active tag, a configuration declaration leaves it as it
    is; any other line is a content line. *)
Definition classify_step (st : string * dict (list string)) (line : string)
  : string * dict (list string) :=
  match marker_of line with
  | Some (LangSwitch tag) => (tag, snd st)
  | Some (ConfigLangTags _) => st
  | Some (ConfigNoSuffix _) => st
  | None => (fst st, route (snd st) (fst st) line)
  end.

(** Modelled from the spec: [MarkdownClassifier(lang_tags)] followed
    by [classify(lines)] of [mmg/classifier.py], which is not part of
    the sources at hand; the result is the attribute [docs]. *)
Definition classify (lang_tags : list string) (lines : list string)
  : dict (list string) :=
  snd (fold_left classify_step lines
         (UNKNOWN, dict_comp lang_tags (fun _ => @nil string))).

(** The content lines of a document, each with the tag active when
    it is read; [active] is the tag active at the start. *)
Fixpoint governed (active : string) (lines : list string)
  : list (string * string) :=
  match lines with
  | [] => []
  | line :: rest =>
      match marker_of line with
      | Some (LangSwitch tag) => governed tag rest
      | Some (ConfigLangTags _) => governed active rest
      | Some (ConfigNoSuffix _) => governed active rest
      | None => (active, line) :: governed active rest
      end
  end.

(** Does a content line read under [active] belong to output [T]? *)
Definition reaches (T : string) (active : string) : bool :=
  String.eqb active UNKNOWN || String.eqb active COMMON
  || (negb (String.eqb active IGNORE) && String.eqb active T).

(** Modelled from the spec: the engine above as a [MarkdownClassifier];
    the state is the declared tags and the outputs. *)
Definition spec_classifier : MarkdownClassifier :=
  {| md_state := list string * dict (list string);
     md_new := fun t =>
       let tags := match tags_iter t with Ok l => l | Raise _ => [] end in
       (tags, dict_comp tags (fun _ => @nil string));
     md_classify := fun st lines => (fst st, classify (fst st) lines);
     md_docs := snd |}.

End classifier.

(* ================================================================== *)
(** * A concrete marker grammar *)
(* ================================================================== *)

(** Modelled from the spec: the marker syntax of section 6, for
    [REGEX_PATTERN] and [flag_code_block_lines] of [mmg/utils.py],
    which are not part of the sources at hand. A directive fills a
    whole line; the theorems below hold for every grammar, this one
    serves to run the definitions on documents. *)
Module Grammar.

(** [s] without its first [n] characters. *)
Definition drop (n : nat) (s : string) : string :=
  substring n (String.length s - n) s.

Definition ends_with (suffix s : string) : bool :=
  let n := String.length suffix in
  Nat.leb n (String.length s)
  && String.eqb (drop (String.length s - n) s) suffix.

(** The text inside [<!-- ... -->] or after [#], stripped. *)
Definition comment_body (line : string) : option string :=
  let l := strip line in
  if prefix "<!--" l && ends_with "-->" l && Nat.leb 7 (String.length l) then
    Some (strip (substring 4 (String.length l - 7) l))
  else if prefix "#" l then Some (strip (drop 1 l))
  else None.

(** The payload of [key: payload]. *)
Definition directive (key : string) (line : string) : option string :=
  match comment_body line with
  | Some body =>
      if prefix key body then
        let r := lstrip (drop (String.length key) body) in
        if prefix ":" r then Some (strip (drop 1 r)) else None
      else None
  | None => None
  end.

(** The tag of a switch marker [[tag]]. *)
Definition switch (line : string) : option string :=
  match comment_body line with
  | Some body =>
      if prefix "[" body && ends_with "]" body
         && Nat.leb 2 (String.length body) then
        Some (strip (substring 1 (String.length body - 2) body))
      else None
  | None => None
  end.

(** Modelled from the spec: the marker of a line (section 4.1), a
    switch or one of the two configuration declarations. *)
Definition marker (line : string) : option Marker :=
  match switch line with
  | Some tag => Some (LangSwitch tag)
  | None =>
      match directive "lang_tags" line with
      | Some tags => Some (ConfigLangTags tags)
      | None =>
          match directive "no_suffix" line with
          | Some tag => Some (ConfigNoSuffix tag)
          | None => None
          end
      end
  end.

(** Lines from an opening fence to its closing fence, both included. *)
Fixpoint fences (inside : bool) (doc : list string) : list bool :=
  match doc with
  | [] => []
  | line :: rest =>
      if prefix "```" (lstrip line) then true :: fences (negb inside) rest
      else inside :: fences inside rest
  end.

Definition grammar : MarkerGrammar :=
  {| comment_match := fun line =>
       match comment_body line with Some _ => true | None => false end;
     lang_tags_search := directive "lang_tags";
     no_suffix_search := directive "no_suffix";
     flag_code_block_lines := fences false |}.

End Grammar.

(* ================================================================== *)
(** * Collaborators to run the definitions with *)
(* ================================================================== *)

(** A tree whose [mmg] section declares [lang_tags] as [v], and
    nothing else. *)
Definition mmg_tree (v : yaml) : yaml :=
  YDict [("mmg", YDict [("lang_tags", v)])].

(** The examples below hold no object other than [str], or an integer
    too long to print, where [str(v)] is taken, so that its rendering
    of other objects plays no part. *)
Definition repr_unused : yaml -> string := fun _ => EmptyString.

(** A checker whose run reports the given verdict and messages: it
    stands for any run of the real checker with that outcome. *)
Definition reporting (status : HealthStatus) (messages : list string)
  : HealthChecker :=
  {| health_check := fun _ _ _ => Ok (status, messages) |}.

(** A table of contents pass that finds nothing to insert. *)
Definition no_toc (MC : MarkdownClassifier) : MarkdownToc MC :=
  {| md_insert_toc := fun st => st |}.

(** A notebook classifier that keeps one notebook for each declared
    tag and copies every cell to each of them: a stand-in for
    [JupyterClassifier], which is not part of the sources at hand,
    where the classification is never reached or only the keys of
    [docs] are looked at. *)
Definition copying_jupyter : JupyterClassifier :=
  {| jn_state := dict notebook;
     jn_new := fun t =>
       let tags := match tags_iter t with Ok l => l | Raise _ => [] end in
       dict_comp tags (fun _ => mkNotebook []);
     jn_init_targets := fun st _ => st;
     jn_push := fun st c =>
       map (fun kv => (fst kv, mkNotebook (cells (snd kv) ++ [c]))) st;
     jn_insert_toc := fun st => st;
     jn_docs := fun st => st |}.

(** The string holds no comma. *)
Definition no_comma (s : string) : Prop :=
  has_char (fun c => Ascii.eqb c ",") s = false.

(** The string holds no whitespace character. *)
Definition no_whitespace (s : string) : Prop :=
  has_char is_space s = false.

(** [n] spaces. *)
Fixpoint spaces (n : nat) : string :=
  match n with
  | 0 => EmptyString
  | S k => String " " (spaces k)
  end.

(** An entry that is a tag without comma or whitespace, with spaces
    before and after it at most. *)
Definition padded_tag (e : string) : Prop :=
  exists a b core,
    no_whitespace core /\ no_comma core
    /\ e = (spaces a ++ core ++ spaces b)%string.

(** What [extract_config_from_yml] makes of a declared [lang_tags]. *)
Definition tags_of_value (py_repr : yaml -> string) (v : yaml)
  : result lang_tags_t :=
  match v with
  | YStr s => Ok (Tags (map remove_spaces (split_comma s)))
  | YList elems => l <- str_strip_all py_repr elems ;; Ok (Tags l)
  | _ => Ok (RawTags v)
  end.

(** What [extract_config_from_yml] makes of the [lang_tags] of an [mmg]
    section. *)
Definition lang_tags_of (py_repr : yaml -> string) (mmg : dict yaml)
  : result lang_tags_t :=
  match dict_get mmg "lang_tags" with
  | Some v => tags_of_value py_repr v
  | None => Ok (Tags [])
  end.

(** What [extract_config_from_yml] makes of the [no_suffix] of an [mmg]
    section. *)
Definition no_suffix_of (py_repr : yaml -> string) (mmg : dict yaml)
  : result (option string) :=
  match dict_get mmg "no_suffix" with
  | Some v => s <- py_str py_repr v ;; Ok (Some (strip s))
  | None => Ok None
  end.

(** Does [str] return on the object? *)
Definition str_returns (v : yaml) : bool :=
  match v with
  | YStr _ => true
  | _ => negb (has_long_int v)
  end.

(** Does [str] return wherever [extract_config_from_yml] takes it in
    an [mmg] section: on the items of a list of tags, and on the value
    of [no_suffix]? *)
Definition mmg_str_returns (mmg : dict yaml) : bool :=
  match dict_get mmg "lang_tags" with
  | Some (YList elems) => forallb str_returns elems
  | _ => true
  end
  && match dict_get mmg "no_suffix" with
     | Some v => str_returns v
     | None => true
     end.

(* ================================================================== *)
(** * Properties the specification states *)
(* ================================================================== *)

(** "Reserved keywords never appear in the extracted [lang_tags]." *)
Definition reserved_free (r : result Config) : Prop :=
  forall cfg l k,
    r = Ok cfg -> lang_tags cfg = Tags l ->
    In k RESERVED_KEYWORDS -> ~ In k l.

(** "Each extracted tag is the declared entry with its surrounding
    whitespace stripped and its interior unchanged", for the
    comma-separated form. *)
Definition tags_are_stripped_entries (decl : string) (r : result Config)
  : Prop :=
  exists cfg, r = Ok cfg
              /\ lang_tags cfg = Tags (map strip (split_comma decl)).

(** "The comma-separated string joining the entries and the list of
    the entries give the same [Config]." *)
Definition both_forms_agree (entries : list string) : Prop :=
  extract_config_from_yml repr_unused (mmg_tree (YStr (join "," entries)))
  = extract_config_from_yml repr_unused (mmg_tree (YList (map YStr entries))).

(** Does the tree [out] have the shape of [inp]: the same keys in each
    dictionary, the same length of each list, a string where there is
    a string, the same scalar where there is a scalar, and under the
    key [mmg] the very same value? *)
Fixpoint same_shape (inp out : yaml) : Prop :=
  match inp, out with
  | YDict items, YDict items' =>
      (fix all (l l' : dict yaml) : Prop :=
         match l, l' with
         | [], [] => True
         | kv :: r, kv' :: r' =>
             fst kv = fst kv'
             /\ (if String.eqb (fst kv) "mmg" then snd kv' = snd kv
                 else same_shape (snd kv) (snd kv'))
             /\ all r r'
         | _, _ => False
         end) items items'
  | YList elems, YList elems' =>
      (fix all (l l' : list yaml) : Prop :=
         match l, l' with
         | [], [] => True
         | x :: r, x' :: r' => same_shape x x' /\ all r r'
         | _, _ => False
         end) elems elems'
  | YStr _, YStr _ => True
  | YScalar c, YScalar c' => c = c'
  | _, _ => False
  end.

(** "Every declared language gets a tree of the shape of the input." *)
Definition shape_preserved (langs : list string) (inp : yaml)
    (r : result (dict yaml)) : Prop :=
  exists outs, r = Ok outs
    /\ forall lang, In lang langs ->
         exists out, dict_get outs lang = Some out /\ same_shape inp out.

(** "It returns a [Config] for every dictionary input." *)
Definition returns_config (r : result Config) : Prop :=
  exists cfg, r = Ok cfg.

(** Modelled from the spec: what a markdown classifier made for the
    declared tags holds, as far as the keys of [docs] go (sections
    4.2 and 4.3): one output for each declared tag, in the declared
    order, a tag declared twice counted once; classifying lines with
    a classifier just made, and the table of contents pass, add, drop
    and reorder no output. [mmg/classifier.py] is not part of the
    sources at hand. *)
Definition md_outputs_as_declared (MC : MarkdownClassifier)
    (TOC : MarkdownToc MC) : Prop :=
  (forall t langs, tags_iter t = Ok langs ->
     dict_keys (md_docs (md_new t)) = first_occurrences [] langs)
  /\ (forall t lines,
        dict_keys (md_docs (md_classify (md_new t) lines))
        = dict_keys (md_docs (md_new t)))
  /\ (forall st,
        dict_keys (md_docs (md_insert_toc st)) = dict_keys (md_docs st)).
Arguments md_outputs_as_declared : clear implicits.

(** Modelled from the spec: the same of a notebook classifier, once
    its targets are set up: one notebook for each declared tag, in the
    declared order; pushing a cell and the table of contents pass add,
    drop and reorder no notebook. *)
Definition jn_outputs_as_declared (JC : JupyterClassifier) : Prop :=
  (forall t langs nb, tags_iter t = Ok langs ->
     dict_keys (jn_docs (jn_init_targets (jn_new t) nb))
     = first_occurrences [] langs)
  /\ (forall st c, dict_keys (jn_docs (jn_push st c)) = dict_keys (jn_docs st))
  /\ (forall st,
        dict_keys (jn_docs (jn_insert_toc st)) = dict_keys (jn_docs st)).

(** "A failed health check raises an error of a type distinct from the
    configuration error." *)
Definition raises_distinct_error {A} (r : result A) : Prop :=
  exists e, r = Raise e /\ is_BadConfigError e = false.

(* ================================================================== *)
(** * The declarations of a markdown document *)
(* ================================================================== *)

Section md_declarations.
Context {G : MarkerGrammar}.

(** Line [n] lies outside every code block. *)
Definition unmasked (mask : list bool) (n : nat) : bool :=
  match nth_error mask n with
  | Some false => true
  | _ => false
  end.

(** The declarations a directive pattern finds on the lines from
    line [n] on: for each line outside code blocks that is a comment
    and matches, its index and the payload matched. *)
Fixpoint declarations (search : string -> option string)
    (mask : list bool) (n : nat) (lines : list string)
  : list (nat * string) :=
  match lines with
  | [] => []
  | line :: rest =>
      let later := declarations search mask (S n) rest in
      if unmasked mask n && comment_match line then
        match search line with
        | Some payload => (n, payload) :: later
        | None => later
        end
      else later
  end.

Definition lang_tags_decls (doc : list string) : list (nat * string) :=
  declarations lang_tags_search (flag_code_block_lines doc) 0 doc.

Definition no_suffix_decls (doc : list string) : list (nat * string) :=
  declarations no_suffix_search (flag_code_block_lines doc) 0 doc.

(** The index of the line at which [lang_tags] is declared once too
    often: the first declaration when the tags are already there, the
    second one otherwise. A declaration always gives a list that is
    not empty, so the tags count as defined from the first one on. *)
Definition dup_line (seen : bool) (decls : list (nat * string))
  : option nat :=
  if seen then option_map fst (hd_error decls)
  else option_map fst (nth_error decls 1).

(** The index of the line at which [no_suffix] is declared while it
    is already defined. The code tests the truth value of the tag
    recorded so far: after a declaration that captured the empty
    string the setting does not count as defined, and the next
    declaration replaces it. *)
Fixpoint redefined_line (seen : bool) (decls : list (nat * string))
  : option nat :=
  match decls with
  | [] => None
  | d :: rest =>
      if seen then Some (fst d)
      else redefined_line (negb (is_empty (snd d))) rest
  end.

Definition duplicate_error (config_name : string) (line_num : nat) : exn :=
  BadConfigError (check_line (already_defined config_name) line_num).

(** The tags recorded from the first declaration. *)
Definition first_tags (seen : bool) (old : lang_tags_t)
    (decls : list (nat * string)) : lang_tags_t :=
  if seen then old
  else match decls with
       | [] => old
       | d :: _ => Tags (split_comma (remove_spaces (snd d)))
       end.

(** The tag recorded by the last declaration of [no_suffix]. *)
Definition last_no_suffix (old : option string)
    (decls : list (nat * string)) : option string :=
  match decls with
  | [] => old
  | d :: rest => Some (snd (last rest d))
  end.

(** What the loop of [extract_config_from_md] comes to, told from
    the declarations ahead of it. *)
Definition loop_outcome (cfg : Config) (L N : list (nat * string))
  : result Config :=
  let sl := truthy_tags (lang_tags cfg) in
  let sn := truthy_opt_str (no_suffix cfg) in
  match dup_line sl L, redefined_line sn N with
  | None, None =>
      Ok (mkConfig (first_tags sl (lang_tags cfg) L)
                   (last_no_suffix (no_suffix cfg) N))
  | Some a, None => Raise (duplicate_error "lang_tags" a)
  | None, Some b => Raise (duplicate_error "no_suffix" b)
  | Some a, Some b =>
      if Nat.leb a b then Raise (duplicate_error "lang_tags" a)
      else Raise (duplicate_error "no_suffix" b)
  end.


(** "Otherwise it returns a [Config] recording the first match of
    each kind." *)
Definition records_first_match (doc : list string) : Prop :=
  forall cfg, extract_config_from_md doc = Ok cfg ->
    no_suffix cfg = option_map snd (hd_error (no_suffix_decls doc)).

End md_declarations.

(** The lines [extract_config_from_jupyter] flattens out of cells. *)
Definition md_lines (cs : list cell) : list string :=
  flat_map iter_source (map source (filter is_markdown cs)).

(* ================================================================== *)
(** * The conversion of a tree, one language at a time *)
(* ================================================================== *)

(** The dictionary holding [f lang] for each language, in order. *)
Definition tab {V} (langs : list string) (f : string -> V) : dict V :=
  map (fun lang => (lang, f lang)) langs.

Section per_language.
Context {MC : MarkdownClassifier}.
Variable cfg : Config.

(** The text [process_obj] gives a string, for one language. *)
Definition text_for (lang : string) (s : string) : string :=
  let classifier := md_classify (md_new (lang_tags cfg)) (splitlines s) in
  match dict_get (md_docs classifier) lang with
  | Some doc => join nl doc
  | None => EmptyString
  end.

(** The tree of one language, built directly: what [process_obj]
    builds for all languages side by side. *)
Fixpoint per_lang (lang : string) (obj : yaml) : yaml :=
  match obj with
  | YDict items =>
      YDict (fold_left
               (fun d kv =>
                  dict_set d (fst kv)
                    (if String.eqb (fst kv) "mmg" then deepcopy (snd kv)
                     else per_lang lang (snd kv)))
               items [])
  | YList elems => YList (map (per_lang lang) elems)
  | YStr s => YStr (text_for lang s)
  | YScalar c => YScalar c
  end.

End per_language.

(** The shape the two loops [assign_all] and [append_all] share:
    [for lang in langs: result_dicts[lang] = upd(result_dicts[lang],
    value(lang))]. *)
Fixpoint update_all {V} (upd : V -> yaml -> V) (langs : list string)
    (result_dicts : dict V) (value : string -> result yaml)
  : result (dict V) :=
  match langs with
  | [] => Ok result_dicts
  | lang :: rest =>
      v <- value lang ;;
      x <- dict_item result_dicts lang ;;
      update_all upd rest (dict_set result_dicts lang (upd x v)) value
  end.

(* ================================================================== *)
(** * Documents to run the definitions on *)
(* ================================================================== *)

(** A markdown document that declares [lang_tags] on its first line and
    again on its last; the declaration in between is inside a code
    block. *)
Definition doc_twice : list string :=
  ["<!-- lang_tags: en, es -->"; "<!-- no_suffix: en -->"; "# [en]"; "Hello";
   "```"; "<!-- lang_tags: a -->"; "```"; "<!-- lang_tags: en, fr -->"].

(** A markdown document that declares [en] and [es] and never switches
    to [es]. *)
Definition doc_unhealthy : list string :=
  ["<!-- lang_tags: en,es -->"; "<!-- [en] -->"; "Hello"].

(** A document with a preamble and a part for each of [en], [es],
    [common] and [ignore]. *)
Definition doc_parts : list string :=
  ["intro"; "<!-- [en] -->"; "Hello"; "<!-- [es] -->"; "Hola";
   "<!-- [common] -->"; "---"; "<!-- [ignore] -->"; "note"].

(** The tree of the test [test_convert_yml_preserves_structure], with
    a number added. *)
Definition tree_structure : yaml :=
  YDict [("mmg", YDict [("lang_tags", YList [YStr "en"; YStr "es"]);
                        ("no_suffix", YStr "en")]);
         ("config", YDict [("version", YStr "1.0.0");
                           ("author", YStr "Test")]);
         ("count", YScalar (PyInt 42));
         ("content", YStr ("<!-- [en] -->" ++ nl ++ "Test" ++ nl
                           ++ "<!-- [es] -->" ++ nl ++ "Prueba"))].

(** A markdown document that declares [no_suffix] twice, the first
    time with no tag. *)
Definition doc_no_suffix_twice : list string :=
  ["<!-- no_suffix: -->"; "<!-- no_suffix: en -->"].

(** A tree whose list of tags holds the integer [10 ** 4300], which
    has 4301 digits. *)
Definition tree_long_int : yaml :=
  mmg_tree (YList [YStr "en"; YScalar (PyInt (10 ^ 4300))]).

(** A tree whose [no_suffix] is that integer. *)
Definition tree_long_no_suffix : yaml :=
  YDict [("mmg", YDict [("lang_tags", YStr "en,common");
                        ("no_suffix", YScalar (PyInt (10 ^ 4300)))])].

(** A markdown text and a notebook that declare [es] before [en]. *)
Definition md_es_en : string :=
  "<!-- lang_tags: es,en -->" ++ nl ++ "<!-- [en] -->" ++ nl ++ "Hello"
  ++ nl ++ "<!-- [es] -->" ++ nl ++ "Hola".

Definition nb_es_en : notebook :=
  mkNotebook [mkCell "markdown" (SrcLines ["<!-- lang_tags: es,en -->"]);
              mkCell "code" (SrcLines ["print(1)"]);
              mkCell "markdown" (SrcLines ["<!-- [en] -->"; "Hello";
                                           "<!-- [es] -->"; "Hola"])].

(** A tree that declares the tag [en] twice and holds a list. *)
Definition tree_twice : yaml :=
  YDict [("mmg", YDict [("lang_tags", YList [YStr "en"; YStr "en"])]);
         ("items", YList [YStr "a"])].

(** A notebook whose first markdown cell has one string as its source
    and whose second has a list of lines. *)
Definition nb_string_source : notebook :=
  mkNotebook [mkCell "markdown" (SrcStr "<!-- lang_tags: en,es -->");
              mkCell "markdown" (SrcLines ["<!-- no_suffix: en -->"])].

(* ================================================================== *)
(** * Further notions *)
(* ================================================================== *)

(** The number of commas in a string. *)
Fixpoint count_commas (s : string) : nat :=
  match s with
  | EmptyString => 0
  | String c r => (if Ascii.eqb c "," then 1 else 0) + count_commas r
  end.

(** The string holds no space character. *)
Definition no_space (s : string) : Prop :=
  has_char (fun c => Ascii.eqb c " ") s = false.

(** The string holds no line boundary of [str.splitlines]. *)
Definition no_break (s : string) : Prop :=
  has_char (fun c => Ascii.eqb c CR || is_linebreak c) s = false.

(** The last line, if there is one, is not empty. *)
Definition no_empty_last (lines : list string) : Prop :=
  forall front, lines <> front ++ [EmptyString].

(** A tree whose [mmg] section declares [lang_tags] as the number 5. *)
Definition tree_number_tags : yaml := mmg_tree (YScalar (PyInt 5)).

(** Two documents that differ only inside a code block. *)
Definition doc_fenced_a : list string :=
  ["```"; "<!-- lang_tags: a -->"; "```"; "<!-- lang_tags: en -->"].
Definition doc_fenced_b : list string :=
  ["```"; "<!-- lang_tags: b,c -->"; "```"; "<!-- lang_tags: en -->"].

Section md_reading.
Context {G : MarkerGrammar}.

(** Two stretches of lines that the loop of [extract_config_from_md]
    reads alike from line [n] on: at each line outside code blocks,
    both are comments or neither is, and two comments give the same
    matches of the two directive patterns. *)
Fixpoint same_read (mask : list bool) (n : nat) (l1 l2 : list string) : Prop :=
  match l1, l2 with
  | [], [] => True
  | a :: r1, b :: r2 =>
      (unmasked mask n = true ->
       comment_match a = comment_match b
       /\ (comment_match a = true ->
           lang_tags_search a = lang_tags_search b
           /\ no_suffix_search a = no_suffix_search b))
      /\ same_read mask (S n) r1 r2
  | _, _ => False
  end.

End md_reading.

Section md_errors_def.
Context {G : MarkerGrammar}.

(** The error [extract_config_from_md] may raise on the lines from
    line [n] on: a duplicate of [name], found at line [k], which holds
    a declaration of that setting. *)
Definition raises_duplicate (mask : list bool) (n : nat)
    (lines : list string) (r : result Config) : Prop :=
  exists name k,
    r = Raise (duplicate_error name k)
    /\ n <= k < n + length lines
    /\ ((name = "lang_tags"
         /\ In k (map fst (declarations lang_tags_search mask n lines)))
        \/ (name = "no_suffix"
            /\ In k (map fst (declarations no_suffix_search mask n lines)))).

End md_errors_def.

(* ================================================================== *)
(** * Strings and dictionaries: basic facts *)
(* ================================================================== *)

Unset Implicit Arguments.

Lemma split_comma_not_nil (s : string) : split_comma s <> [].
Proof.
  destruct s as [|c r]; simpl; [discriminate|].
  destruct (Ascii.eqb c ","); [discriminate|].
  destruct (split_comma r); discriminate.
Qed.

(** Removing the spaces before splitting is removing them from each
    entry after splitting. *)
Lemma split_comma_remove_spaces (s : string) :
  split_comma (remove_spaces s) = map remove_spaces (split_comma s).
Proof.
  induction s as [|c r IH]; [reflexivity|].
  simpl. destruct (Ascii.eqb c " ") eqn:Esp.
  - apply Ascii.eqb_eq in Esp. subst c. simpl.
    destruct (split_comma r) as [|x xs] eqn:Er.
    + exfalso. exact (split_comma_not_nil r Er).
    + rewrite IH. reflexivity.
  - simpl. destruct (Ascii.eqb c ",") eqn:Eco.
    + simpl. rewrite IH. reflexivity.
    + rewrite IH. destruct (split_comma r) as [|x xs] eqn:Er.
      * exfalso. exact (split_comma_not_nil r Er).
      * simpl. rewrite Esp. reflexivity.
Qed.

Lemma split_comma_no_comma (e : string) :
  no_comma e -> split_comma e = [e].
Proof.
  unfold no_comma. induction e as [|c r IH]; simpl; [reflexivity|].
  intros H. apply orb_false_iff in H. destruct H as [Hc Hr].
  rewrite Hc, (IH Hr). reflexivity.
Qed.

Lemma split_comma_app (e rest : string) :
  no_comma e ->
  split_comma (e ++ String "," rest)%string = e :: split_comma rest.
Proof.
  unfold no_comma. induction e as [|c r IH]; simpl; [reflexivity|].
  intros H. apply orb_false_iff in H. destruct H as [Hc Hr].
  rewrite Hc, (IH Hr). reflexivity.
Qed.

(** Splitting the join of comma-free entries gives the entries back. *)
Lemma split_comma_join (es : list string) :
  es <> [] -> Forall no_comma es -> split_comma (join "," es) = es.
Proof.
  induction es as [|e es IH]; [congruence|].
  intros _ Hall. inversion Hall as [|? ? He Hes]; subst.
  destruct es as [|e' es'].
  - simpl. apply split_comma_no_comma. exact He.
  - change (join "," (e :: e' :: es'))
      with ((e ++ String "," (join "," (e' :: es')))%string).
    rewrite (split_comma_app _ _ He), IH; [reflexivity|discriminate|exact Hes].
Qed.

Lemma is_space_space : is_space " " = true.
Proof. reflexivity. Qed.

Lemma remove_spaces_no_whitespace (s : string) :
  no_whitespace s -> remove_spaces s = s.
Proof.
  unfold no_whitespace. induction s as [|c r IH]; simpl; [reflexivity|].
  intros H. apply orb_false_iff in H. destruct H as [Hc Hr].
  destruct (Ascii.eqb c " ") eqn:E.
  - apply Ascii.eqb_eq in E. subst c. rewrite is_space_space in Hc.
    discriminate.
  - rewrite (IH Hr). reflexivity.
Qed.

Lemma rstrip_no_whitespace (s : string) :
  no_whitespace s -> rstrip s = s.
Proof.
  unfold no_whitespace. induction s as [|c r IH]; simpl; [reflexivity|].
  intros H. apply orb_false_iff in H. destruct H as [Hc Hr].
  rewrite Hc, (IH Hr). reflexivity.
Qed.

Lemma strip_no_whitespace (s : string) :
  no_whitespace s -> strip s = s.
Proof.
  intros H. unfold strip.
  assert (Hl : lstrip s = s).
  { destruct s as [|c r]; [reflexivity|]. simpl.
    unfold no_whitespace in H. simpl in H.
    apply orb_false_iff in H. destruct H as [Hc _]. rewrite Hc. reflexivity. }
  rewrite Hl. apply rstrip_no_whitespace. exact H.
Qed.

Lemma has_char_app (p : ascii -> bool) (s t : string) :
  has_char p (s ++ t)%string = has_char p s || has_char p t.
Proof.
  induction s as [|c r IH]; simpl; [reflexivity|].
  rewrite IH. apply orb_assoc.
Qed.

Lemma remove_spaces_app (s t : string) :
  remove_spaces (s ++ t)%string
  = (remove_spaces s ++ remove_spaces t)%string.
Proof.
  induction s as [|c r IH]; simpl; [reflexivity|].
  destruct (Ascii.eqb c " "); simpl; rewrite IH; reflexivity.
Qed.

Lemma remove_spaces_spaces (n : nat) : remove_spaces (spaces n) = EmptyString.
Proof. induction n as [|n IH]; simpl; [reflexivity|exact IH]. Qed.

Lemma string_app_empty_r (s : string) : (s ++ EmptyString)%string = s.
Proof. induction s as [|c r IH]; simpl; [reflexivity|]. rewrite IH. reflexivity. Qed.

Lemma lstrip_spaces (n : nat) (s : string) :
  lstrip (spaces n ++ s)%string = lstrip s.
Proof. induction n as [|n IH]; simpl; [reflexivity|exact IH]. Qed.

Lemma lstrip_spaces_only (n : nat) : lstrip (spaces n) = EmptyString.
Proof. induction n as [|n IH]; simpl; [reflexivity|exact IH]. Qed.

Lemma rstrip_spaces (n : nat) : rstrip (spaces n) = EmptyString.
Proof. induction n as [|n IH]; simpl; [reflexivity|]. rewrite IH. reflexivity. Qed.

Lemma rstrip_app_spaces (s : string) (n : nat) :
  rstrip (s ++ spaces n)%string = rstrip s.
Proof.
  induction s as [|c r IH]; simpl; [apply rstrip_spaces|].
  rewrite IH. reflexivity.
Qed.

Lemma has_char_spaces (p : ascii -> bool) (n : nat) :
  p " "%char = false -> has_char p (spaces n) = false.
Proof.
  intros Hp. induction n as [|n IH]; simpl; [reflexivity|].
  rewrite Hp, IH. reflexivity.
Qed.

(** On a padded tag, removing the spaces and stripping both give the
    tag, and the entry holds no comma. *)
Lemma padded_tag_core (e : string) :
  padded_tag e -> remove_spaces e = strip e /\ no_comma e.
Proof.
  intros [a [b [core [Hws [Hco He]]]]]. subst e. split.
  - rewrite !remove_spaces_app, !remove_spaces_spaces.
    rewrite (remove_spaces_no_whitespace core Hws). simpl.
    rewrite string_app_empty_r.
    unfold strip. rewrite lstrip_spaces.
    destruct core as [|c r].
    + simpl. rewrite lstrip_spaces_only. reflexivity.
    + assert (Hl : lstrip (String c r ++ spaces b)%string
                   = (String c r ++ spaces b)%string).
      { unfold no_whitespace in Hws. simpl in Hws.
        apply orb_false_iff in Hws. destruct Hws as [Hc _].
        simpl. rewrite Hc. reflexivity. }
      rewrite Hl, rstrip_app_spaces.
      symmetry. apply rstrip_no_whitespace. exact Hws.
  - unfold no_comma in *. rewrite !has_char_app, Hco.
    rewrite !has_char_spaces by reflexivity. reflexivity.
Qed.

Lemma reserved_no_whitespace (k : string) :
  In k RESERVED_KEYWORDS -> no_whitespace k.
Proof.
  unfold RESERVED_KEYWORDS. simpl.
  intros [H|[H|[H|[]]]]; subst k; reflexivity.
Qed.

Lemma dict_mem_get {V} (d : dict V) (k : string) :
  dict_mem d k = match dict_get d k with Some _ => true | None => false end.
Proof. reflexivity. Qed.

(** ** Stripping *)

Lemma rstrip_idem (s : string) : rstrip (rstrip s) = rstrip s.
Proof.
  induction s as [|c r IH]; simpl; [reflexivity|].
  destruct (is_space c && is_empty (rstrip r)) eqn:E; [reflexivity|].
  simpl. rewrite IH, E. reflexivity.
Qed.

Lemma lstrip_head (s : string) :
  match lstrip s with
  | EmptyString => True
  | String c _ => is_space c = false
  end.
Proof.
  induction s as [|c r IH]; simpl; [exact I|].
  destruct (is_space c) eqn:E; [exact IH|exact E].
Qed.

Lemma strip_idem (s : string) : strip (strip s) = strip s.
Proof.
  unfold strip. pose proof (lstrip_head s) as H.
  destruct (lstrip s) as [|c r]; [reflexivity|].
  assert (Hr : rstrip (String c r) = String c (rstrip r)).
  { simpl. rewrite H. reflexivity. }
  rewrite Hr. change (lstrip (String c (rstrip r)))
    with (if is_space c then lstrip (rstrip r) else String c (rstrip r)).
  rewrite H, <- Hr. apply rstrip_idem.
Qed.

(* ================================================================== *)
(** * Extraction from a tree *)
(* ================================================================== *)

Section yml_extraction.
Variable py_repr : yaml -> string.

Lemma py_str_returns (v : yaml) :
  str_returns v = true -> exists s, py_str py_repr v = Ok s.
Proof.
  unfold str_returns, py_str. destruct v; intros H;
    try (apply negb_true_iff in H; rewrite H); eexists; reflexivity.
Qed.

Lemma py_str_raises (v : yaml) :
  str_returns v = false -> py_str py_repr v = Raise ValueError.
Proof.
  unfold str_returns, py_str. destruct v; intros H;
    try discriminate H; apply negb_false_iff in H; rewrite H; reflexivity.
Qed.

(** [str] raises nothing but [ValueError]. *)
Lemma py_str_error (v : yaml) (e : exn) :
  py_str py_repr v = Raise e -> e = ValueError.
Proof.
  unfold py_str. destruct v; try discriminate;
    destruct (has_long_int _); intros H; inversion H; reflexivity.
Qed.

Lemma str_strip_all_strings (entries : list string) :
  str_strip_all py_repr (map YStr entries) = Ok (map strip entries).
Proof.
  induction entries as [|e es IH]; simpl; [reflexivity|].
  rewrite IH. reflexivity.
Qed.

(** The comprehension over the items returns when [str] returns on
    each of them, with one stripped tag for each item. *)
Lemma str_strip_all_returns (elems : list yaml) :
  forallb str_returns elems = true ->
  exists l, str_strip_all py_repr elems = Ok l
            /\ length l = length elems
            /\ Forall (fun t => strip t = t) l.
Proof.
  induction elems as [|x xs IH]; simpl; intros H.
  - exists []. repeat split. constructor.
  - apply andb_true_iff in H. destruct H as [Hx Hxs].
    destruct (py_str_returns x Hx) as [s Hs]. rewrite Hs. simpl.
    destruct (IH Hxs) as [l [Hl [Hlen Hall]]]. rewrite Hl. simpl.
    exists (strip s :: l). split; [reflexivity|].
    split; [simpl; rewrite Hlen; reflexivity|].
    constructor; [apply strip_idem|exact Hall].
Qed.

Lemma str_strip_all_raises (elems : list yaml) :
  forallb str_returns elems = false ->
  str_strip_all py_repr elems = Raise ValueError.
Proof.
  induction elems as [|x xs IH]; simpl; intros H; [discriminate H|].
  destruct (str_returns x) eqn:Hx; simpl in H.
  - destruct (py_str_returns x Hx) as [s Hs]. rewrite Hs. simpl.
    rewrite (IH H). reflexivity.
  - rewrite (py_str_raises x Hx). reflexivity.
Qed.

(** The extractor on a tree with a mapping under [mmg]: the tags are
    read, then [no_suffix], each independently of the other. *)
Lemma extract_config_from_yml_mapping (top mmg : dict yaml) :
  dict_get top "mmg" = Some (YDict mmg) ->
  extract_config_from_yml py_repr (YDict top)
  = (tags <- lang_tags_of py_repr mmg ;;
     no_suffix <- no_suffix_of py_repr mmg ;;
     Ok (mkConfig tags no_suffix)).
Proof.
  intros Hm. unfold extract_config_from_yml, lang_tags_of, no_suffix_of.
  rewrite Hm. rewrite !dict_mem_get.
  destruct (dict_get mmg "lang_tags") as [v|]; simpl.
  - destruct v as [items|elems|s|c]; simpl;
      rewrite ?split_comma_remove_spaces;
      try destruct (str_strip_all py_repr elems) as [l|e]; simpl;
      try reflexivity;
      destruct (dict_get mmg "no_suffix") as [w|]; simpl; try reflexivity;
      destruct (py_str py_repr w); reflexivity.
  - destruct (dict_get mmg "no_suffix") as [w|]; simpl; [|reflexivity].
    destruct (py_str py_repr w); reflexivity.
Qed.

(** The extractor on a tree whose [mmg] section declares tags. *)
Lemma extract_config_from_yml_tags (top mmg : dict yaml) (v : yaml) :
  dict_get top "mmg" = Some (YDict mmg) ->
  dict_get mmg "lang_tags" = Some v ->
  extract_config_from_yml py_repr (YDict top)
  = (tags <- tags_of_value py_repr v ;;
     no_suffix <- no_suffix_of py_repr mmg ;;
     Ok (mkConfig tags no_suffix)).
Proof.
  intros Hm Hv. rewrite (extract_config_from_yml_mapping _ _ Hm).
  unfold lang_tags_of. rewrite Hv. reflexivity.
Qed.

Lemma extract_config_from_yml_no_mapping (top : dict yaml) :
  (forall mmg, dict_get top "mmg" <> Some (YDict mmg)) ->
  extract_config_from_yml py_repr (YDict top) = Ok Config_default.
Proof.
  intros H. unfold extract_config_from_yml.
  destruct (dict_get top "mmg") as [v|] eqn:E.
  - destruct v; try reflexivity. exfalso. exact (H items eq_refl).
  - reflexivity.
Qed.

(** What reading the tags comes to. *)
Lemma lang_tags_of_outcome (mmg : dict yaml) :
  match dict_get mmg "lang_tags" with
  | Some (YList elems) =>
      if forallb str_returns elems
      then exists l, lang_tags_of py_repr mmg = Ok (Tags l)
      else lang_tags_of py_repr mmg = Raise ValueError
  | _ => exists tags, lang_tags_of py_repr mmg = Ok tags
  end.
Proof.
  unfold lang_tags_of.
  destruct (dict_get mmg "lang_tags") as [v|]; [|eexists; reflexivity].
  destruct v as [items|elems|s|c]; try (eexists; reflexivity).
  simpl. destruct (forallb str_returns elems) eqn:E.
  - destruct (str_strip_all_returns elems E) as [l [Hl _]].
    rewrite Hl. eexists. reflexivity.
  - rewrite (str_strip_all_raises elems E). reflexivity.
Qed.

(** What reading [no_suffix] comes to. *)
Lemma no_suffix_of_outcome (mmg : dict yaml) :
  match dict_get mmg "no_suffix" with
  | Some v =>
      if str_returns v
      then exists tag, no_suffix_of py_repr mmg = Ok (Some tag)
                       /\ strip tag = tag
      else no_suffix_of py_repr mmg = Raise ValueError
  | None => no_suffix_of py_repr mmg = Ok None
  end.
Proof.
  unfold no_suffix_of.
  destruct (dict_get mmg "no_suffix") as [v|]; [|reflexivity].
  destruct (str_returns v) eqn:E.
  - destruct (py_str_returns v E) as [s Hs]. rewrite Hs. simpl.
    eexists. split; [reflexivity|apply strip_idem].
  - rewrite (py_str_raises v E). reflexivity.
Qed.

(** On a mapping under [mmg], the extractor returns exactly when
    [str] returns wherever it is taken, and raises [ValueError]
    otherwise. *)
Lemma extract_config_from_yml_returns (top mmg : dict yaml) :
  dict_get top "mmg" = Some (YDict mmg) ->
  if mmg_str_returns mmg
  then exists cfg, extract_config_from_yml py_repr (YDict top) = Ok cfg
  else extract_config_from_yml py_repr (YDict top) = Raise ValueError.
Proof.
  intros Hm. rewrite (extract_config_from_yml_mapping _ _ Hm).
  unfold mmg_str_returns.
  pose proof (lang_tags_of_outcome mmg) as HL.
  pose proof (no_suffix_of_outcome mmg) as HN.
  assert (Hns : forall tags,
    if match dict_get mmg "no_suffix" with
       | Some v => str_returns v
       | None => true
       end
    then exists cfg,
           (no_suffix <- no_suffix_of py_repr mmg ;;
            Ok (mkConfig tags no_suffix)) = Ok cfg
    else (no_suffix <- no_suffix_of py_repr mmg ;;
          Ok (mkConfig tags no_suffix)) = Raise ValueError).
  { intros tags. destruct (dict_get mmg "no_suffix") as [v|].
    - destruct (str_returns v).
      + destruct HN as [tag [Ht _]]. rewrite Ht. eexists. reflexivity.
      + rewrite HN. reflexivity.
    - rewrite HN. eexists. reflexivity. }
  destruct (dict_get mmg "lang_tags") as [v|].
  - destruct v as [items|elems|s|c];
      try (destruct HL as [tags Ht]; rewrite Ht; simpl; apply Hns).
    destruct (forallb str_returns elems).
    + destruct HL as [l Hl]. rewrite Hl. simpl. apply Hns.
    + rewrite HL. reflexivity.
  - destruct HL as [tags Ht]. rewrite Ht. simpl. apply Hns.
Qed.

(** C9, as the code has it. On a dictionary, [extract_config_from_yml]
    never raises [BadConfigError]: neither of its two "already
    defined" branches is ever taken. It raises nothing but the
    [ValueError] of [str] on an integer too long to print, and with a
    mapping under [mmg] it returns a [Config] exactly when [str]
    returns on the items of a list of tags and on the value of
    [no_suffix]. When the key [mmg] is absent, or holds something
    that is not a mapping, it returns the default [Config], with no
    tag and no [no_suffix]. *)
Theorem extract_config_from_yml_never_BadConfigError (top : dict yaml) :
  (forall msg,
      extract_config_from_yml py_repr (YDict top)
      <> Raise (BadConfigError msg))
  /\ (forall e, extract_config_from_yml py_repr (YDict top) = Raise e ->
                e = ValueError)
  /\ (forall mmg, dict_get top "mmg" = Some (YDict mmg) ->
      ((exists cfg, extract_config_from_yml py_repr (YDict top) = Ok cfg)
       <-> mmg_str_returns mmg = true))
  /\ (dict_get top "mmg" = None ->
      extract_config_from_yml py_repr (YDict top)
      = Ok (mkConfig (Tags []) None))
  /\ (forall v, dict_get top "mmg" = Some v ->
      (forall mmg, v <> YDict mmg) ->
      extract_config_from_yml py_repr (YDict top)
      = Ok (mkConfig (Tags []) None)).
Proof.
  assert (Hcases :
            (exists mmg, dict_get top "mmg" = Some (YDict mmg))
            \/ (forall mmg, dict_get top "mmg" <> Some (YDict mmg))).
  { destruct (dict_get top "mmg") as [v|]; [|right; discriminate].
    destruct v; try (right; discriminate). left. eexists. reflexivity. }
  assert (Herr : forall e,
             extract_config_from_yml py_repr (YDict top) = Raise e ->
             e = ValueError).
  { intros e He. destruct Hcases as [[mmg Hm]|Hn].
    - pose proof (extract_config_from_yml_returns top mmg Hm) as H.
      destruct (mmg_str_returns mmg).
      + destruct H as [cfg Hcfg]. congruence.
      + rewrite H in He. inversion He. reflexivity.
    - rewrite (extract_config_from_yml_no_mapping _ Hn) in He.
      discriminate He. }
  split; [|split; [exact Herr|split; [|split]]].
  - intros msg He. apply Herr in He. discriminate He.
  - intros mmg Hm.
    pose proof (extract_config_from_yml_returns top mmg Hm) as H.
    destruct (mmg_str_returns mmg).
    + split; [reflexivity|intros _; exact H].
    + split; [|discriminate]. intros [cfg Hcfg]. congruence.
  - intros Hnone. apply extract_config_from_yml_no_mapping.
    intros mmg. rewrite Hnone. discriminate.
  - intros v Hv Hnot. apply extract_config_from_yml_no_mapping.
    intros mmg. rewrite Hv. intros E. inversion E. exact (Hnot mmg H0).
Qed.

(** C8, as the code has it. For a sequence of entries that is not
    empty and whose entries are tags without comma or whitespace, with
    spaces before and after them at most, the comma-separated string
    joining the entries and the list of the entries give the same
    [Config]. *)
Theorem extract_config_from_yml_forms_agree
    (top_s top_l mmg_s mmg_l : dict yaml) (entries : list string) :
  entries <> [] ->
  Forall padded_tag entries ->
  dict_get top_s "mmg" = Some (YDict mmg_s) ->
  dict_get top_l "mmg" = Some (YDict mmg_l) ->
  dict_get mmg_s "lang_tags" = Some (YStr (join "," entries)) ->
  dict_get mmg_l "lang_tags" = Some (YList (map YStr entries)) ->
  dict_get mmg_s "no_suffix" = dict_get mmg_l "no_suffix" ->
  extract_config_from_yml py_repr (YDict top_s)
  = extract_config_from_yml py_repr (YDict top_l).
Proof.
  intros Hne Hpad Hs Hl Hds Hdl Hns.
  assert (Hco : Forall no_comma entries).
  { eapply Forall_impl; [|exact Hpad].
    intros e He. apply (padded_tag_core e He). }
  rewrite (extract_config_from_yml_mapping _ _ Hs),
          (extract_config_from_yml_mapping _ _ Hl).
  unfold lang_tags_of, no_suffix_of. rewrite Hds, Hdl, Hns. simpl.
  rewrite str_strip_all_strings. simpl.
  rewrite (split_comma_join _ Hne Hco).
  assert (Hmap : map remove_spaces entries = map strip entries).
  { apply map_ext_in. intros e He.
    rewrite Forall_forall in Hpad.
    apply (padded_tag_core e (Hpad e He)). }
  rewrite Hmap. reflexivity.
Qed.

End yml_extraction.

(* ================================================================== *)
(** * Extraction from a markdown document *)
(* ================================================================== *)

Section md_extraction.
Context {G : MarkerGrammar}.

Lemma declarations_from (search : string -> option string)
    (mask : list bool) (lines : list string) (n : nat) :
  Forall (fun d => n <= fst d) (declarations search mask n lines).
Proof.
  revert n. induction lines as [|line rest IH]; intros n; simpl.
  - constructor.
  - assert (Hlater : Forall (fun d => n <= fst d)
                       (declarations search mask (S n) rest)).
    { eapply Forall_impl; [|apply (IH (S n))]. simpl. intros d Hd. lia. }
    destruct (unmasked mask n && comment_match line); [|exact Hlater].
    destruct (search line); [|exact Hlater].
    constructor; [simpl; lia|exact Hlater].
Qed.

Lemma redefined_line_from (seen : bool) (decls : list (nat * string))
    (n b : nat) :
  Forall (fun d => n <= fst d) decls ->
  redefined_line seen decls = Some b -> n <= b.
Proof.
  revert seen. induction decls as [|d rest IH]; simpl; intros seen H E;
    [discriminate E|].
  inversion H as [|? ? Hd Hrest]; subst.
  destruct seen; [inversion E; subst; exact Hd|].
  exact (IH _ Hrest E).
Qed.

Lemma dup_line_from (seen : bool) (decls : list (nat * string))
    (n a : nat) :
  Forall (fun d => n <= fst d) decls ->
  dup_line seen decls = Some a -> n <= a.
Proof.
  intros H. rewrite Forall_forall in H.
  unfold dup_line. destruct seen.
  - destruct decls as [|d ds]; simpl; [discriminate|].
    intros E. inversion E. subst a. apply H. left. reflexivity.
  - destruct decls as [|d [|d' ds]]; simpl; try discriminate.
    intros E. inversion E. subst a. apply H. right. left. reflexivity.
Qed.

Lemma dup_line_cons (seen : bool) (d : nat * string)
    (decls : list (nat * string)) :
  dup_line seen (d :: decls)
  = if seen then Some (fst d) else dup_line true decls.
Proof. destruct seen; [reflexivity|]. destruct decls; reflexivity. Qed.

Lemma last_cons {A} (d x : A) (rest : list A) :
  last (d :: rest) x = last rest d.
Proof.
  revert d x. induction rest as [|y r IH]; intros d x; [reflexivity|].
  change (last (d :: y :: r) x) with (last (y :: r) x).
  rewrite (IH y x), (IH y d). reflexivity.
Qed.

Lemma last_no_suffix_cons (old : option string) (n : nat) (q : string)
    (decls : list (nat * string)) :
  last_no_suffix old ((n, q) :: decls) = last_no_suffix (Some q) decls.
Proof.
  destruct decls as [|d rest]; [reflexivity|].
  unfold last_no_suffix. rewrite last_cons. reflexivity.
Qed.

Lemma truthy_split (p : string) :
  truthy_tags (Tags (split_comma (remove_spaces p))) = true.
Proof.
  simpl. destruct (split_comma (remove_spaces p)) eqn:E; [|reflexivity].
  exfalso. exact (split_comma_not_nil _ E).
Qed.

(** A line that is skipped leaves the loop as it is. *)
Lemma loop_outcome_eta (cfg : Config) :
  mkConfig (lang_tags cfg) (no_suffix cfg) = cfg.
Proof. destruct cfg; reflexivity. Qed.

Lemma loop_outcome_nil (cfg : Config) : loop_outcome cfg [] [] = Ok cfg.
Proof.
  unfold loop_outcome. simpl.
  destruct (truthy_tags (lang_tags cfg)); simpl;
    rewrite loop_outcome_eta; reflexivity.
Qed.

Ltac leb_cases :=
  repeat match goal with
         | |- context [Nat.leb ?a ?b] =>
             destruct (Nat.leb_spec a b); try lia
         end.

(** What a comment line outside code blocks does to the outcome: the
    declarations it holds come first, the rest of the loop follows. *)
Lemma loop_outcome_line (n : nat) (cfg : Config) (lt ns : option string)
    (L N : list (nat * string)) :
  Forall (fun d => S n <= fst d) L ->
  Forall (fun d => S n <= fst d) N ->
  loop_outcome cfg
    (match lt with Some p => (n, p) :: L | None => L end)
    (match ns with Some q => (n, q) :: N | None => N end)
  = match (cfg1 <-
             match lt with
             | Some group2 =>
                 _ <- _check_duplicate_config_value
                        (truthy_tags (lang_tags cfg)) "lang_tags" ;;
                 Ok (mkConfig (Tags (split_comma (remove_spaces group2)))
                       (no_suffix cfg))
             | None => Ok cfg
             end ;;
           match ns with
           | Some group1 =>
               _ <- _check_duplicate_config_value
                      (truthy_opt_str (no_suffix cfg1)) "no_suffix" ;;
               Ok (mkConfig (lang_tags cfg1) (Some group1))
           | None => Ok cfg1
           end) with
    | Ok cfg2 => loop_outcome cfg2 L N
    | Raise (BadConfigError e) => Raise (BadConfigError (check_line e n))
    | Raise other => Raise other
    end.
Proof.
  intros HL HN.
  pose proof (fun s a => dup_line_from s L (S n) a HL) as BL.
  pose proof (fun s b => redefined_line_from s N (S n) b HN) as BN.
  unfold loop_outcome.
  assert (Ts : forall q, truthy_opt_str (Some q) = negb (is_empty q))
    by reflexivity.
  assert (Ft : forall old l, first_tags true old l = old) by reflexivity.
  assert (Ff : forall old d l,
             first_tags false old (d :: l)
             = Tags (split_comma (remove_spaces (snd d)))) by reflexivity.
  destruct lt as [p|], ns as [q|];
    destruct (truthy_tags (lang_tags cfg)) eqn:Sl;
    destruct (truthy_opt_str (no_suffix cfg)) eqn:Sn.
  all: repeat (progress
         (cbn [bind _check_duplicate_config_value lang_tags no_suffix
               redefined_line fst snd];
          rewrite ?Sl, ?Sn, ?truthy_split, ?Ts, ?Ft, ?Ff,
            ?dup_line_cons, ?last_no_suffix_cons)).
  all: try reflexivity.
  all: repeat match goal with
         | |- context [dup_line ?s ?l] =>
             let E := fresh "E" in
             destruct (dup_line s l) as [?a|] eqn:E;
             [apply BL in E|]
         | |- context [redefined_line ?s ?l] =>
             let E := fresh "E" in
             destruct (redefined_line s l) as [?b|] eqn:E;
             [apply BN in E|]
         end.
  all: leb_cases; try reflexivity.
Qed.

(** The loop of [extract_config_from_md], run from any line and any
    configuration read so far, comes to what the declarations ahead
    tell. *)
Lemma extract_loop_outcome (mask : list bool) (lines : list string) :
  forall (n : nat) (cfg : Config),
    n + length lines <= length mask ->
    extract_loop mask n lines cfg
    = loop_outcome cfg (declarations lang_tags_search mask n lines)
                       (declarations no_suffix_search mask n lines).
Proof.
  induction lines as [|line rest IH]; intros n cfg Hlen.
  - simpl. rewrite loop_outcome_nil. reflexivity.
  - simpl in Hlen.
    assert (Hlen' : S n + length rest <= length mask) by lia.
    destruct (nth_error mask n) as [b|] eqn:Em.
    2:{ apply nth_error_None in Em. lia. }
    cbn [extract_loop declarations]. unfold unmasked. rewrite Em.
    destruct b; cbn [andb]; [apply IH; exact Hlen'|].
    destruct (comment_match line) eqn:Ec; cbn [andb];
      [|apply IH; exact Hlen'].
    rewrite (loop_outcome_line n cfg (lang_tags_search line)
               (no_suffix_search line) _ _
               (declarations_from lang_tags_search mask rest (S n))
               (declarations_from no_suffix_search mask rest (S n))).
    unfold _try_update_lang_tags, _try_update_no_suffix.
    destruct (cfg1 <-
                match lang_tags_search line with
                | Some group2 =>
                    _ <- _check_duplicate_config_value
                           (truthy_tags (lang_tags cfg)) "lang_tags" ;;
                    Ok (mkConfig (Tags (split_comma (remove_spaces group2)))
                          (no_suffix cfg))
                | None => Ok cfg
                end ;;
              match no_suffix_search line with
              | Some group1 =>
                  _ <- _check_duplicate_config_value
                         (truthy_opt_str (no_suffix cfg1)) "no_suffix" ;;
                  Ok (mkConfig (lang_tags cfg1) (Some group1))
              | None => Ok cfg1
              end) as [cfg2|e]; [|reflexivity].
    apply IH. exact Hlen'.
Qed.

Lemma extract_config_from_md_outcome (doc : list string) :
  length (flag_code_block_lines doc) = length doc ->
  extract_config_from_md doc
  = loop_outcome Config_default (lang_tags_decls doc) (no_suffix_decls doc).
Proof.
  intros Hlen. unfold extract_config_from_md.
  apply extract_loop_outcome. simpl. lia.
Qed.




(** ** Notebooks *)

Lemma md_lines_app (cs cs' : list cell) :
  md_lines (cs ++ cs') = md_lines cs ++ md_lines cs'.
Proof.
  unfold md_lines. rewrite filter_app, map_app, flat_map_app. reflexivity.
Qed.

Lemma length_chars (s : string) : length (chars s) = String.length s.
Proof.
  unfold chars. rewrite length_map.
  induction s as [|c r IH]; simpl; [reflexivity|]. rewrite IH. reflexivity.
Qed.

(** The loop over two stretches of lines is the loop over the first,
    then over the second from where the first ends. *)
Lemma extract_loop_app (mask : list bool) (A B : list string) :
  forall (n : nat) (cfg : Config),
    extract_loop mask n (A ++ B) cfg
    = (cfg' <- extract_loop mask n A cfg ;;
       extract_loop mask (n + length A) B cfg').
Proof.
  induction A as [|line rest IH]; intros n cfg; simpl.
  - rewrite Nat.add_0_r. reflexivity.
  - replace (n + S (length rest)) with (S n + length rest) by lia.
    destruct (nth_error mask n) as [[|]|]; [apply IH| |reflexivity].
    destruct (comment_match line); [|apply IH].
    destruct (cfg1 <- _try_update_lang_tags line cfg ;;
              _try_update_no_suffix line cfg1) as [cfg2|e].
    + apply IH.
    + destruct e; reflexivity.
Qed.

(** Over the characters of a string, read as lines, the loop leaves
    the configuration as it finds it. *)
Lemma extract_loop_chars (mask : list bool) (s : string) :
  (forall c, lang_tags_search (String c EmptyString) = None
             /\ no_suffix_search (String c EmptyString) = None) ->
  forall (n : nat) (cfg : Config),
    n + String.length s <= length mask ->
    extract_loop mask n (chars s) cfg = Ok cfg.
Proof.
  intros Hone. induction s as [|c r IH]; intros n cfg Hlen.
  - reflexivity.
  - simpl in Hlen. change (chars (String c r))
      with (String c EmptyString :: chars r).
    simpl. destruct (nth_error mask n) as [[|]|] eqn:Em.
    + apply IH. lia.
    + destruct (Hone c) as [Hl Hn].
      unfold _try_update_lang_tags, _try_update_no_suffix.
      rewrite Hl. simpl. rewrite Hn.
      destruct (comment_match (String c EmptyString)); apply IH; lia.
    + apply nth_error_None in Em. lia.
Qed.

(** C10. [extract_config_from_jupyter] flattens a markdown cell whose
    ["source"] is one string into its characters, each read as a
    line. No directive pattern matches a line of one character, so
    the cell adds nothing to the [Config]: the extraction comes to
    running the loop over the lines before the cell and then over
    the lines after it, the configuration passing over the cell
    unchanged. *)
Theorem extract_config_from_jupyter_string_source
    (pre post : list cell) (c : cell) (s : string) :
  (forall ch, lang_tags_search (String ch EmptyString) = None
              /\ no_suffix_search (String ch EmptyString) = None) ->
  is_markdown c = true ->
  source c = SrcStr s ->
  let nb := mkNotebook (pre ++ c :: post) in
  let doc := md_lines (cells nb) in
  let mask := flag_code_block_lines doc in
  length mask = length doc ->
  doc = md_lines pre ++ chars s ++ md_lines post
  /\ Forall (fun line => String.length line = 1
                         /\ lang_tags_search line = None
                         /\ no_suffix_search line = None) (chars s)
  /\ (forall n cfg, n + String.length s <= length mask ->
        extract_loop mask n (chars s) cfg = Ok cfg)
  /\ extract_config_from_jupyter nb
     = (cfg <- extract_loop mask 0 (md_lines pre) Config_default ;;
        extract_loop mask (length (md_lines pre) + String.length s)
          (md_lines post) cfg).
Proof.
  intros Hone Hmd Hsrc nb doc mask Hlen.
  assert (Hdoc : doc = md_lines pre ++ chars s ++ md_lines post).
  { unfold doc, nb. simpl.
    change (pre ++ c :: post) with (pre ++ [c] ++ post).
    rewrite !md_lines_app. f_equal. f_equal.
    unfold md_lines. simpl. rewrite Hmd. simpl. rewrite Hsrc.
    simpl. apply app_nil_r. }
  split; [exact Hdoc|]. split; [|split].
  - unfold chars. apply Forall_forall. intros line Hin.
    apply in_map_iff in Hin. destruct Hin as [ch [Hch _]]. subst line.
    destruct (Hone ch) as [Hl Hn]. repeat split; assumption.
  - intros n cfg Hn. apply extract_loop_chars; assumption.
  - unfold extract_config_from_jupyter, extract_config_from_md.
    fold (md_lines (cells nb)). fold doc. fold mask.
    rewrite Hdoc at 1. rewrite extract_loop_app.
    destruct (extract_loop mask 0 (md_lines pre) Config_default)
      as [cfg|e]; [|reflexivity].
    simpl. rewrite extract_loop_app.
    rewrite extract_loop_chars; [|exact Hone|].
    + simpl. rewrite length_chars. reflexivity.
    + rewrite Hlen, Hdoc, !length_app, length_chars. lia.
Qed.

End md_extraction.

(* ================================================================== *)
(** * The health gate *)
(* ================================================================== *)

Section gate.
Context {G : MarkerGrammar} {HC : HealthChecker}.
Context {MC : MarkdownClassifier} {TOC : MarkdownToc MC}.
Context {JC : JupyterClassifier}.
Variable py_repr : yaml -> string.

(** With the check neither skipped nor overridden, a verdict other
    than [HEALTHY] makes [_health_check] raise. *)
Lemma _health_check_raises (b : base) (cfg : Config) (extension : string)
    (status : HealthStatus) (messages : list string) :
  health_check b cfg extension = Ok (status, messages) ->
  is_healthy status = false ->
  _health_check b cfg extension false false
  = Raise (BadConfigError (health_check_failed status messages)).
Proof.
  intros Hrun Hbad. unfold _health_check. simpl. rewrite Hrun. simpl.
  rewrite Hbad. reflexivity.
Qed.

(** C2, as the code has it. At each of the four entry points, with
    the check neither skipped nor overridden and a verdict other
    than [HEALTHY], the call raises, whatever the classifiers are,
    so before any classification; the error is a [BadConfigError],
    the type of the configuration error itself, and its message
    holds the name of the verdict and the diagnostic messages in
    their order, one per line. *)
Theorem health_gate_raises (status : HealthStatus) (messages : list string) :
  is_healthy status = false ->
  (forall base_doc cfg0 cfg,
      cfg_or cfg0 (extract_config_from_md base_doc) = Ok cfg ->
      health_check (BaseMd base_doc) cfg "md" = Ok (status, messages) ->
      convert_base_doc base_doc cfg0 false false
      = Raise (BadConfigError (health_check_failed status messages)))
  /\ (forall base_md cfg0 cfg,
      cfg_or cfg0 (extract_config_from_md (splitlines base_md)) = Ok cfg ->
      health_check (BaseMd (splitlines base_md)) cfg "md"
      = Ok (status, messages) ->
      convert base_md cfg0 false false
      = Raise (BadConfigError (health_check_failed status messages)))
  /\ (forall base_jn cfg0 cfg,
      cfg_or cfg0 (extract_config_from_jupyter base_jn) = Ok cfg ->
      health_check (BaseJn base_jn) cfg "ipynb" = Ok (status, messages) ->
      convert_base_jupyter base_jn cfg0 false false
      = Raise (BadConfigError (health_check_failed status messages)))
  /\ (forall base_yml cfg0 cfg,
      cfg_or cfg0 (extract_config_from_yml py_repr base_yml) = Ok cfg ->
      health_check (BaseYml base_yml) cfg "yml" = Ok (status, messages) ->
      convert_base_yml py_repr base_yml cfg0 false false
      = Raise (BadConfigError (health_check_failed status messages)))
  /\ health_check_failed status messages
     = ("Health check failed." ++ nl ++ " - Status: " ++ status_name status
        ++ nl ++ " - Error:" ++ nl ++ join nl messages)%string.
Proof.
  intros Hbad. repeat split.
  - intros base_doc cfg0 cfg Hcfg Hrun. unfold convert_base_doc.
    rewrite Hcfg. simpl. rewrite (_health_check_raises _ _ _ _ _ Hrun Hbad).
    reflexivity.
  - intros base_md cfg0 cfg Hcfg Hrun. unfold convert, convert_base_doc.
    rewrite Hcfg. simpl. rewrite (_health_check_raises _ _ _ _ _ Hrun Hbad).
    reflexivity.
  - intros base_jn cfg0 cfg Hcfg Hrun. unfold convert_base_jupyter.
    rewrite Hcfg. simpl. rewrite (_health_check_raises _ _ _ _ _ Hrun Hbad).
    reflexivity.
  - intros base_yml cfg0 cfg Hcfg Hrun. unfold convert_base_yml.
    rewrite Hcfg. simpl. rewrite (_health_check_raises _ _ _ _ _ Hrun Hbad).
    reflexivity.
Qed.

End gate.

(* ================================================================== *)
(** * The classification engine: routing *)
(* ================================================================== *)

Lemma dict_get_set {V} (d : dict V) (k k' : string) (v : V) :
  dict_get (dict_set d k v) k'
  = if String.eqb k k' then Some v else dict_get d k'.
Proof.
  induction d as [|[k0 v0] d IH]; simpl.
  - reflexivity.
  - destruct (String.eqb k0 k) eqn:E0; simpl.
    + apply String.eqb_eq in E0. subst k0.
      destruct (String.eqb k k'); reflexivity.
    + destruct (String.eqb k0 k') eqn:E1.
      * apply String.eqb_eq in E1. subst k0.
        rewrite String.eqb_sym in E0. rewrite E0. reflexivity.
      * exact IH.
Qed.

Lemma dict_get_map {V W} (f : V -> W) (d : dict V) (k : string) :
  dict_get (map (fun kv => (fst kv, f (snd kv))) d) k
  = option_map f (dict_get d k).
Proof.
  induction d as [|[k0 v0] d IH]; simpl; [reflexivity|].
  destruct (String.eqb k0 k); [reflexivity|exact IH].
Qed.

Lemma dict_get_fold_set {V} (f : string -> V) (keys : list string) :
  forall (d : dict V) (k : string),
    dict_get (fold_left (fun d k => dict_set d k (f k)) keys d) k
    = if existsb (String.eqb k) keys then Some (f k) else dict_get d k.
Proof.
  induction keys as [|k0 keys IH]; intros d k; simpl; [reflexivity|].
  rewrite IH, dict_get_set.
  destruct (existsb (String.eqb k) keys) eqn:Ex.
  - rewrite orb_true_r. reflexivity.
  - rewrite orb_false_r. rewrite (String.eqb_sym k k0).
    destruct (String.eqb k0 k) eqn:E; [|reflexivity].
    apply String.eqb_eq in E. subst. reflexivity.
Qed.

Lemma existsb_eqb_In (k : string) (keys : list string) :
  existsb (String.eqb k) keys = true <-> In k keys.
Proof.
  rewrite existsb_exists. split.
  - intros [x [Hin E]]. apply String.eqb_eq in E. subst. exact Hin.
  - intros Hin. exists k. split; [exact Hin|apply String.eqb_refl].
Qed.

(** A comprehension holds a value for each of its keys. *)
Lemma dict_get_comp {V} (f : string -> V) (keys : list string) (k : string) :
  In k keys -> dict_get (dict_comp keys f) k = Some (f k).
Proof.
  intros Hin. unfold dict_comp. rewrite dict_get_fold_set.
  apply existsb_eqb_In in Hin. rewrite Hin. reflexivity.
Qed.

Section classifier_facts.
Variable marker_of : string -> option Marker.

(** A content line read under [active] is appended to the output of
    [T] when it reaches [T], and leaves that output alone otherwise. *)
Lemma route_get (docs : dict (list string)) (active line T : string) :
  dict_get (route docs active line) T
  = option_map
      (fun doc => doc ++ (if reaches T active then [line] else []))
      (dict_get docs T).
Proof.
  assert (Hid : forall o : option (list string),
             o = option_map (fun doc => doc ++ []) o).
  { intros [d|]; simpl; [rewrite app_nil_r|]; reflexivity. }
  unfold route, reaches, emit_all.
  destruct (String.eqb active UNKNOWN); simpl;
    [exact (dict_get_map (fun doc => doc ++ [line]) docs T)|].
  destruct (String.eqb active COMMON); simpl;
    [exact (dict_get_map (fun doc => doc ++ [line]) docs T)|].
  destruct (String.eqb active IGNORE); simpl; [apply Hid|].
  rewrite dict_mem_get. unfold emit_one.
  destruct (String.eqb active T) eqn:E.
  - apply String.eqb_eq in E. subst T.
    destruct (dict_get docs active) as [doc|] eqn:Eg.
    + rewrite dict_get_set, String.eqb_refl. reflexivity.
    + rewrite Eg. reflexivity.
  - destruct (dict_get docs active) as [doc|] eqn:Eg; [|apply Hid].
    rewrite dict_get_set, E. apply Hid.
Qed.

(** The state machine, run from any state: each output grows by the
    content lines that reach it, in their order. *)
Lemma classify_from_get (lines : list string) :
  forall (active : string) (docs : dict (list string)) (T : string),
    dict_get (snd (fold_left (classify_step marker_of) lines
                     (active, docs))) T
    = option_map
        (fun doc =>
           doc ++ map snd (filter (fun g => reaches T (fst g))
                             (governed marker_of active lines)))
        (dict_get docs T).
Proof.
  induction lines as [|line rest IH]; intros active docs T; simpl.
  - destruct (dict_get docs T); simpl; [rewrite app_nil_r|]; reflexivity.
  - unfold classify_step at 2. simpl.
    destruct (marker_of line) as [[tag|tags|tag]|]; try apply IH.
    rewrite IH, route_get. simpl.
    destruct (dict_get docs T) as [doc|]; simpl; [|reflexivity].
    destruct (reaches T active); simpl.
    + rewrite <- app_assoc. reflexivity.
    + rewrite app_nil_r. reflexivity.
Qed.

(** The output of a declared tag. *)
Lemma classify_get (tags lines : list string) (T : string) :
  In T tags ->
  dict_get (classify marker_of tags lines) T
  = Some (map snd (filter (fun g => reaches T (fst g))
                     (governed marker_of UNKNOWN lines))).
Proof.
  intros Hin. unfold classify.
  rewrite classify_from_get, (dict_get_comp _ _ _ Hin). reflexivity.
Qed.

(** No marker line is a content line. *)
Lemma governed_content (lines : list string) :
  forall active,
    Forall (fun g => marker_of (snd g) = None)
           (governed marker_of active lines).
Proof.
  induction lines as [|line rest IH]; intros active; simpl;
    [constructor|].
  destruct (marker_of line) as [[tag|tags|tag]|] eqn:E; try apply IH.
  constructor; [exact E|apply IH].
Qed.

(** C1. For every declared tag set and every document, the output of
    a declared tag [T] is made, in the order of the document, of
    exactly the content lines that reach [T]: a line read under a
    marker of a tag that is not a reserved keyword reaches [T] if
    and only if that tag is [T], so it appears in the output of its
    own tag and in no other; a line read under [common] reaches
    every declared tag; a line read under [ignore] reaches none. No
    marker line, language switch or configuration declaration, is a
    content line: none appears in the output. *)
Theorem classify_round_trip (tags lines : list string) (T : string) :
  In T tags ->
  dict_get (classify marker_of tags lines) T
  = Some (map snd (filter (fun g => reaches T (fst g))
                     (governed marker_of UNKNOWN lines)))
  /\ (forall active, ~ In active RESERVED_KEYWORDS ->
        (reaches T active = true <-> active = T))
  /\ reaches T COMMON = true
  /\ reaches T IGNORE = false
  /\ (forall doc, dict_get (classify marker_of tags lines) T = Some doc ->
        Forall (fun line => marker_of line = None) doc).
Proof.
  intros Hin. split; [exact (classify_get _ _ _ Hin)|].
  split; [|split; [reflexivity|split; [reflexivity|]]].
  - intros active Hres. unfold reaches.
    assert (Hu : String.eqb active UNKNOWN = false).
    { apply String.eqb_neq. intros E. apply Hres. subst. simpl. tauto. }
    assert (Hc : String.eqb active COMMON = false).
    { apply String.eqb_neq. intros E. apply Hres. subst. simpl. tauto. }
    assert (Hi : String.eqb active IGNORE = false).
    { apply String.eqb_neq. intros E. apply Hres. subst. simpl. tauto. }
    rewrite Hu, Hc, Hi. simpl. apply String.eqb_eq.
  - intros doc Hdoc. rewrite (classify_get _ _ _ Hin) in Hdoc.
    inversion Hdoc. subst doc. clear Hdoc.
    apply Forall_forall. intros line Hl.
    apply in_map_iff in Hl. destruct Hl as [g [Hg Hf]]. subst line.
    apply filter_In in Hf. destruct Hf as [Hf _].
    pose proof (governed_content lines UNKNOWN) as Hall.
    rewrite Forall_forall in Hall. exact (Hall g Hf).
Qed.

End classifier_facts.

(* ================================================================== *)
(** * The conversion of a tree *)
(* ================================================================== *)

Lemma dict_keys_app {V} (d d' : dict V) :
  dict_keys (d ++ d') = dict_keys d ++ dict_keys d'.
Proof. unfold dict_keys. apply map_app. Qed.

Lemma dict_set_fresh {V} (d : dict V) (k : string) (v : V) :
  ~ In k (dict_keys d) -> dict_set d k v = d ++ [(k, v)].
Proof.
  induction d as [|[k0 v0] d IH]; simpl; intros Hk; [reflexivity|].
  destruct (String.eqb k0 k) eqn:E.
  - apply String.eqb_eq in E. exfalso. apply Hk. left. exact E.
  - rewrite IH; [reflexivity|]. intros Hin. apply Hk. right. exact Hin.
Qed.

Lemma dict_set_keys_mem {V} (d : dict V) (k : string) (v : V) :
  In k (dict_keys d) -> dict_keys (dict_set d k v) = dict_keys d.
Proof.
  induction d as [|[k0 v0] d IH]; simpl; intros Hk; [contradiction|].
  destruct (String.eqb k0 k) eqn:E; simpl; [reflexivity|].
  f_equal. apply IH. destruct Hk as [Hk|Hk]; [|exact Hk].
  apply String.eqb_neq in E. contradiction.
Qed.

Lemma dict_get_keys {V} (d : dict V) (k : string) :
  In k (dict_keys d) -> exists v, dict_get d k = Some v.
Proof.
  induction d as [|[k0 v0] d IH]; simpl; intros Hk; [contradiction|].
  destruct (String.eqb k0 k) eqn:E; [eexists; reflexivity|].
  apply IH. destruct Hk as [Hk|Hk]; [|exact Hk].
  apply String.eqb_neq in E. contradiction.
Qed.

(** Setting keys that are new and distinct appends them in order. *)
Lemma fold_set_fresh {A V} (key : A -> string) (val : A -> V) (xs : list A) :
  forall d : dict V,
    NoDup (map key xs) ->
    (forall x, In x xs -> ~ In (key x) (dict_keys d)) ->
    fold_left (fun d x => dict_set d (key x) (val x)) xs d
    = d ++ map (fun x => (key x, val x)) xs.
Proof.
  induction xs as [|x xs IH]; intros d Hnd Hfresh; simpl.
  - rewrite app_nil_r. reflexivity.
  - inversion Hnd as [|? ? Hx Hnd']; subst.
    rewrite dict_set_fresh by (apply Hfresh; left; reflexivity).
    rewrite IH; [rewrite <- app_assoc; reflexivity|exact Hnd'|].
    intros y Hy. rewrite dict_keys_app. simpl. intros Hin.
    apply in_app_or in Hin. destruct Hin as [Hin|[Hin|[]]].
    + exact (Hfresh y (or_intror Hy) Hin).
    + apply Hx. rewrite Hin. apply in_map. exact Hy.
Qed.

Lemma dict_comp_tab {V} (langs : list string) (f : string -> V) :
  NoDup langs -> dict_comp langs f = tab langs f.
Proof.
  intros Hnd. unfold dict_comp, tab.
  rewrite (fold_set_fresh (fun k => k) f); [reflexivity| |].
  - rewrite map_id. exact Hnd.
  - intros x _ [].
Qed.

Lemma dict_keys_tab {V} (langs : list string) (f : string -> V) :
  dict_keys (tab langs f) = langs.
Proof. unfold dict_keys, tab. rewrite map_map. simpl. apply map_id. Qed.

Lemma dict_get_tab {V} (langs : list string) (f : string -> V) (l : string) :
  In l langs -> dict_get (tab langs f) l = Some (f l).
Proof.
  induction langs as [|l0 langs IH]; simpl; intros Hin; [contradiction|].
  destruct (String.eqb l0 l) eqn:E.
  - apply String.eqb_eq in E. subst. reflexivity.
  - apply IH. destruct Hin as [Hin|Hin]; [|exact Hin].
    apply String.eqb_neq in E. contradiction.
Qed.

Lemma tab_ext {V} (langs : list string) (f g : string -> V) :
  (forall l, In l langs -> f l = g l) -> tab langs f = tab langs g.
Proof.
  intros H. unfold tab. apply map_ext_in. intros l Hl. rewrite (H l Hl).
  reflexivity.
Qed.

Lemma dict_set_tab {V} (langs : list string) (D : string -> V)
    (l0 : string) (v : V) :
  NoDup langs ->
  dict_set (tab langs D) l0 v
  = if existsb (String.eqb l0) langs
    then tab langs (fun l => if String.eqb l l0 then v else D l)
    else tab langs D ++ [(l0, v)].
Proof.
  induction langs as [|l langs IH]; intros Hnd; simpl; [reflexivity|].
  inversion Hnd as [|? ? Hl Hnd']; subst.
  rewrite (String.eqb_sym l0 l).
  destruct (String.eqb l l0) eqn:E; simpl.
  - apply String.eqb_eq in E. subst l0. f_equal.
    apply tab_ext. intros l' Hl'.
    destruct (String.eqb l' l) eqn:E'; [|reflexivity].
    apply String.eqb_eq in E'. subst. contradiction.
  - rewrite (IH Hnd'). destruct (existsb (String.eqb l0) langs); reflexivity.
Qed.

Lemma update_all_tab {V} (upd : V -> yaml -> V) (langs : list string)
    (f : string -> result yaml) (vf : string -> yaml) :
  NoDup langs ->
  forall (ls : list string) (D : string -> V),
    NoDup ls -> incl ls langs ->
    (forall l, In l ls -> f l = Ok (vf l)) ->
    update_all upd ls (tab langs D) f
    = Ok (tab langs (fun l => if existsb (String.eqb l) ls
                              then upd (D l) (vf l) else D l)).
Proof.
  intros Hnd. induction ls as [|l0 ls IH]; intros D Hnls Hincl Hf; simpl.
  - reflexivity.
  - inversion Hnls as [|? ? Hl0 Hnls']; subst.
    assert (Hin0 : In l0 langs) by (apply Hincl; left; reflexivity).
    rewrite (Hf l0 (or_introl eq_refl)). simpl.
    unfold dict_item. rewrite (dict_get_tab _ _ _ Hin0). simpl.
    rewrite (dict_set_tab _ _ _ _ Hnd).
    apply existsb_eqb_In in Hin0. rewrite Hin0.
    rewrite IH; [|exact Hnls'| |].
    + f_equal. apply tab_ext. intros l Hl.
      rewrite (String.eqb_sym l l0).
      destruct (String.eqb l0 l) eqn:E; simpl.
      * apply String.eqb_eq in E. subst l.
        destruct (existsb (String.eqb l0) ls) eqn:Ex; [|reflexivity].
        apply existsb_eqb_In in Ex. contradiction.
      * reflexivity.
    + intros l Hl. apply Hincl. right. exact Hl.
    + intros l Hl. apply Hf. right. exact Hl.
Qed.

Lemma update_all_tab_all {V} (upd : V -> yaml -> V) (langs : list string)
    (f : string -> result yaml) (vf : string -> yaml) (D : string -> V) :
  NoDup langs ->
  (forall l, In l langs -> f l = Ok (vf l)) ->
  update_all upd langs (tab langs D) f
  = Ok (tab langs (fun l => upd (D l) (vf l))).
Proof.
  intros Hnd Hf.
  rewrite (update_all_tab upd langs f vf Hnd langs D Hnd (incl_refl _) Hf).
  f_equal. apply tab_ext. intros l Hl.
  apply existsb_eqb_In in Hl. rewrite Hl. reflexivity.
Qed.

Lemma assign_all_update (key : string) (f : string -> result yaml)
    (ls : list string) :
  forall rd, assign_all ls rd key f
             = update_all (fun d v => dict_set d key v) ls rd f.
Proof.
  induction ls as [|l ls IH]; intros rd; simpl; [reflexivity|].
  destruct (f l) as [v|e]; simpl; [|reflexivity].
  destruct (dict_item rd l) as [d|e]; simpl; [apply IH|reflexivity].
Qed.

Lemma append_all_update (f : string -> result yaml) (ls : list string) :
  forall rd, append_all ls rd f = update_all (fun l v => l ++ [v]) ls rd f.
Proof.
  induction ls as [|l ls IH]; intros rd; simpl; [reflexivity|].
  destruct (f l) as [v|e]; simpl; [|reflexivity].
  destruct (dict_item rd l) as [d|e]; simpl; [apply IH|reflexivity].
Qed.

Lemma dict_comp_r_tab (f : string -> result yaml) (vf : string -> yaml)
    (ls : list string) :
  forall acc : dict yaml,
    (forall l, In l ls -> f l = Ok (vf l)) ->
    dict_comp_r ls acc f
    = Ok (fold_left (fun d k => dict_set d k (vf k)) ls acc).
Proof.
  induction ls as [|l ls IH]; intros acc Hf; simpl; [reflexivity|].
  rewrite (Hf l (or_introl eq_refl)). simpl. apply IH.
  intros l' Hl'. apply Hf. right. exact Hl'.
Qed.

Lemma yaml_induction (P : yaml -> Prop) :
  (forall items, Forall (fun kv => P (snd kv)) items -> P (YDict items)) ->
  (forall elems, Forall P elems -> P (YList elems)) ->
  (forall s, P (YStr s)) ->
  (forall c, P (YScalar c)) ->
  forall v, P v.
Proof.
  intros HD HL HS HC. fix IH 1. intros [items|elems|s|c].
  - apply HD. induction items as [|kv r IHr]; constructor;
      [apply IH|exact IHr].
  - apply HL. induction elems as [|x r IHr]; constructor;
      [apply IH|exact IHr].
  - apply HS.
  - apply HC.
Qed.

Lemma deepcopy_id (v : yaml) : deepcopy v = v.
Proof.
  induction v as [items IH|elems IH|s|c] using yaml_induction; simpl;
    try reflexivity.
  - f_equal. induction IH as [|[k x] r Hx _ IHr]; simpl; [reflexivity|].
    simpl in Hx. rewrite Hx, IHr. reflexivity.
  - f_equal. induction IH as [|x r Hx _ IHr]; simpl; [reflexivity|].
    rewrite Hx, IHr. reflexivity.
Qed.

Lemma wf_yaml_dict (items : dict yaml) :
  wf_yaml (YDict items)
  <-> NoDup (dict_keys items) /\ Forall (fun kv => wf_yaml (snd kv)) items.
Proof.
  simpl. apply and_iff_compat_l.
  induction items as [|kv r IH]; simpl.
  - split; [constructor|trivial].
  - rewrite IH. split.
    + intros [H1 H2]. constructor; assumption.
    + intros H. inversion H; subst. split; assumption.
Qed.

Lemma wf_yaml_list (elems : list yaml) :
  wf_yaml (YList elems) <-> Forall wf_yaml elems.
Proof.
  simpl. induction elems as [|x r IH]; simpl.
  - split; [constructor|trivial].
  - rewrite IH. split.
    + intros [H1 H2]. constructor; assumption.
    + intros H. inversion H; subst. split; assumption.
Qed.

Lemma same_shape_dict (g : string * yaml -> yaml) (items : dict yaml) :
  Forall (fun kv => if String.eqb (fst kv) "mmg" then g kv = snd kv
                    else same_shape (snd kv) (g kv)) items ->
  same_shape (YDict items) (YDict (map (fun kv => (fst kv, g kv)) items)).
Proof.
  intros H. simpl. induction H as [|kv r Hkv _ IH]; simpl; [exact I|].
  split; [reflexivity|]. split; [exact Hkv|exact IH].
Qed.

Lemma same_shape_list (g : yaml -> yaml) (elems : list yaml) :
  Forall (fun x => same_shape x (g x)) elems ->
  same_shape (YList elems) (YList (map g elems)).
Proof.
  intros H. simpl. induction H as [|x r Hx _ IH]; simpl; [exact I|].
  split; [exact Hx|exact IH].
Qed.

Section yml_conversion.
Context {MC : MarkdownClassifier}.
Variable cfg : Config.
Variable langs : list string.
Hypothesis Hlangs : tags_iter (lang_tags cfg) = Ok langs.
Hypothesis Hdocs :
  forall lines lang, In lang langs ->
    exists doc,
      dict_get (md_docs (md_classify (md_new (lang_tags cfg)) lines)) lang
      = Some doc.

Lemma per_lang_dict (lang : string) (items : dict yaml) :
  NoDup (dict_keys items) ->
  per_lang cfg lang (YDict items)
  = YDict (map (fun kv =>
                  (fst kv,
                   if String.eqb (fst kv) "mmg" then deepcopy (snd kv)
                   else per_lang cfg lang (snd kv))) items).
Proof.
  intros Hnd. simpl. f_equal.
  rewrite (fold_set_fresh fst
             (fun kv => if String.eqb (fst kv) "mmg" then deepcopy (snd kv)
                        else per_lang cfg lang (snd kv)));
    [reflexivity|exact Hnd|intros x _ []].
Qed.

(** The tree of one language has the shape of the input. *)
Lemma per_lang_shape (lang : string) (obj : yaml) :
  wf_yaml obj -> same_shape obj (per_lang cfg lang obj).
Proof.
  induction obj as [items IH|elems IH|s|c] using yaml_induction;
    intros Hwf.
  - apply wf_yaml_dict in Hwf. destruct Hwf as [Hnd Hall].
    rewrite (per_lang_dict _ _ Hnd).
    apply (same_shape_dict
             (fun kv => if String.eqb (fst kv) "mmg" then deepcopy (snd kv)
                        else per_lang cfg lang (snd kv))).
    rewrite Forall_forall in *. intros kv Hkv.
    destruct (String.eqb (fst kv) "mmg"); [apply deepcopy_id|].
    apply IH; [exact Hkv|apply Hall; exact Hkv].
  - apply wf_yaml_list in Hwf.
    change (per_lang cfg lang (YList elems))
      with (YList (map (per_lang cfg lang) elems)).
    apply same_shape_list. rewrite Forall_forall in *.
    intros x Hx. apply IH; [exact Hx|apply Hwf; exact Hx].
  - exact I.
  - reflexivity.
Qed.

Hypothesis Hnd : NoDup langs.

Lemma dict_loop_tab (process : yaml -> result (dict yaml))
    (items : dict yaml) :
  Forall (fun kv => process (snd kv)
                    = Ok (tab langs (fun l => per_lang cfg l (snd kv))))
         items ->
  forall D : string -> dict yaml,
    dict_loop process langs items (tab langs D)
    = Ok (tab langs
            (fun l =>
               fold_left
                 (fun d kv =>
                    dict_set d (fst kv)
                      (if String.eqb (fst kv) "mmg" then deepcopy (snd kv)
                       else per_lang cfg l (snd kv)))
                 items (D l))).
Proof.
  intros H. induction H as [|[key value] rest Hkv _ IH]; intros D; simpl.
  - reflexivity.
  - simpl in Hkv.
    destruct (String.eqb key "mmg") eqn:E.
    + rewrite assign_all_update.
      rewrite (update_all_tab_all _ langs _ (fun _ => deepcopy value) D Hnd)
        by reflexivity.
      simpl. rewrite IH. reflexivity.
    + rewrite Hkv. simpl. rewrite assign_all_update.
      rewrite (update_all_tab_all _ langs _
                 (fun l => per_lang cfg l value) D Hnd).
      * simpl. rewrite IH. reflexivity.
      * intros l Hl. unfold dict_item.
        rewrite (dict_get_tab _ _ _ Hl). reflexivity.
Qed.

Lemma list_loop_tab (process : yaml -> result (dict yaml))
    (elems : list yaml) :
  Forall (fun x => process x = Ok (tab langs (fun l => per_lang cfg l x)))
         elems ->
  forall D : string -> list yaml,
    list_loop process langs elems (tab langs D)
    = Ok (tab langs (fun l => D l ++ map (per_lang cfg l) elems)).
Proof.
  intros H. induction H as [|x rest Hx _ IH]; intros D; simpl.
  - f_equal. apply tab_ext. intros l _. rewrite app_nil_r. reflexivity.
  - rewrite Hx. simpl. rewrite append_all_update.
    rewrite (update_all_tab_all _ langs _ (fun l => per_lang cfg l x) D Hnd).
    + simpl. rewrite IH. f_equal. apply tab_ext. intros l _.
      rewrite <- app_assoc. reflexivity.
    + intros l Hl. unfold dict_item.
      rewrite (dict_get_tab _ _ _ Hl). reflexivity.
Qed.

(** [process_obj] builds, side by side, the tree of each language. *)
Lemma process_obj_tab (obj : yaml) :
  process_obj cfg obj = Ok (tab langs (fun l => per_lang cfg l obj)).
Proof.
  induction obj as [items IH|elems IH|s|c] using yaml_induction.
  - simpl. rewrite Hlangs. simpl.
    rewrite (dict_comp_tab _ _ Hnd), (dict_loop_tab _ _ IH). simpl.
    unfold tab. rewrite map_map. reflexivity.
  - simpl. rewrite Hlangs. simpl.
    rewrite (dict_comp_tab _ _ Hnd), (list_loop_tab _ _ IH). simpl.
    unfold tab. rewrite map_map. reflexivity.
  - simpl. rewrite Hlangs. simpl.
    rewrite (dict_comp_r_tab _ (fun l => YStr (text_for cfg l s))).
    + f_equal. apply (dict_comp_tab _ _ Hnd).
    + intros l Hl. unfold text_for, dict_item.
      destruct (Hdocs (splitlines s) l Hl) as [doc Hdoc].
      rewrite Hdoc. reflexivity.
  - simpl. rewrite Hlangs. simpl.
    rewrite (dict_comp_tab _ _ Hnd). reflexivity.
Qed.

End yml_conversion.

Lemma dict_keys_set {V} (d : dict V) (k : string) (v : V) :
  dict_keys (dict_set d k v)
  = if existsb (String.eqb k) (dict_keys d) then dict_keys d
    else dict_keys d ++ [k].
Proof.
  destruct (existsb (String.eqb k) (dict_keys d)) eqn:E.
  - apply dict_set_keys_mem. apply existsb_eqb_In. exact E.
  - rewrite dict_set_fresh; [rewrite dict_keys_app; reflexivity|].
    intros Hin. apply existsb_eqb_In in Hin. congruence.
Qed.

Lemma dict_keys_fold_set {V} (f : string -> V) (keys : list string) :
  forall d : dict V,
    dict_keys (fold_left (fun d k => dict_set d k (f k)) keys d)
    = dict_keys d ++ first_occurrences (dict_keys d) keys.
Proof.
  induction keys as [|k keys IH]; intros d; simpl.
  - rewrite app_nil_r. reflexivity.
  - rewrite IH, dict_keys_set.
    destruct (existsb (String.eqb k) (dict_keys d)); [reflexivity|].
    rewrite <- app_assoc. reflexivity.
Qed.

Lemma dict_keys_comp {V} (f : string -> V) (keys : list string) :
  dict_keys (dict_comp keys f) = first_occurrences [] keys.
Proof. unfold dict_comp. rewrite dict_keys_fold_set. reflexivity. Qed.

Lemma first_occurrences_In (k : string) (keys : list string) :
  forall seen, In k keys -> In k seen \/ In k (first_occurrences seen keys).
Proof.
  induction keys as [|k0 keys IH]; intros seen Hin; simpl; [contradiction|].
  destruct Hin as [Hin|Hin].
  - subst k0. destruct (existsb (String.eqb k) seen) eqn:E.
    + left. apply existsb_eqb_In. exact E.
    + right. left. reflexivity.
  - destruct (existsb (String.eqb k0) seen).
    + apply IH. exact Hin.
    + destruct (IH (seen ++ [k0]) Hin) as [H|H].
      * apply in_app_or in H. destruct H as [H|[H|[]]].
        -- left. exact H.
        -- right. left. exact H.
      * right. right. exact H.
Qed.

Lemma first_occurrences_NoDup (keys : list string) :
  NoDup keys -> first_occurrences [] keys = keys.
Proof.
  intros Hnd.
  rewrite <- (dict_keys_comp (fun _ => tt) keys), (dict_comp_tab _ _ Hnd).
  apply dict_keys_tab.
Qed.

Lemma update_all_keys {V} (upd : V -> yaml -> V)
    (f : string -> result yaml) (ls : list string) :
  forall rd : dict V,
    incl ls (dict_keys rd) ->
    (forall l, In l ls -> exists v, f l = Ok v) ->
    exists rd', update_all upd ls rd f = Ok rd'
                /\ dict_keys rd' = dict_keys rd.
Proof.
  induction ls as [|l ls IH]; intros rd Hincl Hf; simpl.
  - eexists. split; reflexivity.
  - destruct (Hf l (or_introl eq_refl)) as [v Hv]. rewrite Hv. simpl.
    assert (Hl : In l (dict_keys rd)) by (apply Hincl; left; reflexivity).
    destruct (dict_get_keys rd l Hl) as [x Hx].
    unfold dict_item. rewrite Hx. simpl.
    destruct (IH (dict_set rd l (upd x v))) as [rd' [Hrd' Hk]].
    + rewrite (dict_set_keys_mem _ _ _ Hl).
      intros l' Hl'. apply Hincl. right. exact Hl'.
    + intros l' Hl'. apply Hf. right. exact Hl'.
    + exists rd'. split; [exact Hrd'|].
      rewrite Hk. apply dict_set_keys_mem. exact Hl.
Qed.

Lemma dict_keys_map_snd {V W} (g : V -> W) (d : dict V) :
  dict_keys (map (fun kv => (fst kv, g (snd kv))) d) = dict_keys d.
Proof. unfold dict_keys. rewrite map_map. reflexivity. Qed.

Section yml_keys.
Context {MC : MarkdownClassifier}.
Variable cfg : Config.
Variable langs : list string.
Hypothesis Hlangs : tags_iter (lang_tags cfg) = Ok langs.
Hypothesis Hdocs :
  forall lines lang, In lang langs ->
    exists doc,
      dict_get (md_docs (md_classify (md_new (lang_tags cfg)) lines)) lang
      = Some doc.

Let K := first_occurrences [] langs.

Lemma langs_in_K : incl langs K.
Proof.
  intros l Hl. destruct (first_occurrences_In l langs [] Hl) as [[]|H].
  exact H.
Qed.

Lemma item_of_processed (r : dict yaml) :
  dict_keys r = K ->
  forall l, In l langs -> exists v, dict_item r l = Ok v.
Proof.
  intros Hk l Hl. unfold dict_item.
  destruct (dict_get_keys r l) as [v Hv].
  - rewrite Hk. apply langs_in_K. exact Hl.
  - rewrite Hv. eexists. reflexivity.
Qed.

Lemma dict_loop_keys (process : yaml -> result (dict yaml))
    (items : dict yaml) :
  Forall (fun kv => exists r, process (snd kv) = Ok r /\ dict_keys r = K)
         items ->
  forall rd, dict_keys rd = K ->
    exists rd', dict_loop process langs items rd = Ok rd'
                /\ dict_keys rd' = K.
Proof.
  intros H. induction H as [|[key value] rest Hkv _ IH]; intros rd Hrd;
    simpl.
  - eexists. split; [reflexivity|exact Hrd].
  - simpl in Hkv. destruct (String.eqb key "mmg").
    + rewrite assign_all_update.
      destruct (update_all_keys (fun d v => dict_set d key v)
                  (fun _ => Ok (deepcopy value)) langs rd)
        as [rd1 [H1 Hk1]].
      * rewrite Hrd. exact langs_in_K.
      * intros l _. eexists. reflexivity.
      * rewrite H1. simpl. apply IH. rewrite Hk1. exact Hrd.
    + destruct Hkv as [r [Hr Hkr]]. rewrite Hr. simpl.
      rewrite assign_all_update.
      destruct (update_all_keys (fun d v => dict_set d key v)
                  (fun lang => dict_item r lang) langs rd)
        as [rd1 [H1 Hk1]].
      * rewrite Hrd. exact langs_in_K.
      * apply item_of_processed. exact Hkr.
      * rewrite H1. simpl. apply IH. rewrite Hk1. exact Hrd.
Qed.

Lemma list_loop_keys (process : yaml -> result (dict yaml))
    (elems : list yaml) :
  Forall (fun x => exists r, process x = Ok r /\ dict_keys r = K) elems ->
  forall rd, dict_keys rd = K ->
    exists rd', list_loop process langs elems rd = Ok rd'
                /\ dict_keys rd' = K.
Proof.
  intros H. induction H as [|x rest Hx _ IH]; intros rd Hrd; simpl.
  - eexists. split; [reflexivity|exact Hrd].
  - destruct Hx as [r [Hr Hkr]]. rewrite Hr. simpl.
    rewrite append_all_update.
    destruct (update_all_keys (fun l v => l ++ [v])
                (fun lang => dict_item r lang) langs rd)
      as [rd1 [H1 Hk1]].
    + rewrite Hrd. exact langs_in_K.
    + apply item_of_processed. exact Hkr.
    + rewrite H1. simpl. apply IH. rewrite Hk1. exact Hrd.
Qed.

(** [process_obj] returns, and the keys of what it returns are the
    declared languages in their order, each at its first place. *)
Lemma process_obj_keys (obj : yaml) :
  exists r, process_obj cfg obj = Ok r /\ dict_keys r = K.
Proof.
  induction obj as [items IH|elems IH|s|c] using yaml_induction.
  - simpl. rewrite Hlangs. simpl.
    destruct (dict_loop_keys _ _ IH (dict_comp langs (fun _ => [])))
      as [rd [Hrd Hk]]; [apply dict_keys_comp|].
    rewrite Hrd. simpl. eexists. split; [reflexivity|].
    rewrite (dict_keys_map_snd YDict). exact Hk.
  - simpl. rewrite Hlangs. simpl.
    destruct (list_loop_keys _ _ IH (dict_comp langs (fun _ => [])))
      as [rd [Hrd Hk]]; [apply dict_keys_comp|].
    rewrite Hrd. simpl. eexists. split; [reflexivity|].
    rewrite (dict_keys_map_snd YList). exact Hk.
  - simpl. rewrite Hlangs. simpl.
    rewrite (dict_comp_r_tab _ (fun l => YStr (text_for cfg l s))).
    + eexists. split; [reflexivity|]. apply dict_keys_fold_set.
    + intros l Hl. unfold text_for, dict_item.
      destruct (Hdocs (splitlines s) l Hl) as [doc Hdoc].
      rewrite Hdoc. reflexivity.
  - simpl. rewrite Hlangs. simpl.
    eexists. split; [reflexivity|]. apply dict_keys_comp.
Qed.

End yml_keys.

(* ================================================================== *)
(** * The declared tags, from declaration to output *)
(* ================================================================== *)

Section declared_tags.
Context {G : MarkerGrammar} {HC : HealthChecker}.
Context {MC : MarkdownClassifier} {TOC : MarkdownToc MC}.
Context {JC : JupyterClassifier}.
Variable py_repr : yaml -> string.

(** A document with one [lang_tags] declaration and at most one
    [no_suffix] declaration: the [Config] holds the entries of the
    declaration, spaces removed, in their order. *)
Lemma extract_config_from_md_single (doc : list string) (d : nat * string) :
  length (flag_code_block_lines doc) = length doc ->
  lang_tags_decls doc = [d] ->
  length (no_suffix_decls doc) <= 1 ->
  exists cfg, extract_config_from_md doc = Ok cfg
    /\ lang_tags cfg = Tags (map remove_spaces (split_comma (snd d))).
Proof.
  intros Hlen HL HN.
  rewrite (extract_config_from_md_outcome _ Hlen), HL.
  unfold loop_outcome. simpl.
  destruct (no_suffix_decls doc) as [|n [|n' N]]; simpl in *; try lia.
  - eexists. split; [reflexivity|]. simpl.
    rewrite split_comma_remove_spaces. reflexivity.
  - eexists. split; [reflexivity|]. simpl.
    rewrite split_comma_remove_spaces. reflexivity.
Qed.

(** The update of [lang_tags] by a line that declares them, on a
    configuration that has none yet. *)
Lemma _try_update_lang_tags_entries (line decl : string) (cfg : Config) :
  lang_tags_search line = Some decl ->
  truthy_tags (lang_tags cfg) = false ->
  _try_update_lang_tags line cfg
  = Ok (mkConfig (Tags (map remove_spaces (split_comma decl)))
          (no_suffix cfg)).
Proof.
  intros Hm Hfresh. unfold _try_update_lang_tags.
  rewrite Hm, Hfresh. simpl. rewrite split_comma_remove_spaces.
  reflexivity.
Qed.

(** The extractor on a tree that declares its tags as one string. *)
Lemma extract_config_from_yml_string_form (top mmg : dict yaml)
    (decl : string) :
  dict_get top "mmg" = Some (YDict mmg) ->
  dict_get mmg "lang_tags" = Some (YStr decl) ->
  extract_config_from_yml py_repr (YDict top)
  = (ns <- no_suffix_of py_repr mmg ;;
     Ok (mkConfig (Tags (map remove_spaces (split_comma decl))) ns)).
Proof.
  intros Hm Hd.
  rewrite (extract_config_from_yml_tags _ _ _ _ Hm Hd). reflexivity.
Qed.

(** The extractor on a tree that declares its tags as a list. *)
Lemma extract_config_from_yml_list_form (top mmg : dict yaml)
    (elems : list yaml) :
  dict_get top "mmg" = Some (YDict mmg) ->
  dict_get mmg "lang_tags" = Some (YList elems) ->
  extract_config_from_yml py_repr (YDict top)
  = (l <- str_strip_all py_repr elems ;;
     ns <- no_suffix_of py_repr mmg ;;
     Ok (mkConfig (Tags l) ns)).
Proof.
  intros Hm Hd.
  rewrite (extract_config_from_yml_tags _ _ _ _ Hm Hd). simpl.
  destruct (str_strip_all py_repr elems); reflexivity.
Qed.

(** A string among the items of a list of tags is, stripped, among
    the tags. *)
Lemma str_strip_all_In (elems : list yaml) (s : string) :
  In (YStr s) elems ->
  forall l, str_strip_all py_repr elems = Ok l -> In (strip s) l.
Proof.
  induction elems as [|x xs IH]; simpl; intros Hin l Hl; [contradiction|].
  destruct (py_str py_repr x) as [sx|] eqn:Ex; simpl in Hl;
    [|discriminate Hl].
  destruct (str_strip_all py_repr xs) as [lx|]; simpl in Hl;
    [|discriminate Hl].
  inversion Hl. subst l. destruct Hin as [Hx|Hin].
  - subst x. simpl in Ex. inversion Ex. left. reflexivity.
  - right. apply IH; [exact Hin|reflexivity].
Qed.

(** C5, as the code has it. Extraction applies no reserved-keyword
    check. A reserved keyword listed in a declaration of [lang_tags],
    as an entry of the comma-separated form in a markdown document or
    in a tree, or as an item of the list form in a tree, is a member
    of the extracted [lang_tags]: from a tree, the extractor goes on
    to read [no_suffix] and returns the tags with it. *)
Theorem extraction_keeps_reserved (k : string) :
  In k RESERVED_KEYWORDS ->
  (forall doc d,
      length (flag_code_block_lines doc) = length doc ->
      lang_tags_decls doc = [d] ->
      length (no_suffix_decls doc) <= 1 ->
      In k (split_comma (snd d)) ->
      exists cfg l, extract_config_from_md doc = Ok cfg
                    /\ lang_tags cfg = Tags l /\ In k l)
  /\ (forall top mmg decl,
      dict_get top "mmg" = Some (YDict mmg) ->
      dict_get mmg "lang_tags" = Some (YStr decl) ->
      In k (split_comma decl) ->
      exists l, In k l
        /\ extract_config_from_yml py_repr (YDict top)
           = (ns <- no_suffix_of py_repr mmg ;;
              Ok (mkConfig (Tags l) ns)))
  /\ (forall top mmg elems,
      dict_get top "mmg" = Some (YDict mmg) ->
      dict_get mmg "lang_tags" = Some (YList elems) ->
      In (YStr k) elems ->
      (forall l, str_strip_all py_repr elems = Ok l -> In k l)
      /\ extract_config_from_yml py_repr (YDict top)
         = (l <- str_strip_all py_repr elems ;;
            ns <- no_suffix_of py_repr mmg ;;
            Ok (mkConfig (Tags l) ns))).
Proof.
  intros Hk. pose proof (reserved_no_whitespace k Hk) as Hws.
  split; [|split].
  - intros doc d Hlen HL HN Hin.
    destruct (extract_config_from_md_single doc d Hlen HL HN)
      as [cfg [Hcfg Htags]].
    exists cfg. eexists. split; [exact Hcfg|]. split; [exact Htags|].
    rewrite <- (remove_spaces_no_whitespace k Hws).
    apply in_map. exact Hin.
  - intros top mmg decl Hm Hd Hin.
    exists (map remove_spaces (split_comma decl)). split.
    + rewrite <- (remove_spaces_no_whitespace k Hws).
      apply in_map. exact Hin.
    + apply extract_config_from_yml_string_form; assumption.
  - intros top mmg elems Hm Hd Hin. split.
    + intros l Hl. rewrite <- (strip_no_whitespace k Hws).
      exact (str_strip_all_In elems k Hin l Hl).
    + apply extract_config_from_yml_list_form; assumption.
Qed.

(** C6, as the code has it. In the comma-separated form, in a markdown
    line or in a tree, each extracted tag is the declared entry at the
    same position with every space removed, inside the entry as well
    as around it, and no other whitespace removed; in the list form of
    a tree each extracted tag is the item at the same position with
    its surrounding whitespace stripped and its interior unchanged.
    From a tree, the extractor goes on to read [no_suffix] and returns
    the tags with it. *)
Theorem lang_tags_entries :
  (forall line decl cfg,
      lang_tags_search line = Some decl ->
      truthy_tags (lang_tags cfg) = false ->
      _try_update_lang_tags line cfg
      = Ok (mkConfig (Tags (map remove_spaces (split_comma decl)))
              (no_suffix cfg)))
  /\ (forall top mmg decl,
      dict_get top "mmg" = Some (YDict mmg) ->
      dict_get mmg "lang_tags" = Some (YStr decl) ->
      extract_config_from_yml py_repr (YDict top)
      = (ns <- no_suffix_of py_repr mmg ;;
         Ok (mkConfig (Tags (map remove_spaces (split_comma decl))) ns)))
  /\ (forall top mmg entries,
      dict_get top "mmg" = Some (YDict mmg) ->
      dict_get mmg "lang_tags" = Some (YList (map YStr entries)) ->
      extract_config_from_yml py_repr (YDict top)
      = (ns <- no_suffix_of py_repr mmg ;;
         Ok (mkConfig (Tags (map strip entries)) ns))).
Proof.
  split; [|split].
  - intros line decl cfg Hm Hfresh.
    apply _try_update_lang_tags_entries; assumption.
  - intros top mmg decl Hm Hd.
    apply extract_config_from_yml_string_form; assumption.
  - intros top mmg entries Hm Hd.
    rewrite (extract_config_from_yml_list_form _ _ _ Hm Hd).
    rewrite str_strip_all_strings. reflexivity.
Qed.

(** The keys of the strings [convert] returns are the keys of the
    documents [convert_base_doc] returns, in the same order. *)
Lemma convert_keys (base_md : string) (cfg0 : option Config)
    (skip force : bool) (docs : dict (list string)) :
  convert_base_doc (splitlines base_md) cfg0 skip force = Ok docs ->
  exists r, convert base_md cfg0 skip force = Ok r
            /\ dict_keys r = dict_keys docs.
Proof.
  intros H. unfold convert. rewrite H. simpl.
  eexists. split; [reflexivity|].
  apply (dict_keys_map_snd (join nl)).
Qed.

(** [convert_base_yml], once past the gate, is [process_obj]. *)
Lemma convert_base_yml_process (base_yml : yaml) (cfg0 : option Config)
    (cfg : Config) (skip force : bool) :
  cfg_or cfg0 (extract_config_from_yml py_repr base_yml) = Ok cfg ->
  _health_check (BaseYml base_yml) cfg "yml" skip force = Ok tt ->
  convert_base_yml py_repr base_yml cfg0 skip force
  = process_obj cfg base_yml.
Proof.
  intros Hcfg Hgate. unfold convert_base_yml.
  rewrite Hcfg. simpl. rewrite Hgate. reflexivity.
Qed.

(** [convert_base_doc], once past the gate, returns the [docs] of the
    classifier made for the tags, after [classify] and [insert_toc]. *)
Lemma convert_base_doc_docs (base_doc : list string) (cfg0 : option Config)
    (cfg : Config) (skip force : bool) :
  cfg_or cfg0 (extract_config_from_md base_doc) = Ok cfg ->
  _health_check (BaseMd base_doc) cfg "md" skip force = Ok tt ->
  convert_base_doc base_doc cfg0 skip force
  = Ok (md_docs (md_insert_toc
                   (md_classify (md_new (lang_tags cfg)) base_doc))).
Proof.
  intros Hcfg Hgate. unfold convert_base_doc.
  rewrite Hcfg. simpl. rewrite Hgate. reflexivity.
Qed.

(** [convert_base_jupyter], once past the gate, returns the [docs] of
    the classifier made for the tags, after [init_targets], a [push]
    for each cell and [insert_toc]. *)
Lemma convert_base_jupyter_docs (base_jn : notebook) (cfg0 : option Config)
    (cfg : Config) (skip force : bool) :
  cfg_or cfg0 (extract_config_from_jupyter base_jn) = Ok cfg ->
  _health_check (BaseJn base_jn) cfg "ipynb" skip force = Ok tt ->
  convert_base_jupyter base_jn cfg0 skip force
  = Ok (jn_docs (jn_insert_toc
                   (fold_left jn_push (cells base_jn)
                      (jn_init_targets (jn_new (lang_tags cfg)) base_jn)))).
Proof.
  intros Hcfg Hgate. unfold convert_base_jupyter.
  rewrite Hcfg. simpl. rewrite Hgate. reflexivity.
Qed.

(** Pushing cells one after the other keeps the keys of [docs]. *)
Lemma fold_jn_push_keys (cs : list cell) :
  (forall st c, dict_keys (jn_docs (jn_push st c)) = dict_keys (jn_docs st)) ->
  forall st,
    dict_keys (jn_docs (fold_left jn_push cs st)) = dict_keys (jn_docs st).
Proof.
  intros Hpush. induction cs as [|c cs IH]; intros st; simpl;
    [reflexivity|].
  rewrite IH. apply Hpush.
Qed.

(** C7. The extracted [lang_tags] list the declared entries in the
    order of the declaration: for comma-free entries joined by commas,
    in a markdown document or in a tree, the tags are the entries with
    their spaces removed, position by position, and for the list form
    the items stripped, position by position. Every conversion lists
    its outputs in that order. The keys of the mapping
    [convert_base_yml] returns are the declared tags in their order,
    each at its first occurrence, hence the declared list itself when
    the tags are distinct. With classifiers that hold one output for
    each declared tag in the declared order, the same holds of the
    mappings [convert_base_doc], [convert] and [convert_base_jupyter]
    return. *)
Theorem declared_order_preserved :
  (forall doc i entries,
      length (flag_code_block_lines doc) = length doc ->
      lang_tags_decls doc = [(i, join "," entries)] ->
      length (no_suffix_decls doc) <= 1 ->
      entries <> [] -> Forall no_comma entries ->
      exists cfg, extract_config_from_md doc = Ok cfg
        /\ lang_tags cfg = Tags (map remove_spaces entries))
  /\ (forall top mmg entries,
      dict_get top "mmg" = Some (YDict mmg) ->
      dict_get mmg "lang_tags" = Some (YStr (join "," entries)) ->
      entries <> [] -> Forall no_comma entries ->
      extract_config_from_yml py_repr (YDict top)
      = (ns <- no_suffix_of py_repr mmg ;;
         Ok (mkConfig (Tags (map remove_spaces entries)) ns)))
  /\ (forall top mmg entries,
      dict_get top "mmg" = Some (YDict mmg) ->
      dict_get mmg "lang_tags" = Some (YList (map YStr entries)) ->
      extract_config_from_yml py_repr (YDict top)
      = (ns <- no_suffix_of py_repr mmg ;;
         Ok (mkConfig (Tags (map strip entries)) ns)))
  /\ (forall base_yml cfg0 cfg langs skip force,
      cfg_or cfg0 (extract_config_from_yml py_repr base_yml) = Ok cfg ->
      _health_check (BaseYml base_yml) cfg "yml" skip force = Ok tt ->
      tags_iter (lang_tags cfg) = Ok langs ->
      (forall lines lang, In lang langs ->
         exists doc,
           dict_get (md_docs (md_classify (md_new (lang_tags cfg)) lines))
             lang = Some doc) ->
      exists outs,
        convert_base_yml py_repr base_yml cfg0 skip force = Ok outs
        /\ dict_keys outs = first_occurrences [] langs
        /\ (NoDup langs -> dict_keys outs = langs))
  /\ (forall base_doc cfg0 cfg langs skip force,
      md_outputs_as_declared MC TOC ->
      cfg_or cfg0 (extract_config_from_md base_doc) = Ok cfg ->
      _health_check (BaseMd base_doc) cfg "md" skip force = Ok tt ->
      tags_iter (lang_tags cfg) = Ok langs ->
      exists outs,
        convert_base_doc base_doc cfg0 skip force = Ok outs
        /\ dict_keys outs = first_occurrences [] langs
        /\ (NoDup langs -> dict_keys outs = langs))
  /\ (forall base_md cfg0 cfg langs skip force,
      md_outputs_as_declared MC TOC ->
      cfg_or cfg0 (extract_config_from_md (splitlines base_md)) = Ok cfg ->
      _health_check (BaseMd (splitlines base_md)) cfg "md" skip force
      = Ok tt ->
      tags_iter (lang_tags cfg) = Ok langs ->
      exists outs,
        convert base_md cfg0 skip force = Ok outs
        /\ dict_keys outs = first_occurrences [] langs
        /\ (NoDup langs -> dict_keys outs = langs))
  /\ (forall base_jn cfg0 cfg langs skip force,
      jn_outputs_as_declared JC ->
      cfg_or cfg0 (extract_config_from_jupyter base_jn) = Ok cfg ->
      _health_check (BaseJn base_jn) cfg "ipynb" skip force = Ok tt ->
      tags_iter (lang_tags cfg) = Ok langs ->
      exists outs,
        convert_base_jupyter base_jn cfg0 skip force = Ok outs
        /\ dict_keys outs = first_occurrences [] langs
        /\ (NoDup langs -> dict_keys outs = langs)).
Proof.
  assert (Hdoc : forall base_doc cfg0 cfg langs skip force,
    md_outputs_as_declared MC TOC ->
    cfg_or cfg0 (extract_config_from_md base_doc) = Ok cfg ->
    _health_check (BaseMd base_doc) cfg "md" skip force = Ok tt ->
    tags_iter (lang_tags cfg) = Ok langs ->
    exists outs,
      convert_base_doc base_doc cfg0 skip force = Ok outs
      /\ dict_keys outs = first_occurrences [] langs).
  { intros base_doc cfg0 cfg langs skip force [Hnew [Hcl Htoc]]
      Hcfg Hgate Hlangs.
    rewrite (convert_base_doc_docs _ _ _ _ _ Hcfg Hgate).
    eexists. split; [reflexivity|].
    rewrite Htoc, Hcl. apply Hnew. exact Hlangs. }
  split; [|split; [|split; [|split; [|split; [|split]]]]].
  - intros doc i entries Hlen HL HN Hne Hco.
    destruct (extract_config_from_md_single doc _ Hlen HL HN)
      as [cfg [Hcfg Htags]].
    exists cfg. split; [exact Hcfg|]. rewrite Htags. simpl.
    rewrite (split_comma_join _ Hne Hco). reflexivity.
  - intros top mmg entries Hm Hd Hne Hco.
    rewrite (extract_config_from_yml_string_form _ _ _ Hm Hd).
    rewrite (split_comma_join _ Hne Hco). reflexivity.
  - intros top mmg entries Hm Hd.
    rewrite (extract_config_from_yml_list_form _ _ _ Hm Hd).
    rewrite str_strip_all_strings. reflexivity.
  - intros base_yml cfg0 cfg langs skip force Hcfg Hgate Hlangs Hdocs.
    rewrite (convert_base_yml_process _ _ _ _ _ Hcfg Hgate).
    destruct (process_obj_keys cfg langs Hlangs Hdocs base_yml)
      as [r [Hr Hk]].
    exists r. split; [exact Hr|]. split; [exact Hk|].
    intros Hnd. rewrite Hk. apply first_occurrences_NoDup. exact Hnd.
  - intros base_doc cfg0 cfg langs skip force Hmd Hcfg Hgate Hlangs.
    destruct (Hdoc _ _ _ _ _ _ Hmd Hcfg Hgate Hlangs) as [outs [Ho Hk]].
    exists outs. split; [exact Ho|]. split; [exact Hk|].
    intros Hnd. rewrite Hk. apply first_occurrences_NoDup. exact Hnd.
  - intros base_md cfg0 cfg langs skip force Hmd Hcfg Hgate Hlangs.
    destruct (Hdoc _ _ _ _ _ _ Hmd Hcfg Hgate Hlangs) as [docs [Ho Hk]].
    destruct (convert_keys _ _ _ _ _ Ho) as [outs [Hc Hkeys]].
    exists outs. split; [exact Hc|]. rewrite Hkeys.
    split; [exact Hk|].
    intros Hnd. rewrite Hk. apply first_occurrences_NoDup. exact Hnd.
  - intros base_jn cfg0 cfg langs skip force [Hinit [Hpush Htoc]]
      Hcfg Hgate Hlangs.
    rewrite (convert_base_jupyter_docs _ _ _ _ _ Hcfg Hgate).
    eexists. split; [reflexivity|].
    rewrite Htoc, (fold_jn_push_keys _ Hpush), (Hinit _ _ _ Hlangs).
    split; [reflexivity|].
    intros Hnd. apply first_occurrences_NoDup. exact Hnd.
Qed.

(** C4, as the code has it. When the declared tags are distinct and
    the call gets past the health gate, [convert_base_yml] returns,
    for each declared language, a tree of the shape of the input: the
    same keys in every dictionary and the same length of every list at
    every level, a string where the input has a string, the same
    scalar where it has a scalar, and under the key [mmg] the very
    value of the input. *)
Theorem convert_base_yml_shape (base_yml : yaml) (cfg0 : option Config)
    (cfg : Config) (langs : list string) (skip force : bool) :
  cfg_or cfg0 (extract_config_from_yml py_repr base_yml) = Ok cfg ->
  _health_check (BaseYml base_yml) cfg "yml" skip force = Ok tt ->
  tags_iter (lang_tags cfg) = Ok langs ->
  NoDup langs ->
  (forall lines lang, In lang langs ->
     exists doc,
       dict_get (md_docs (md_classify (md_new (lang_tags cfg)) lines)) lang
       = Some doc) ->
  wf_yaml base_yml ->
  shape_preserved langs base_yml
    (convert_base_yml py_repr base_yml cfg0 skip force).
Proof.
  intros Hcfg Hgate Hlangs Hnd Hdocs Hwf.
  rewrite (convert_base_yml_process _ _ _ _ _ Hcfg Hgate).
  rewrite (process_obj_tab cfg langs Hlangs Hdocs Hnd base_yml).
  unfold shape_preserved. eexists. split; [reflexivity|].
  intros lang Hlang. exists (per_lang cfg lang base_yml).
  split.
  - apply (dict_get_tab langs (fun l => per_lang cfg l base_yml)).
    exact Hlang.
  - apply per_lang_shape. exact Hwf.
Qed.

End declared_tags.

(* ================================================================== *)
(** * The statements on concrete documents *)
(* ================================================================== *)

(** The concrete grammar finds no directive on a line of one character. *)
Lemma grammar_one_char (ch : ascii) :
  lang_tags_search (MarkerGrammar:=Grammar.grammar) (String ch EmptyString) = None
  /\ no_suffix_search (MarkerGrammar:=Grammar.grammar) (String ch EmptyString) = None.
Proof.
  destruct ch as [[] [] [] [] [] [] [] []]; split; reflexivity.
Qed.

(** The spec-modelled classifier has an output for each declared tag. *)
Lemma spec_classifier_docs (mk : string -> option Marker)
    (tags : list string) (lines : list string) (lang : string) :
  In lang tags ->
  exists doc,
    dict_get (md_docs (MarkdownClassifier:=spec_classifier mk)
                (md_classify (md_new (Tags tags)) lines)) lang = Some doc.
Proof.
  intros Hin. simpl. rewrite (classify_get mk tags lines lang Hin).
  eexists. reflexivity.
Qed.

Lemma dict_get_In_keys {V} (d : dict V) (k : string) (v : V) :
  dict_get d k = Some v -> In k (dict_keys d).
Proof.
  induction d as [|[k0 v0] d IH]; simpl; [discriminate|].
  destruct (String.eqb k0 k) eqn:E.
  - intros _. left. apply String.eqb_eq. exact E.
  - intros H. right. exact (IH H).
Qed.

(** Routing a content line adds no output and drops none. *)
Lemma route_keys (docs : dict (list string)) (active line : string) :
  dict_keys (route docs active line) = dict_keys docs.
Proof.
  assert (Hall : dict_keys (emit_all docs line) = dict_keys docs).
  { apply (dict_keys_map_snd (fun doc => doc ++ [line])). }
  unfold route.
  destruct (String.eqb active UNKNOWN); [exact Hall|].
  destruct (String.eqb active COMMON); [exact Hall|].
  destruct (String.eqb active IGNORE); [reflexivity|].
  destruct (dict_mem docs active) eqn:Em; [|reflexivity].
  unfold emit_one. destruct (dict_get docs active) eqn:Eg; [|reflexivity].
  apply dict_set_keys_mem. exact (dict_get_In_keys _ _ _ Eg).
Qed.

Lemma classify_keys (mk : string -> option Marker) (tags lines : list string) :
  dict_keys (classify mk tags lines) = first_occurrences [] tags.
Proof.
  unfold classify.
  rewrite <- (dict_keys_comp (fun _ => @nil string) tags).
  generalize (dict_comp tags (fun _ => @nil string)) as docs.
  generalize UNKNOWN as active.
  induction lines as [|line rest IH]; intros active docs; simpl;
    [reflexivity|].
  unfold classify_step at 2. simpl.
  destruct (mk line) as [[tag|ts|tag]|]; rewrite IH; try reflexivity.
  apply route_keys.
Qed.

(** The spec-modelled classifier, with a table of contents pass that
    inserts nothing, holds one output for each declared tag, in the
    declared order. *)
Lemma spec_classifier_as_declared (mk : string -> option Marker) :
  md_outputs_as_declared (spec_classifier mk) (no_toc _).
Proof.
  split; [|split].
  - intros t langs Ht. simpl. rewrite Ht. apply dict_keys_comp.
  - intros t lines. simpl. rewrite classify_keys. symmetry.
    apply dict_keys_comp.
  - intros st. reflexivity.
Qed.

(** So does the copying notebook classifier. *)
Lemma copying_jupyter_as_declared : jn_outputs_as_declared copying_jupyter.
Proof.
  split; [|split].
  - intros t langs nb Ht. simpl. rewrite Ht. apply dict_keys_comp.
  - intros st c. simpl.
    apply (dict_keys_map_snd (fun n => mkNotebook (cells n ++ [c]))).
  - intros st. reflexivity.
Qed.



(** On that document the declaration recorded is the second one. *)
Example extract_config_from_md_doc_no_suffix_twice :
  extract_config_from_md (G:=Grammar.grammar) doc_no_suffix_twice
  = Ok (mkConfig (Tags []) (Some "en"))
  /\ no_suffix_decls (G:=Grammar.grammar) doc_no_suffix_twice
     = [(0, EmptyString); (1, "en")]
  /\ ~ records_first_match (G:=Grammar.grammar) doc_no_suffix_twice.
Proof.
  assert (H : extract_config_from_md (G:=Grammar.grammar) doc_no_suffix_twice
              = Ok (mkConfig (Tags []) (Some "en")))
    by (vm_compute; reflexivity).
  split; [exact H|]. split; [vm_compute; reflexivity|].
  intros Hfirst. specialize (Hfirst _ H). vm_compute in Hfirst.
  discriminate Hfirst.
Qed.

(** C10 on [nb_string_source]: the declaration of the first cell is not
    read, that of the second is. *)
Lemma extract_config_from_jupyter_string_source_witness :
  extract_config_from_jupyter (G:=Grammar.grammar) nb_string_source
  = Ok (mkConfig (Tags []) (Some "en")).
Proof.
  destruct (extract_config_from_jupyter_string_source (G:=Grammar.grammar)
              [] [mkCell "markdown" (SrcLines ["<!-- no_suffix: en -->"])]
              (mkCell "markdown" (SrcStr "<!-- lang_tags: en,es -->"))
              "<!-- lang_tags: en,es -->"
              grammar_one_char eq_refl eq_refl eq_refl)
    as [_ [_ [_ H]]].
  unfold nb_string_source. etransitivity; [exact H|reflexivity].
Defined.

(** C1 on [doc_parts], for the tag [en]. *)
Lemma classify_round_trip_witness :
  dict_get (classify Grammar.marker ["en"; "es"]
              doc_parts) "en"
  = Some ["intro"; "Hello"; "---"].
Proof.
  destruct (classify_round_trip Grammar.marker ["en"; "es"]
              doc_parts "en")
    as [H _].
  - simpl. left. reflexivity.
  - rewrite H. reflexivity.
Defined.

(** The third scenario of the specification: a document that declares
    [en] and [es] and holds content for [en] only, converted by force.
    The declaration is a marker line, it goes to no output. *)
Example convert_forced_unhealthy :
  convert (G:=Grammar.grammar)
    (HC:=reporting UNHEALTHY ["Tag 'es' is never used."])
    (MC:=spec_classifier Grammar.marker) (TOC:=no_toc _)
    (join nl doc_unhealthy) None false true
  = Ok [("en", "Hello"); ("es", EmptyString)].
Proof. vm_compute. reflexivity. Qed.

(** C2 on a tree, with a run of the checker that reports [UNHEALTHY]. *)
Lemma health_gate_raises_witness :
  convert_base_yml (HC:=reporting UNHEALTHY ["Tag 'es' is never used."])
    (MC:=spec_classifier Grammar.marker) repr_unused
    (mmg_tree (YStr "en,es")) None false false
  = Raise (BadConfigError
             (health_check_failed UNHEALTHY ["Tag 'es' is never used."])).
Proof.
  destruct (health_gate_raises (G:=Grammar.grammar)
              (HC:=reporting UNHEALTHY ["Tag 'es' is never used."])
              (MC:=spec_classifier Grammar.marker)
              (TOC:=no_toc _) (JC:=copying_jupyter) repr_unused
              UNHEALTHY ["Tag 'es' is never used."] eq_refl)
    as [_ [_ [_ [H _]]]].
  apply (H (mmg_tree (YStr "en,es")) None
           (mkConfig (Tags ["en"; "es"]) None)); reflexivity.
Defined.

(** C2 as stated fails on [doc_unhealthy]: the error the gate raises is
    a [BadConfigError]. *)
Lemma health_gate_error_not_distinct :
  ~ raises_distinct_error
      (convert_base_doc (G:=Grammar.grammar)
         (HC:=reporting UNHEALTHY ["Tag 'es' is never used."])
         (MC:=spec_classifier Grammar.marker) (TOC:=no_toc _)
         doc_unhealthy None false false).
Proof.
  intros [e [He Hkind]]. vm_compute in He. inversion He. subst e.
  discriminate Hkind.
Qed.

(** Two different strings make a list without repetition. *)
Lemma nodup2 (a b : string) : a <> b -> NoDup [a; b].
Proof.
  intros H. constructor; [simpl; intros [E|[]]; congruence|].
  constructor; [simpl; tauto|constructor].
Qed.

(** C4 on [tree_structure]. *)
Lemma convert_base_yml_shape_witness :
  shape_preserved ["en"; "es"] tree_structure
    (convert_base_yml (HC:=reporting HEALTHY [])
       (MC:=spec_classifier Grammar.marker) repr_unused
       tree_structure None false false).
Proof.
  apply (convert_base_yml_shape (HC:=reporting HEALTHY [])
           (MC:=spec_classifier Grammar.marker) repr_unused
           tree_structure None (mkConfig (Tags ["en"; "es"]) (Some "en"))
           ["en"; "es"] false false).
  - reflexivity.
  - reflexivity.
  - reflexivity.
  - apply nodup2. discriminate.
  - intros lines lang Hin. apply spec_classifier_docs. exact Hin.
  - simpl. repeat split; try (apply nodup2; discriminate).
    all: repeat constructor; simpl; intuition discriminate.
Defined.

(** C4 as stated fails on [tree_twice]: with the tag [en] declared
    twice, each item of a list is appended twice, and the list of the
    output is twice as long as that of the input. *)
Lemma convert_base_yml_repeated_tag :
  ~ shape_preserved ["en"; "en"] tree_twice
      (convert_base_yml (HC:=reporting HEALTHY [])
         (MC:=spec_classifier Grammar.marker) repr_unused
         tree_twice None true false).
Proof.
  intros [outs [Hout Hall]]. vm_compute in Hout. inversion Hout. subst outs.
  destruct (Hall "en" (or_introl eq_refl)) as [out [Hget Hshape]].
  vm_compute in Hget. inversion Hget. subst out.
  simpl in Hshape. tauto.
Qed.

(** C5 on a tree that lists [common]. *)
Lemma extraction_keeps_reserved_witness :
  exists cfg l,
    extract_config_from_yml repr_unused
      (mmg_tree (YList [YStr "en"; YStr "common"])) = Ok cfg
    /\ lang_tags cfg = Tags l /\ In "common" l.
Proof.
  destruct (extraction_keeps_reserved (G:=Grammar.grammar) repr_unused
              "common") as [_ [_ H]].
  - simpl. tauto.
  - destruct (H [("mmg",
                  YDict [("lang_tags", YList [YStr "en"; YStr "common"])])]
                [("lang_tags", YList [YStr "en"; YStr "common"])]
                [YStr "en"; YStr "common"]) as [Hin Heq].
    + reflexivity.
    + reflexivity.
    + simpl. tauto.
    + exists (mkConfig (Tags ["en"; "common"]) None), ["en"; "common"].
      split; [etransitivity; [exact Heq|reflexivity]|].
      split; [reflexivity|]. apply Hin. reflexivity.
Defined.

(** On [tree_long_no_suffix] the tags hold [common] and the extractor
    raises when it comes to [no_suffix]. *)
Example extract_config_from_yml_long_no_suffix :
  extract_config_from_yml repr_unused tree_long_no_suffix = Raise ValueError.
Proof. vm_compute. reflexivity. Qed.

(** C5 as stated fails on a tree that lists [common]: the keyword is
    in the extracted [lang_tags]. *)
Lemma extraction_not_reserved_free :
  ~ reserved_free
      (extract_config_from_yml repr_unused
         (mmg_tree (YList [YStr "en"; YStr "common"]))).
Proof.
  intros H.
  apply (H (mkConfig (Tags ["en"; "common"]) None) ["en"; "common"] "common").
  - reflexivity.
  - reflexivity.
  - simpl. tauto.
  - simpl. tauto.
Qed.

(** C6 as stated fails on the declaration [en US,fr]: the first tag
    extracted is [enUS], not [en US]. *)
Lemma lang_tags_interior_space_removed :
  ~ tags_are_stripped_entries "en US,fr"
      (extract_config_from_yml repr_unused (mmg_tree (YStr "en US,fr"))).
Proof.
  intros [cfg [Hcfg Htags]]. vm_compute in Hcfg. inversion Hcfg. subst cfg.
  vm_compute in Htags. discriminate Htags.
Qed.

(** C8 as stated fails on the entries [en US] and [fr]: the string
    form gives [enUS], the list form [en US]. *)
Lemma forms_disagree_on_interior_space : ~ both_forms_agree ["en US"; "fr"].
Proof.
  unfold both_forms_agree. vm_compute. intros H. discriminate H.
Qed.

(** A tag without comma or whitespace, after one space. *)
Lemma padded_tag_after_space (core : string) :
  no_whitespace core -> no_comma core -> padded_tag (String " " core).
Proof.
  intros Hws Hco. exists 1, 0, core. split; [exact Hws|].
  split; [exact Hco|]. simpl. rewrite string_app_empty_r. reflexivity.
Qed.

(** A tag without comma or whitespace, as it is. *)
Lemma padded_tag_bare (core : string) :
  no_whitespace core -> no_comma core -> padded_tag core.
Proof.
  intros Hws Hco. exists 0, 0, core. split; [exact Hws|].
  split; [exact Hco|]. simpl. rewrite string_app_empty_r. reflexivity.
Qed.

(** C8 on the entries of [test_extract_config_with_string_lang_tags]:
    [en], then [es] and [fr] each after a space. *)
Lemma extract_config_from_yml_forms_agree_witness :
  extract_config_from_yml repr_unused (mmg_tree (YStr "en, es, fr"))
  = extract_config_from_yml repr_unused
      (mmg_tree (YList [YStr "en"; YStr " es"; YStr " fr"])).
Proof.
  apply (extract_config_from_yml_forms_agree repr_unused
           [("mmg", YDict [("lang_tags", YStr "en, es, fr")])]
           [("mmg",
             YDict [("lang_tags", YList [YStr "en"; YStr " es"; YStr " fr"])])]
           [("lang_tags", YStr "en, es, fr")]
           [("lang_tags", YList [YStr "en"; YStr " es"; YStr " fr"])]
           ["en"; " es"; " fr"]).
  - discriminate.
  - constructor; [apply padded_tag_bare; reflexivity|].
    constructor; [apply padded_tag_after_space; reflexivity|].
    constructor; [apply padded_tag_after_space; reflexivity|].
    constructor.
  - reflexivity.
  - reflexivity.
  - reflexivity.
  - reflexivity.
  - reflexivity.
Defined.

(* ================================================================== *)
(** * The tests of tests/test_yml_conversion.py, on the model *)
(* ================================================================== *)

(** [test_extract_config_from_simple_yml] *)
Example test_extract_config_from_simple_yml :
  extract_config_from_yml repr_unused
    (YDict [("mmg", YDict [("lang_tags", YList [YStr "en-US"; YStr "fr-FR"]);
                           ("no_suffix", YStr "en-US")]);
            ("title", YStr "Test")])
  = Ok (mkConfig (Tags ["en-US"; "fr-FR"]) (Some "en-US")).
Proof. reflexivity. Qed.

(** [test_extract_config_with_string_lang_tags] *)
Example test_extract_config_with_string_lang_tags :
  extract_config_from_yml repr_unused (mmg_tree (YStr "en, es, fr"))
  = Ok (mkConfig (Tags ["en"; "es"; "fr"]) None).
Proof. reflexivity. Qed.

(** [test_extract_config_empty_yml] *)
Example test_extract_config_empty_yml :
  extract_config_from_yml repr_unused (YDict [("title", YStr "Test")])
  = Ok (mkConfig (Tags []) None).
Proof. reflexivity. Qed.

(** [test_convert_yml_with_list], with the spec-modelled classifier and
    a checker that reports [HEALTHY]. *)
Example test_convert_yml_with_list :
  convert_base_yml (HC:=reporting HEALTHY [])
    (MC:=spec_classifier Grammar.marker) repr_unused
    (YDict [("mmg", YDict [("lang_tags", YList [YStr "en"; YStr "fr"]);
                           ("no_suffix", YStr "en")]);
            ("items",
             YList [YStr ("<!-- [en] -->" ++ nl ++ "First" ++ nl
                          ++ "<!-- [fr] -->" ++ nl ++ "Premier");
                    YStr ("<!-- [en] -->" ++ nl ++ "Second" ++ nl
                          ++ "<!-- [fr] -->" ++ nl ++ "Deuxieme")])])
    None false false
  = Ok [("en",
         YDict [("mmg", YDict [("lang_tags", YList [YStr "en"; YStr "fr"]);
                               ("no_suffix", YStr "en")]);
                ("items", YList [YStr "First"; YStr "Second"])]);
        ("fr",
         YDict [("mmg", YDict [("lang_tags", YList [YStr "en"; YStr "fr"]);
                               ("no_suffix", YStr "en")]);
                ("items", YList [YStr "Premier"; YStr "Deuxieme"])])].
Proof. vm_compute. reflexivity. Qed.

(** [test_convert_yml_with_hash_comments] *)
Example test_convert_yml_with_hash_comments :
  convert_base_yml (HC:=reporting HEALTHY [])
    (MC:=spec_classifier Grammar.marker) repr_unused
    (YDict [("mmg", YDict [("lang_tags", YList [YStr "en"; YStr "es"])]);
            ("title", YStr ("# [en]" ++ nl ++ "English Title" ++ nl
                            ++ "# [es]" ++ nl ++ "Titulo"))])
    None false false
  = Ok [("en",
         YDict [("mmg", YDict [("lang_tags", YList [YStr "en"; YStr "es"])]);
                ("title", YStr "English Title")]);
        ("es",
         YDict [("mmg", YDict [("lang_tags", YList [YStr "en"; YStr "es"])]);
                ("title", YStr "Titulo")])].
Proof. vm_compute. reflexivity. Qed.

(** The scenario of the specification: a string with a part for [en]
    and a part for [es]. *)
Example convert_hello_hola :
  convert (G:=Grammar.grammar) (HC:=reporting HEALTHY [])
    (MC:=spec_classifier Grammar.marker) (TOC:=no_toc _)
    ("<!-- [en] -->" ++ nl ++ "Hello" ++ nl ++ "<!-- [es] -->" ++ nl ++ "Hola")
    (Some (mkConfig (Tags ["en"; "es"]) None)) false false
  = Ok [("en", "Hello"); ("es", "Hola")].
Proof. vm_compute. reflexivity. Qed.

(** The message of [BadConfigError] on [doc_twice] names line 8. *)
Example extract_config_from_md_doc_twice :
  extract_config_from_md (G:=Grammar.grammar) doc_twice
  = Raise (BadConfigError
      "The configuration 'lang_tags' is already defined. [Check line: 8]").
Proof. vm_compute. reflexivity. Qed.

(** C9 on the tree of [test_extract_config_empty_yml], which has no
    [mmg] section, and on [tree_long_int]. *)
Lemma extract_config_from_yml_never_BadConfigError_witness :
  extract_config_from_yml repr_unused (YDict [("title", YStr "Test")])
  = Ok (mkConfig (Tags []) None)
  /\ extract_config_from_yml repr_unused tree_long_int = Raise ValueError.
Proof.
  split.
  - destruct (extract_config_from_yml_never_BadConfigError repr_unused
                [("title", YStr "Test")]) as [_ [_ [_ [H _]]]].
    apply H. reflexivity.
  - destruct (extract_config_from_yml_never_BadConfigError repr_unused
                [("mmg",
                  YDict [("lang_tags",
                          YList [YStr "en"; YScalar (PyInt (10 ^ 4300))])])])
      as [_ [Herr [Hret _]]].
    change (YDict
              [("mmg",
                YDict [("lang_tags",
                        YList [YStr "en"; YScalar (PyInt (10 ^ 4300))])])])
      with tree_long_int in *.
    destruct (extract_config_from_yml repr_unused tree_long_int)
      as [cfg|e] eqn:E.
    + exfalso.
      assert (Hex : exists cfg0, Ok cfg = Ok cfg0) by (eexists; reflexivity).
      apply (Hret _ eq_refl) in Hex. vm_compute in Hex. discriminate Hex.
    + rewrite (Herr e eq_refl). reflexivity.
Defined.

(** C9 as stated fails on [tree_long_int]: [str] raises on the second
    item of the list of tags, and no [Config] is returned. *)
Lemma extract_config_from_yml_raises_ValueError :
  ~ returns_config (extract_config_from_yml repr_unused tree_long_int).
Proof.
  intros [cfg H]. vm_compute in H. discriminate H.
Qed.

(** C6 on a markdown line whose first entry has a space inside. *)
Lemma lang_tags_entries_witness :
  _try_update_lang_tags (G:=Grammar.grammar)
    "<!-- lang_tags: en US, fr -->" Config_default
  = Ok (mkConfig (Tags ["enUS"; "fr"]) None).
Proof.
  destruct (lang_tags_entries (G:=Grammar.grammar) repr_unused) as [H _].
  apply (H "<!-- lang_tags: en US, fr -->" "en US, fr" Config_default);
    reflexivity.
Defined.

(** C7 on a text, a notebook and a tree that declare [es] before
    [en]: the outputs come in the order [es], [en]. *)
Lemma declared_order_preserved_witness :
  (exists outs,
     convert (G:=Grammar.grammar) (HC:=reporting HEALTHY [])
       (MC:=spec_classifier Grammar.marker) (TOC:=no_toc _)
       md_es_en None false false = Ok outs
     /\ dict_keys outs = ["es"; "en"])
  /\ (exists outs,
        convert_base_jupyter (G:=Grammar.grammar) (HC:=reporting HEALTHY [])
          (JC:=copying_jupyter) nb_es_en None false false = Ok outs
        /\ dict_keys outs = ["es"; "en"])
  /\ (exists outs,
        convert_base_yml (HC:=reporting HEALTHY [])
          (MC:=spec_classifier Grammar.marker) repr_unused
          (mmg_tree (YStr "es,en")) None false false = Ok outs
        /\ dict_keys outs = ["es"; "en"]).
Proof.
  destruct (declared_order_preserved (G:=Grammar.grammar)
              (HC:=reporting HEALTHY [])
              (MC:=spec_classifier Grammar.marker) (TOC:=no_toc _)
              (JC:=copying_jupyter) repr_unused)
    as [_ [_ [_ [Hyml [_ [Hmd Hjn]]]]]].
  assert (Hnd : NoDup ["es"; "en"]) by (apply nodup2; discriminate).
  split; [|split].
  - destruct (Hmd md_es_en None (mkConfig (Tags ["es"; "en"]) None)
                ["es"; "en"] false false
                (spec_classifier_as_declared Grammar.marker))
      as [outs [Hout [_ Hkeys]]]; try (vm_compute; reflexivity).
    exists outs. split; [exact Hout|exact (Hkeys Hnd)].
  - destruct (Hjn nb_es_en None (mkConfig (Tags ["es"; "en"]) None)
                ["es"; "en"] false false copying_jupyter_as_declared)
      as [outs [Hout [_ Hkeys]]]; try (vm_compute; reflexivity).
    exists outs. split; [exact Hout|exact (Hkeys Hnd)].
  - destruct (Hyml (mmg_tree (YStr "es,en")) None
                (mkConfig (Tags ["es"; "en"]) None)
                ["es"; "en"] false false eq_refl eq_refl eq_refl)
      as [outs [Hout [_ Hkeys]]].
    + intros lines lang Hin. apply spec_classifier_docs. exact Hin.
    + exists outs. split; [exact Hout|exact (Hkeys Hnd)].
Defined.

(** The three conversions of the witness, run. *)
Example convert_md_es_en :
  convert (G:=Grammar.grammar) (HC:=reporting HEALTHY [])
    (MC:=spec_classifier Grammar.marker) (TOC:=no_toc _)
    md_es_en None false false
  = Ok [("es", "Hola"); ("en", "Hello")].
Proof. vm_compute. reflexivity. Qed.

Example convert_base_jupyter_nb_es_en :
  option_map (@dict_keys notebook)
    (match convert_base_jupyter (G:=Grammar.grammar)
             (HC:=reporting HEALTHY []) (JC:=copying_jupyter)
             nb_es_en None false false with
     | Ok outs => Some outs
     | Raise _ => None
     end)
  = Some ["es"; "en"].
Proof. vm_compute. reflexivity. Qed.

(* ================================================================== *)
(** * More on the two modules *)
(* ================================================================== *)

(** ** Extraction reads only comment lines outside code blocks *)

Section md_reading_facts.
Context {G : MarkerGrammar}.

Lemma extract_loop_same_read (mask : list bool) (l1 : list string) :
  forall (l2 : list string) (n : nat) (cfg : Config),
    same_read mask n l1 l2 ->
    extract_loop mask n l1 cfg = extract_loop mask n l2 cfg.
Proof.
  induction l1 as [|a r1 IH]; intros [|b r2] n cfg H; simpl in H;
    try contradiction; [reflexivity|].
  destruct H as [Hline Hrest]. simpl.
  unfold unmasked in Hline.
  destruct (nth_error mask n) as [[|]|]; [apply IH; exact Hrest| |reflexivity].
  destruct (Hline eq_refl) as [Hc Hs]. rewrite <- Hc.
  destruct (comment_match a); [|apply IH; exact Hrest].
  destruct (Hs eq_refl) as [Hl Hn].
  unfold _try_update_lang_tags, _try_update_no_suffix.
  rewrite <- Hl, <- Hn.
  match goal with
  | |- match ?X with Ok _ => _ | Raise _ => _ end = _ =>
      destruct X as [cfg2|e]; [apply IH; exact Hrest|reflexivity]
  end.
Qed.

(** X4. [extract_config_from_md] reads a line only if it lies outside
    code blocks, and then only through the comment pattern and, for a
    comment, the two directive patterns: two documents with the same
    code-block mask whose lines are read alike give the same result,
    whatever the lines inside code blocks and the lines that are not
    comments hold. *)
Theorem extract_config_from_md_same_read (d1 d2 : list string) :
  flag_code_block_lines d1 = flag_code_block_lines d2 ->
  same_read (flag_code_block_lines d1) 0 d1 d2 ->
  extract_config_from_md d1 = extract_config_from_md d2.
Proof.
  intros Hmask Hread. unfold extract_config_from_md. rewrite <- Hmask.
  apply extract_loop_same_read. exact Hread.
Qed.

End md_reading_facts.

(** X4 on [doc_fenced_a] and [doc_fenced_b]. *)
Lemma extract_config_from_md_same_read_witness :
  extract_config_from_md (G:=Grammar.grammar) doc_fenced_a
  = extract_config_from_md (G:=Grammar.grammar) doc_fenced_b.
Proof.
  apply (extract_config_from_md_same_read (G:=Grammar.grammar)).
  - reflexivity.
  - simpl.
    repeat match goal with
           | |- _ /\ _ => split
           | |- _ -> _ => intro
           end; try discriminate; try reflexivity; exact I.
Defined.

(** ** The comma-separated form *)

Lemma length_split_comma (s : string) :
  length (split_comma s) = S (count_commas s).
Proof.
  induction s as [|c r IH]; simpl; [reflexivity|].
  destruct (Ascii.eqb c ","); simpl; [rewrite IH; reflexivity|].
  destruct (split_comma r) as [|x xs] eqn:E; simpl in *; [discriminate IH|].
  exact IH.
Qed.

Lemma count_commas_remove_spaces (s : string) :
  count_commas (remove_spaces s) = count_commas s.
Proof.
  induction s as [|c r IH]; simpl; [reflexivity|].
  destruct (Ascii.eqb c " ") eqn:E.
  - apply Ascii.eqb_eq in E. subst c. simpl. exact IH.
  - simpl. rewrite IH. reflexivity.
Qed.

Lemma split_comma_pieces (p : ascii -> bool) (s : string) :
  has_char p s = false ->
  Forall (fun t => no_comma t /\ has_char p t = false) (split_comma s).
Proof.
  induction s as [|c r IH]; simpl; intros H.
  - repeat constructor.
  - apply orb_false_iff in H. destruct H as [Hc Hr].
    specialize (IH Hr).
    destruct (Ascii.eqb c ",") eqn:E.
    + constructor; [split; reflexivity|exact IH].
    + destruct (split_comma r) as [|x xs]; [repeat constructor|].
      * unfold no_comma. simpl. rewrite E. reflexivity.
      * simpl. rewrite Hc. reflexivity.
      * inversion IH as [|? ? [Hx1 Hx2] Hxs]; subst.
        constructor; [|exact Hxs]. split.
        -- unfold no_comma in *. simpl. rewrite E. exact Hx1.
        -- simpl. rewrite Hc. exact Hx2.
Qed.

Lemma no_space_remove_spaces (s : string) : no_space (remove_spaces s).
Proof.
  unfold no_space. induction s as [|c r IH]; simpl; [reflexivity|].
  destruct (Ascii.eqb c " ") eqn:E; [exact IH|].
  simpl. rewrite E. exact IH.
Qed.

(** The tags of a comma-separated declaration. *)
Lemma comma_form_tags (decl : string) :
  length (split_comma (remove_spaces decl)) = S (count_commas decl)
  /\ Forall (fun t => no_comma t /\ no_space t)
            (split_comma (remove_spaces decl)).
Proof.
  split.
  - rewrite length_split_comma. f_equal. apply count_commas_remove_spaces.
  - apply (split_comma_pieces (fun c => Ascii.eqb c " ")).
    apply no_space_remove_spaces.
Qed.

Section yml_forms.
Context {G : MarkerGrammar}.
Variable py_repr : yaml -> string.

(** X6. In the comma-separated form, in a markdown line or in a tree,
    a declaration gives one tag more than it has commas, so never an
    empty list (an empty declaration gives one empty tag, a trailing
    comma an empty last tag), and no tag holds a comma or a space.
    From a tree, the extractor goes on to read [no_suffix] and returns
    the tags with it. *)
Theorem lang_tags_comma_form :
  (forall line decl cfg cfg',
      lang_tags_search line = Some decl ->
      _try_update_lang_tags line cfg = Ok cfg' ->
      exists tags, lang_tags cfg' = Tags tags
        /\ length tags = S (count_commas decl)
        /\ Forall (fun t => no_comma t /\ no_space t) tags)
  /\ (forall top mmg decl,
      dict_get top "mmg" = Some (YDict mmg) ->
      dict_get mmg "lang_tags" = Some (YStr decl) ->
      exists tags,
        length tags = S (count_commas decl)
        /\ Forall (fun t => no_comma t /\ no_space t) tags
        /\ extract_config_from_yml py_repr (YDict top)
           = (ns <- no_suffix_of py_repr mmg ;;
              Ok (mkConfig (Tags tags) ns))).
Proof.
  split.
  - intros line decl cfg cfg' Hm Hup. unfold _try_update_lang_tags in Hup.
    rewrite Hm in Hup.
    destruct (truthy_tags (lang_tags cfg)); simpl in Hup; [discriminate Hup|].
    inversion Hup. subst cfg'. simpl.
    eexists. split; [reflexivity|]. apply comma_form_tags.
  - intros top mmg decl Hm Hd.
    exists (map remove_spaces (split_comma decl)).
    rewrite <- split_comma_remove_spaces.
    destruct (comma_form_tags decl) as [Hlen Hall].
    split; [exact Hlen|]. split; [exact Hall|].
    rewrite split_comma_remove_spaces.
    apply extract_config_from_yml_string_form; assumption.
Qed.

(** Each tag of the list form is [str] of the item at the same
    position, stripped. *)
Lemma str_strip_all_items (elems : list yaml) (l : list string) :
  str_strip_all py_repr elems = Ok l ->
  Forall2 (fun x t => exists s, py_str py_repr x = Ok s /\ t = strip s)
          elems l.
Proof.
  revert l. induction elems as [|x xs IH]; simpl; intros l Hl.
  - inversion Hl. constructor.
  - destruct (py_str py_repr x) as [s|] eqn:Ex; simpl in Hl;
      [|discriminate Hl].
    destruct (str_strip_all py_repr xs) as [lx|]; simpl in Hl;
      [|discriminate Hl].
    inversion Hl. subst l. constructor.
    + exists s. split; [exact Ex|reflexivity].
    + apply IH. reflexivity.
Qed.

(** X7. From a tree, [str] is taken of each item of a list of tags
    and of the value of [no_suffix]. Where it returns on all of them,
    the list form gives one tag for each item, the tag being [str] of
    the item, stripped, and each tag, like the [no_suffix] read from a
    tree, has no whitespace left around it: stripping it again changes
    nothing. Where it raises on one of them, an integer of more than
    4300 digits, the extractor raises that [ValueError]. *)
Theorem extract_config_from_yml_stripped (top mmg : dict yaml) :
  dict_get top "mmg" = Some (YDict mmg) ->
  (mmg_str_returns mmg = true ->
   exists cfg,
     extract_config_from_yml py_repr (YDict top) = Ok cfg
     /\ (forall elems, dict_get mmg "lang_tags" = Some (YList elems) ->
         exists tags,
           lang_tags cfg = Tags tags
           /\ length tags = length elems
           /\ Forall2 (fun x t => exists s, py_str py_repr x = Ok s
                                            /\ t = strip s) elems tags
           /\ Forall (fun t => strip t = t) tags)
     /\ (forall v, dict_get mmg "no_suffix" = Some v ->
         exists s, py_str py_repr v = Ok s
                   /\ no_suffix cfg = Some (strip s)
                   /\ strip (strip s) = strip s))
  /\ (mmg_str_returns mmg = false ->
      extract_config_from_yml py_repr (YDict top) = Raise ValueError).
Proof.
  intros Hm. split.
  - intros Hret. unfold mmg_str_returns in Hret.
    apply andb_true_iff in Hret. destruct Hret as [Hl Hn].
    rewrite (extract_config_from_yml_mapping _ _ _ Hm).
    assert (HN : exists ns,
               no_suffix_of py_repr mmg = Ok ns
               /\ forall v, dict_get mmg "no_suffix" = Some v ->
                    exists s, py_str py_repr v = Ok s
                              /\ ns = Some (strip s)).
    { unfold no_suffix_of.
      destruct (dict_get mmg "no_suffix") as [w|].
      - destruct (py_str_returns py_repr w Hn) as [s Hs]. rewrite Hs.
        eexists. split; [reflexivity|].
        intros v Hv. inversion Hv. subst v. exists s.
        split; [exact Hs|reflexivity].
      - eexists. split; [reflexivity|]. intros v Hv. discriminate Hv. }
    destruct HN as [ns [Hns Hnv]].
    assert (HL : exists tags,
               lang_tags_of py_repr mmg = Ok tags
               /\ forall elems,
                    dict_get mmg "lang_tags" = Some (YList elems) ->
                    exists l, tags = Tags l
                              /\ str_strip_all py_repr elems = Ok l
                              /\ length l = length elems
                              /\ Forall (fun t => strip t = t) l).
    { unfold lang_tags_of.
      destruct (dict_get mmg "lang_tags") as [v|];
        [|eexists; split; [reflexivity|intros elems He; discriminate He]].
      destruct v as [items|elems|s|c];
        try (eexists; split;
             [reflexivity|intros elems' He; discriminate He]).
      destruct (str_strip_all_returns py_repr elems Hl)
        as [l [Hsl [Hlen Hall]]].
      simpl. rewrite Hsl. eexists. split; [reflexivity|].
      intros elems' He. inversion He. subst elems'.
      exists l. repeat split; assumption. }
    destruct HL as [tags [Htags Hlv]].
    rewrite Htags, Hns. simpl. eexists. split; [reflexivity|]. split.
    + intros elems He. destruct (Hlv elems He) as [l [Et [Hsl [Hlen Hall]]]].
      exists l. simpl. split; [exact Et|]. split; [exact Hlen|].
      split; [apply str_strip_all_items; exact Hsl|exact Hall].
    + intros v Hv. destruct (Hnv v Hv) as [s [Hs Es]].
      exists s. simpl. split; [exact Hs|]. split; [exact Es|].
      apply strip_idem.
  - intros Hret.
    pose proof (extract_config_from_yml_returns py_repr top mmg Hm) as H.
    rewrite Hret in H. exact H.
Qed.

(** X10. [extract_config_from_yml] reads nothing but the values of
    [lang_tags] and [no_suffix] in the [mmg] section: two trees that
    agree on these two give the same outcome, the same [Config] or
    the same error, whatever else the trees and their [mmg] sections
    hold. *)
Theorem extract_config_from_yml_reads_two_keys
    (top1 top2 mmg1 mmg2 : dict yaml) :
  dict_get top1 "mmg" = Some (YDict mmg1) ->
  dict_get top2 "mmg" = Some (YDict mmg2) ->
  dict_get mmg1 "lang_tags" = dict_get mmg2 "lang_tags" ->
  dict_get mmg1 "no_suffix" = dict_get mmg2 "no_suffix" ->
  extract_config_from_yml py_repr (YDict top1)
  = extract_config_from_yml py_repr (YDict top2).
Proof.
  intros H1 H2 Hl Hn.
  rewrite (extract_config_from_yml_mapping _ _ _ H1),
          (extract_config_from_yml_mapping _ _ _ H2).
  unfold lang_tags_of, no_suffix_of. rewrite Hl, Hn.
  reflexivity.
Qed.

End yml_forms.

(** ** Notebooks: only markdown cells are read *)

Lemma filter_is_markdown_idem (cs : list cell) :
  filter is_markdown (filter is_markdown cs) = filter is_markdown cs.
Proof.
  induction cs as [|c cs IH]; simpl; [reflexivity|].
  destruct (is_markdown c) eqn:E; simpl; [rewrite E, IH|]; [reflexivity|exact IH].
Qed.

Lemma md_lines_list_sources (cs : list cell) :
  Forall (fun c => is_markdown c = true -> exists l, source c = SrcLines l) cs ->
  md_lines cs
  = concat (map (fun c => match source c with
                          | SrcLines l => l
                          | SrcStr _ => []
                          end) (filter is_markdown cs)).
Proof.
  intros H. unfold md_lines.
  induction H as [|c cs Hc _ IH]; simpl; [reflexivity|].
  destruct (is_markdown c) eqn:E; [|exact IH]. simpl.
  destruct (Hc eq_refl) as [l Hl]. rewrite Hl. simpl. rewrite IH.
  reflexivity.
Qed.

Section jupyter_cells.
Context {G : MarkerGrammar}.

(** X5. [extract_config_from_jupyter] reads markdown cells only: the
    cells of any other type can be removed without changing the
    result, and when the markdown cells have lists of lines as their
    sources the result is that of [extract_config_from_md] on these
    lists put end to end, so that a line number in an error counts
    the lines of the markdown cells. *)
Theorem extract_config_from_jupyter_markdown_only (cs : list cell) :
  extract_config_from_jupyter (mkNotebook cs)
  = extract_config_from_jupyter (mkNotebook (filter is_markdown cs))
  /\ (Forall (fun c => is_markdown c = true ->
                       exists l, source c = SrcLines l) cs ->
      extract_config_from_jupyter (mkNotebook cs)
      = extract_config_from_md
          (concat (map (fun c => match source c with
                                 | SrcLines l => l
                                 | SrcStr _ => []
                                 end) (filter is_markdown cs)))).
Proof.
  split.
  - unfold extract_config_from_jupyter. simpl.
    rewrite filter_is_markdown_idem. reflexivity.
  - intros H. unfold extract_config_from_jupyter. simpl.
    fold (md_lines cs). rewrite (md_lines_list_sources cs H). reflexivity.
Qed.

End jupyter_cells.

(** ** The tree converter on odd declarations *)

Section yml_edges.
Context {HC : HealthChecker} {MC : MarkdownClassifier}.
Variable py_repr : yaml -> string.

Lemma dict_loop_no_tags (process : yaml -> result (dict yaml))
    (items : dict yaml) :
  Forall (fun kv => process (snd kv) = Ok []) items ->
  forall rd, dict_loop process [] items rd = Ok rd.
Proof.
  intros H. induction H as [|[key value] rest Hkv _ IH]; intros rd; simpl;
    [reflexivity|].
  simpl in Hkv. destruct (String.eqb key "mmg"); [apply IH|].
  rewrite Hkv. simpl. apply IH.
Qed.

Lemma list_loop_no_tags (process : yaml -> result (dict yaml))
    (elems : list yaml) :
  Forall (fun x => process x = Ok []) elems ->
  forall rd, list_loop process [] elems rd = Ok rd.
Proof.
  intros H. induction H as [|x rest Hx _ IH]; intros rd; simpl;
    [reflexivity|].
  rewrite Hx. simpl. apply IH.
Qed.

(** Without a language, [process_obj] returns the empty mapping. *)
Lemma process_obj_no_tags (cfg : Config) :
  tags_iter (lang_tags cfg) = Ok [] ->
  forall obj, process_obj cfg obj = Ok [].
Proof.
  intros Hl obj.
  induction obj as [items IH|elems IH|s|c] using yaml_induction;
    simpl; rewrite Hl; simpl.
  - rewrite (dict_loop_no_tags _ _ IH). reflexivity.
  - rewrite (list_loop_no_tags _ _ IH). reflexivity.
  - reflexivity.
  - reflexivity.
Qed.

(** X2. With no language declared, [convert_base_yml] returns the
    empty mapping for every tree once past the gate; so does a tree
    without a mapping under [mmg], converted with the check skipped. *)
Theorem convert_base_yml_no_tags :
  (forall base_yml cfg0 cfg skip force,
      cfg_or cfg0 (extract_config_from_yml py_repr base_yml) = Ok cfg ->
      tags_iter (lang_tags cfg) = Ok [] ->
      _health_check (BaseYml base_yml) cfg "yml" skip force = Ok tt ->
      convert_base_yml py_repr base_yml cfg0 skip force = Ok [])
  /\ (forall top force,
      (forall mmg, dict_get top "mmg" <> Some (YDict mmg)) ->
      convert_base_yml py_repr (YDict top) None true force = Ok []).
Proof.
  assert (Hgen : forall base_yml cfg0 cfg skip force,
      cfg_or cfg0 (extract_config_from_yml py_repr base_yml) = Ok cfg ->
      tags_iter (lang_tags cfg) = Ok [] ->
      _health_check (BaseYml base_yml) cfg "yml" skip force = Ok tt ->
      convert_base_yml py_repr base_yml cfg0 skip force = Ok []).
  { intros base_yml cfg0 cfg skip force Hcfg Hl Hgate.
    rewrite (convert_base_yml_process _ _ _ _ _ _ Hcfg Hgate).
    apply process_obj_no_tags. exact Hl. }
  split; [exact Hgen|].
  intros top force Hno.
  apply (Hgen (YDict top) None Config_default true force).
  - simpl. apply extract_config_from_yml_no_mapping. exact Hno.
  - reflexivity.
  - reflexivity.
Qed.

(** X1. A scalar under [mmg.lang_tags] (a number, a boolean, [None])
    is stored by [extract_config_from_yml] as it is, without an error
    of its own: the extractor goes on to read [no_suffix] and returns
    the scalar with it. The conversion of the same tree then raises
    [TypeError] as soon as it is past the gate, and in no case returns
    a mapping. *)
Theorem convert_base_yml_scalar_tags (top mmg : dict yaml) (c : scalar) :
  dict_get top "mmg" = Some (YDict mmg) ->
  dict_get mmg "lang_tags" = Some (YScalar c) ->
  extract_config_from_yml py_repr (YDict top)
  = (ns <- no_suffix_of py_repr mmg ;;
     Ok (mkConfig (RawTags (YScalar c)) ns))
  /\ (forall cfg skip force,
        extract_config_from_yml py_repr (YDict top) = Ok cfg ->
        _health_check (BaseYml (YDict top)) cfg "yml" skip force = Ok tt ->
        lang_tags cfg = RawTags (YScalar c)
        /\ convert_base_yml py_repr (YDict top) None skip force
           = Raise TypeError)
  /\ (forall skip force outs,
        convert_base_yml py_repr (YDict top) None skip force <> Ok outs).
Proof.
  intros Hm Hd.
  assert (Hex : extract_config_from_yml py_repr (YDict top)
                = (ns <- no_suffix_of py_repr mmg ;;
                   Ok (mkConfig (RawTags (YScalar c)) ns))).
  { rewrite (extract_config_from_yml_tags py_repr top mmg _ Hm Hd).
    reflexivity. }
  assert (Htags : forall cfg,
             extract_config_from_yml py_repr (YDict top) = Ok cfg ->
             lang_tags cfg = RawTags (YScalar c)).
  { intros cfg Hcfg. rewrite Hex in Hcfg.
    destruct (no_suffix_of py_repr mmg) as [ns|e]; simpl in Hcfg;
      [|discriminate Hcfg].
    inversion Hcfg. reflexivity. }
  assert (Hconv : forall cfg skip force,
             extract_config_from_yml py_repr (YDict top) = Ok cfg ->
             _health_check (BaseYml (YDict top)) cfg "yml" skip force
             = Ok tt ->
             convert_base_yml py_repr (YDict top) None skip force
             = Raise TypeError).
  { intros cfg skip force Hcfg Hgate.
    rewrite (convert_base_yml_process py_repr (YDict top) None cfg skip force
               Hcfg Hgate).
    simpl. rewrite (Htags cfg Hcfg). reflexivity. }
  split; [exact Hex|]. split.
  - intros cfg skip force Hcfg Hgate.
    split; [exact (Htags cfg Hcfg)|exact (Hconv cfg skip force Hcfg Hgate)].
  - intros skip force outs Hout.
    destruct (extract_config_from_yml py_repr (YDict top)) as [cfg|e] eqn:E.
    + destruct (_health_check (BaseYml (YDict top)) cfg "yml" skip force)
        as [[]|e] eqn:Eg.
      * rewrite (Hconv cfg skip force eq_refl Eg) in Hout. discriminate Hout.
      * unfold convert_base_yml, cfg_or in Hout.
        rewrite E in Hout. cbn [bind] in Hout. rewrite Eg in Hout.
        discriminate Hout.
    + unfold convert_base_yml, cfg_or in Hout.
      rewrite E in Hout. discriminate Hout.
Qed.

(** X3. With distinct tags, [convert_base_yml] returns one tree for
    each declared language, in the declared order, and the tree of a
    language is [per_lang]: the input with each string outside an
    [mmg] section replaced by the lines the classifier gives that
    language, joined by newlines, and everything else copied. *)
Theorem convert_base_yml_per_language (base_yml : yaml)
    (cfg0 : option Config) (cfg : Config) (langs : list string)
    (skip force : bool) :
  cfg_or cfg0 (extract_config_from_yml py_repr base_yml) = Ok cfg ->
  _health_check (BaseYml base_yml) cfg "yml" skip force = Ok tt ->
  tags_iter (lang_tags cfg) = Ok langs ->
  NoDup langs ->
  (forall lines lang, In lang langs ->
     exists doc,
       dict_get (md_docs (md_classify (md_new (lang_tags cfg)) lines)) lang
       = Some doc) ->
  exists outs,
    convert_base_yml py_repr base_yml cfg0 skip force = Ok outs
    /\ dict_keys outs = langs
    /\ forall lang, In lang langs ->
         dict_get outs lang = Some (per_lang cfg lang base_yml).
Proof.
  intros Hcfg Hgate Hlangs Hnd Hdocs.
  rewrite (convert_base_yml_process _ _ _ _ _ _ Hcfg Hgate).
  rewrite (process_obj_tab cfg langs Hlangs Hdocs Hnd base_yml).
  eexists. split; [reflexivity|]. split; [apply dict_keys_tab|].
  intros lang Hlang.
  apply (dict_get_tab langs (fun l => per_lang cfg l base_yml)). exact Hlang.
Qed.

End yml_edges.

(** X1 on [tree_number_tags], the check skipped. *)
Lemma convert_base_yml_scalar_tags_witness :
  convert_base_yml (HC:=reporting HEALTHY [])
    (MC:=spec_classifier Grammar.marker) repr_unused
    tree_number_tags None true false
  = Raise TypeError.
Proof.
  destruct (convert_base_yml_scalar_tags (HC:=reporting HEALTHY [])
              (MC:=spec_classifier Grammar.marker) repr_unused
              [("mmg", YDict [("lang_tags", YScalar (PyInt 5))])]
              [("lang_tags", YScalar (PyInt 5))] (PyInt 5)
              eq_refl eq_refl) as [_ [H _]].
  apply (H (mkConfig (RawTags (YScalar (PyInt 5))) None) true false);
    reflexivity.
Defined.

(** X3 on [tree_structure], for the language [es]. *)
Lemma convert_base_yml_per_language_witness :
  exists outs,
    convert_base_yml (HC:=reporting HEALTHY [])
      (MC:=spec_classifier Grammar.marker) repr_unused
      tree_structure None false false = Ok outs
    /\ dict_get outs "es"
       = Some (YDict [("mmg", YDict [("lang_tags", YList [YStr "en"; YStr "es"]);
                                     ("no_suffix", YStr "en")]);
                      ("config", YDict [("version", YStr "1.0.0");
                                        ("author", YStr "Test")]);
                      ("count", YScalar (PyInt 42));
                      ("content", YStr "Prueba")]).
Proof.
  destruct (convert_base_yml_per_language (HC:=reporting HEALTHY [])
              (MC:=spec_classifier Grammar.marker) repr_unused
              tree_structure None
              (mkConfig (Tags ["en"; "es"]) (Some "en"))
              ["en"; "es"] false false eq_refl eq_refl eq_refl)
    as [outs [Hout [_ Hget]]].
  - apply nodup2. discriminate.
  - intros lines lang Hin. apply spec_classifier_docs. exact Hin.
  - exists outs. split; [exact Hout|].
    rewrite (Hget "es"); [reflexivity|simpl; tauto].
Defined.

(** ** Splitting into lines and joining again *)

Lemma string_app_assoc (a b c : string) :
  ((a ++ b) ++ c)%string = (a ++ b ++ c)%string.
Proof. induction a as [|x a IH]; simpl; [reflexivity|]. rewrite IH. reflexivity. Qed.

Lemma splitlines_from_line (l : string) :
  no_break l ->
  forall cur s,
    splitlines_from cur (l ++ s)%string = splitlines_from (cur ++ l)%string s.
Proof.
  unfold no_break. induction l as [|c r IH]; intros H cur s; simpl.
  - rewrite string_app_empty_r. reflexivity.
  - simpl in H. apply orb_false_iff in H. destruct H as [Hc Hr].
    apply orb_false_iff in Hc. destruct Hc as [Hcr Hlb].
    rewrite Hcr, Hlb, (IH Hr), string_app_assoc. reflexivity.
Qed.

Lemma splitlines_from_LF (cur s : string) :
  splitlines_from cur (String LF s) = cur :: splitlines_from EmptyString s.
Proof. reflexivity. Qed.

(** Lines without line boundaries, the last of them not empty, come
    back from splitting their join. *)
Lemma splitlines_join (lines : list string) :
  Forall no_break lines -> no_empty_last lines ->
  splitlines (join nl lines) = lines.
Proof.
  unfold splitlines. induction lines as [|l ls IH]; intros Hnb Hlast.
  - reflexivity.
  - inversion Hnb as [|? ? Hl Hls]; subst.
    destruct ls as [|l' ls'].
    + simpl. rewrite <- (string_app_empty_r l) at 1.
      rewrite (splitlines_from_line l Hl). simpl.
      destruct l; [|reflexivity].
      exfalso. apply (Hlast []). reflexivity.
    + change (join nl (l :: l' :: ls'))
        with ((l ++ String LF (join nl (l' :: ls')))%string).
      rewrite (splitlines_from_line l Hl), splitlines_from_LF. simpl.
      f_equal. apply IH; [exact Hls|].
      intros front E. apply (Hlast (l :: front)). simpl. rewrite E.
      reflexivity.
Qed.

Section converters.
Context {G : MarkerGrammar} {HC : HealthChecker}.
Context {MC : MarkdownClassifier} {TOC : MarkdownToc MC}.
Context {JC : JupyterClassifier}.
Variable py_repr : yaml -> string.

(** X9. The text [convert] returns for a language is the lines
    [convert_base_doc] returns for it joined by newlines; splitting
    the text into lines again gives these lines back, provided none
    holds a line boundary and the last one is not empty. *)
Theorem convert_splits_back (base_md : string) (cfg0 : option Config)
    (skip force : bool) (docs : dict (list string)) :
  convert_base_doc (splitlines base_md) cfg0 skip force = Ok docs ->
  exists outs,
    convert base_md cfg0 skip force = Ok outs
    /\ (forall lang, dict_get outs lang
                     = option_map (join nl) (dict_get docs lang))
    /\ (forall lang lines text,
          dict_get docs lang = Some lines ->
          dict_get outs lang = Some text ->
          Forall no_break lines -> no_empty_last lines ->
          splitlines text = lines).
Proof.
  intros H. unfold convert. rewrite H. simpl.
  eexists. split; [reflexivity|].
  assert (Hget : forall lang,
             dict_get (map (fun kv => (fst kv, join nl (snd kv))) docs) lang
             = option_map (join nl) (dict_get docs lang)).
  { intros lang. apply (dict_get_map (join nl)). }
  split; [exact Hget|].
  intros lang lines text Hl Ht Hnb Hlast.
  rewrite Hget, Hl in Ht. simpl in Ht. inversion Ht. subst text.
  apply splitlines_join; assumption.
Qed.

(** The gate lets a call through without raising when the check is
    skipped, when the verdict is [HEALTHY], and when it is overridden. *)
Lemma _health_check_open (b : base) (cfg : Config) (extension : string)
    (status : HealthStatus) (messages : list string) (force : bool) :
  health_check b cfg extension = Ok (status, messages) ->
  force = true \/ is_healthy status = true ->
  _health_check b cfg extension false force = Ok tt.
Proof.
  intros Hrun Hopen. unfold _health_check. simpl. rewrite Hrun. simpl.
  destruct Hopen as [Hf|Hh]; [rewrite Hf|rewrite Hh, andb_false_r];
    reflexivity.
Qed.

(** X8. When the check is overridden by [force_convert], or its verdict
    is [HEALTHY], each of the four converters returns exactly what it
    returns with the check skipped. *)
Theorem open_gate_same_as_skipped (status : HealthStatus)
    (messages : list string) (force : bool) :
  force = true \/ is_healthy status = true ->
  (forall base_doc cfg0,
      (forall cfg, cfg_or cfg0 (extract_config_from_md base_doc) = Ok cfg ->
         health_check (BaseMd base_doc) cfg "md" = Ok (status, messages)) ->
      convert_base_doc base_doc cfg0 false force
      = convert_base_doc base_doc cfg0 true force)
  /\ (forall base_md cfg0,
      (forall cfg,
         cfg_or cfg0 (extract_config_from_md (splitlines base_md)) = Ok cfg ->
         health_check (BaseMd (splitlines base_md)) cfg "md"
         = Ok (status, messages)) ->
      convert base_md cfg0 false force = convert base_md cfg0 true force)
  /\ (forall base_jn cfg0,
      (forall cfg, cfg_or cfg0 (extract_config_from_jupyter base_jn) = Ok cfg ->
         health_check (BaseJn base_jn) cfg "ipynb" = Ok (status, messages)) ->
      convert_base_jupyter base_jn cfg0 false force
      = convert_base_jupyter base_jn cfg0 true force)
  /\ (forall base_yml cfg0,
      (forall cfg,
         cfg_or cfg0 (extract_config_from_yml py_repr base_yml) = Ok cfg ->
         health_check (BaseYml base_yml) cfg "yml" = Ok (status, messages)) ->
      convert_base_yml py_repr base_yml cfg0 false force
      = convert_base_yml py_repr base_yml cfg0 true force).
Proof.
  intros Hopen.
  assert (Hdoc : forall base_doc cfg0,
      (forall cfg, cfg_or cfg0 (extract_config_from_md base_doc) = Ok cfg ->
         health_check (BaseMd base_doc) cfg "md" = Ok (status, messages)) ->
      convert_base_doc base_doc cfg0 false force
      = convert_base_doc base_doc cfg0 true force).
  { intros base_doc cfg0 Hrun. unfold convert_base_doc.
    destruct (cfg_or cfg0 (extract_config_from_md base_doc)) as [cfg|e] eqn:E;
      [|reflexivity].
    simpl. rewrite (_health_check_open _ _ _ _ _ _ (Hrun cfg eq_refl) Hopen).
    reflexivity. }
  split; [exact Hdoc|]. split; [|split].
  - intros base_md cfg0 Hrun. unfold convert.
    rewrite (Hdoc _ _ Hrun). reflexivity.
  - intros base_jn cfg0 Hrun. unfold convert_base_jupyter.
    destruct (cfg_or cfg0 (extract_config_from_jupyter base_jn))
      as [cfg|e] eqn:E; [|reflexivity].
    simpl. rewrite (_health_check_open _ _ _ _ _ _ (Hrun cfg eq_refl) Hopen).
    reflexivity.
  - intros base_yml cfg0 Hrun. unfold convert_base_yml.
    destruct (cfg_or cfg0 (extract_config_from_yml py_repr base_yml))
      as [cfg|e] eqn:E; [|reflexivity].
    simpl. rewrite (_health_check_open _ _ _ _ _ _ (Hrun cfg eq_refl) Hopen).
    reflexivity.
Qed.

End converters.

(** X8 on [doc_unhealthy], whose verdict is overridden. *)
Lemma open_gate_same_as_skipped_witness :
  convert_base_doc (G:=Grammar.grammar)
    (HC:=reporting UNHEALTHY ["Tag 'es' is never used."])
    (MC:=spec_classifier Grammar.marker) (TOC:=no_toc _)
    doc_unhealthy None false true
  = convert_base_doc (G:=Grammar.grammar)
      (HC:=reporting UNHEALTHY ["Tag 'es' is never used."])
      (MC:=spec_classifier Grammar.marker) (TOC:=no_toc _)
      doc_unhealthy None true true.
Proof.
  destruct (open_gate_same_as_skipped (G:=Grammar.grammar)
              (HC:=reporting UNHEALTHY ["Tag 'es' is never used."])
              (MC:=spec_classifier Grammar.marker) (TOC:=no_toc _)
              (JC:=copying_jupyter) repr_unused
              UNHEALTHY ["Tag 'es' is never used."] true
              (or_introl eq_refl)) as [H _].
  apply H. intros cfg _. reflexivity.
Defined.

(** X9 on a text with two lines for [en]. *)
Lemma convert_splits_back_witness :
  exists outs,
    convert (G:=Grammar.grammar) (HC:=reporting HEALTHY [])
      (MC:=spec_classifier Grammar.marker) (TOC:=no_toc _)
      ("<!-- [en] -->" ++ nl ++ "Hello" ++ nl ++ "World" ++ nl
       ++ "<!-- [es] -->" ++ nl ++ "Hola")
      (Some (mkConfig (Tags ["en"; "es"]) None)) false false = Ok outs
    /\ exists text, dict_get outs "en" = Some text
                    /\ splitlines text = ["Hello"; "World"].
Proof.
  destruct (convert_splits_back (G:=Grammar.grammar) (HC:=reporting HEALTHY [])
              (MC:=spec_classifier Grammar.marker) (TOC:=no_toc _)
              ("<!-- [en] -->" ++ nl ++ "Hello" ++ nl ++ "World" ++ nl
               ++ "<!-- [es] -->" ++ nl ++ "Hola")
              (Some (mkConfig (Tags ["en"; "es"]) None)) false false
              [("en", ["Hello"; "World"]); ("es", ["Hola"])])
    as [outs [Hout [Hget Hback]]].
  - vm_compute. reflexivity.
  - exists outs. split; [exact Hout|].
    exists (join nl ["Hello"; "World"]).
    assert (Htext : dict_get outs "en" = Some (join nl ["Hello"; "World"])).
    { rewrite (Hget "en"). reflexivity. }
    split; [exact Htext|].
    apply (Hback "en" ["Hello"; "World"] _ eq_refl Htext).
    + repeat constructor.
    + intros [|x [|y [|z front]]] E; simpl in E; discriminate E.
Defined.

Section md_errors.
Context {G : MarkerGrammar} {HC : HealthChecker}.
Context {MC : MarkdownClassifier} {TOC : MarkdownToc MC}.
Context {JC : JupyterClassifier}.
Variable py_repr : yaml -> string.

Lemma raises_duplicate_later (mask : list bool) (n : nat) (line : string)
    (rest : list string) (r : result Config) :
  raises_duplicate mask (S n) rest r ->
  raises_duplicate mask n (line :: rest) r.
Proof.
  intros [name [k [Hr [Hk Hin]]]]. exists name, k.
  split; [exact Hr|]. split; [simpl; lia|].
  simpl.
  destruct Hin as [[Hn Hin]|[Hn Hin]]; [left|right]; (split; [exact Hn|]).
  - destruct (unmasked mask n && comment_match line); [|exact Hin].
    destruct (lang_tags_search line); [right|]; exact Hin.
  - destruct (unmasked mask n && comment_match line); [|exact Hin].
    destruct (no_suffix_search line); [right|]; exact Hin.
Qed.

Lemma extract_loop_returns_or_duplicate (mask : list bool)
    (lines : list string) :
  forall (n : nat) (cfg : Config),
    n + length lines <= length mask ->
    (exists cfg', extract_loop mask n lines cfg = Ok cfg')
    \/ raises_duplicate mask n lines (extract_loop mask n lines cfg).
Proof.
  induction lines as [|line rest IH]; intros n cfg Hlen.
  - left. eexists. reflexivity.
  - simpl in Hlen.
    assert (Hstep : forall cfg',
               (exists cfg'', extract_loop mask (S n) rest cfg' = Ok cfg'')
               \/ raises_duplicate mask n (line :: rest)
                    (extract_loop mask (S n) rest cfg')).
    { intros cfg'. destruct (IH (S n) cfg') as [H|H]; [lia|left; exact H|].
      right. apply raises_duplicate_later. exact H. }
    simpl. destruct (nth_error mask n) as [[|]|] eqn:Em.
    + apply Hstep.
    + destruct (comment_match line) eqn:Ec; [|apply Hstep].
      unfold _try_update_lang_tags, _try_update_no_suffix.
      destruct (lang_tags_search line) as [p|] eqn:El.
      * destruct (truthy_tags (lang_tags cfg)); simpl.
        -- right. exists "lang_tags", n. split; [reflexivity|].
           split; [simpl; lia|]. left. split; [reflexivity|].
           simpl. unfold unmasked. rewrite Em, Ec, El. left. reflexivity.
        -- destruct (no_suffix_search line) as [q|] eqn:En; [|apply Hstep].
           destruct (truthy_opt_str (no_suffix cfg)); simpl; [|apply Hstep].
           right. exists "no_suffix", n. split; [reflexivity|].
           split; [simpl; lia|]. right. split; [reflexivity|].
           simpl. unfold unmasked. rewrite Em, Ec, En. left. reflexivity.
      * simpl. destruct (no_suffix_search line) as [q|] eqn:En;
          [|apply Hstep].
        destruct (truthy_opt_str (no_suffix cfg)); simpl; [|apply Hstep].
        right. exists "no_suffix", n. split; [reflexivity|].
        split; [simpl; lia|]. right. split; [reflexivity|].
        simpl. unfold unmasked. rewrite Em, Ec, En. left. reflexivity.
    + apply nth_error_None in Em. lia.
Qed.

(** X11. On a document whose mask has its length,
    [extract_config_from_md] either returns a [Config] or raises a
    [BadConfigError] that names [lang_tags] or [no_suffix] and the
    1-based number of a line of the document holding a declaration of
    that setting; it raises nothing else. *)
Theorem extract_config_from_md_errors (doc : list string) :
  length (flag_code_block_lines doc) = length doc ->
  (exists cfg, extract_config_from_md doc = Ok cfg)
  \/ (exists name k,
        extract_config_from_md doc
        = Raise (BadConfigError
                   (already_defined name ++ " [Check line: "
                    ++ str_of_nat (k + 1) ++ "]")%string)
        /\ k < length doc
        /\ ((name = "lang_tags" /\ In k (map fst (lang_tags_decls doc)))
            \/ (name = "no_suffix"
                /\ In k (map fst (no_suffix_decls doc))))).
Proof.
  intros Hlen. unfold extract_config_from_md.
  destruct (extract_loop_returns_or_duplicate
              (flag_code_block_lines doc) doc 0 Config_default)
    as [H|[name [k [Hr [Hk Hin]]]]]; [simpl; lia|left; exact H|].
  right. exists name, k. split; [exact Hr|]. split; [simpl in Hk; lia|].
  exact Hin.
Qed.

(** X12. An error raised by the extraction of the configuration is
    raised by the converter as it is, whether the health check is
    skipped or overridden or not; a [Config] passed by the caller
    avoids it, the document being then converted without any
    extraction. *)
Theorem configuration_error_not_overridden (e : exn) (skip force : bool) :
  (forall base_doc,
      extract_config_from_md base_doc = Raise e ->
      convert_base_doc base_doc None skip force = Raise e
      /\ forall cfg,
           convert_base_doc base_doc (Some cfg) true force
           = Ok (md_docs (md_insert_toc
                            (md_classify (md_new (lang_tags cfg)) base_doc))))
  /\ (forall base_md,
      extract_config_from_md (splitlines base_md) = Raise e ->
      convert base_md None skip force = Raise e)
  /\ (forall base_jn,
      extract_config_from_jupyter base_jn = Raise e ->
      convert_base_jupyter base_jn None skip force = Raise e)
  /\ (forall base_yml,
      extract_config_from_yml py_repr base_yml = Raise e ->
      convert_base_yml py_repr base_yml None skip force = Raise e).
Proof.
  split; [|split; [|split]].
  - intros base_doc He. split; [|reflexivity].
    unfold convert_base_doc. simpl. rewrite He. reflexivity.
  - intros base_md He. unfold convert, convert_base_doc. simpl.
    rewrite He. reflexivity.
  - intros base_jn He. unfold convert_base_jupyter. simpl.
    rewrite He. reflexivity.
  - intros base_yml He. unfold convert_base_yml. simpl.
    rewrite He. reflexivity.
Qed.

End md_errors.

(** X11 on [doc_twice]. *)
Lemma extract_config_from_md_errors_witness :
  (exists cfg, extract_config_from_md (G:=Grammar.grammar) doc_twice = Ok cfg)
  \/ (exists name k,
        extract_config_from_md (G:=Grammar.grammar) doc_twice
        = Raise (BadConfigError
                   (already_defined name ++ " [Check line: "
                    ++ str_of_nat (k + 1) ++ "]")%string)
        /\ k < length doc_twice
        /\ ((name = "lang_tags"
             /\ In k (map fst (lang_tags_decls (G:=Grammar.grammar) doc_twice)))
            \/ (name = "no_suffix"
                /\ In k (map fst (no_suffix_decls (G:=Grammar.grammar)
                                    doc_twice))))).
Proof.
  apply (extract_config_from_md_errors (G:=Grammar.grammar) doc_twice).
  reflexivity.
Defined.

(** X7 on a list whose first item has spaces around it, and on
    [tree_long_no_suffix]. *)
Lemma extract_config_from_yml_stripped_witness :
  (exists cfg tags,
     extract_config_from_yml repr_unused
       (mmg_tree (YList [YStr " en "; YStr "es"])) = Ok cfg
     /\ lang_tags cfg = Tags tags
     /\ length tags = 2
     /\ Forall (fun t => strip t = t) tags)
  /\ extract_config_from_yml repr_unused tree_long_no_suffix
     = Raise ValueError.
Proof.
  split.
  - destruct (extract_config_from_yml_stripped repr_unused
                [("mmg",
                  YDict [("lang_tags", YList [YStr " en "; YStr "es"])])]
                [("lang_tags", YList [YStr " en "; YStr "es"])] eq_refl)
      as [H _].
    destruct (H eq_refl) as [cfg [Hcfg [Hl _]]].
    destruct (Hl [YStr " en "; YStr "es"] eq_refl)
      as [tags [Ht [Hlen [_ Hall]]]].
    exists cfg, tags.
    split; [exact Hcfg|]. split; [exact Ht|]. split; [exact Hlen|exact Hall].
  - destruct (extract_config_from_yml_stripped repr_unused
                [("mmg", YDict [("lang_tags", YStr "en,common");
                                ("no_suffix", YScalar (PyInt (10 ^ 4300)))])]
                [("lang_tags", YStr "en,common");
                 ("no_suffix", YScalar (PyInt (10 ^ 4300)))] eq_refl)
      as [_ H].
    apply H. vm_compute. reflexivity.
Defined.

(** X10 on two trees that differ outside the two settings. *)
Lemma extract_config_from_yml_reads_two_keys_witness :
  extract_config_from_yml repr_unused
    (YDict [("mmg", YDict [("lang_tags", YStr "en,es")]);
            ("title", YStr "Test")])
  = extract_config_from_yml repr_unused
      (YDict [("mmg", YDict [("lang_tags", YStr "en,es");
                             ("theme", YStr "dark")])]).
Proof.
  apply (extract_config_from_yml_reads_two_keys repr_unused
           [("mmg", YDict [("lang_tags", YStr "en,es")]);
            ("title", YStr "Test")]
           [("mmg", YDict [("lang_tags", YStr "en,es");
                           ("theme", YStr "dark")])]
           [("lang_tags", YStr "en,es")]
           [("lang_tags", YStr "en,es"); ("theme", YStr "dark")]);
    reflexivity.
Defined.

(** X2 on the tree of [test_extract_config_empty_yml]. *)
Lemma convert_base_yml_no_tags_witness :
  convert_base_yml (HC:=reporting HEALTHY [])
    (MC:=spec_classifier Grammar.marker) repr_unused
    (YDict [("title", YStr "Test")]) None true false
  = Ok [].
Proof.
  destruct (convert_base_yml_no_tags (HC:=reporting HEALTHY [])
              (MC:=spec_classifier Grammar.marker) repr_unused) as [_ H].
  apply H. intros mmg E. discriminate E.
Defined.

(** X6 on a declaration that ends with a comma. *)
Lemma lang_tags_comma_form_witness :
  exists cfg tags,
    extract_config_from_yml repr_unused (mmg_tree (YStr "en, es,")) = Ok cfg
    /\ lang_tags cfg = Tags tags
    /\ length tags = 3
    /\ Forall (fun t => no_comma t /\ no_space t) tags.
Proof.
  destruct (lang_tags_comma_form (G:=Grammar.grammar) repr_unused) as [_ H].
  destruct (H [("mmg", YDict [("lang_tags", YStr "en, es,")])]
              [("lang_tags", YStr "en, es,")] "en, es," eq_refl eq_refl)
    as [tags [Hlen [Hall Heq]]].
  exists (mkConfig (Tags tags) None), tags.
  split; [etransitivity; [exact Heq|reflexivity]|].
  split; [reflexivity|]. split; [exact Hlen|exact Hall].
Defined.

(** X12 on [doc_twice], the check skipped and overridden. *)
Lemma configuration_error_not_overridden_witness :
  convert_base_doc (G:=Grammar.grammar) (HC:=reporting HEALTHY [])
    (MC:=spec_classifier Grammar.marker) (TOC:=no_toc _)
    doc_twice None true true
  = Raise (BadConfigError
      "The configuration 'lang_tags' is already defined. [Check line: 8]").
Proof.
  destruct (configuration_error_not_overridden (G:=Grammar.grammar)
              (HC:=reporting HEALTHY [])
              (MC:=spec_classifier Grammar.marker) (TOC:=no_toc _)
              (JC:=copying_jupyter) repr_unused
              (BadConfigError
                 "The configuration 'lang_tags' is already defined. [Check line: 8]")
              true true) as [H _].
  apply (H doc_twice). vm_compute. reflexivity.
Defined.

(** X5 on a notebook with a code cell that holds a declaration. *)
Lemma extract_config_from_jupyter_markdown_only_witness :
  extract_config_from_jupyter (G:=Grammar.grammar)
    (mkNotebook [mkCell "code" (SrcLines ["# lang_tags: a,b"]);
                 mkCell "markdown" (SrcLines ["<!-- lang_tags: en -->"])])
  = extract_config_from_md (G:=Grammar.grammar) ["<!-- lang_tags: en -->"].
Proof.
  destruct (extract_config_from_jupyter_markdown_only (G:=Grammar.grammar)
              [mkCell "code" (SrcLines ["# lang_tags: a,b"]);
               mkCell "markdown" (SrcLines ["<!-- lang_tags: en -->"])])
    as [_ H].
  apply H. repeat constructor; intros E; try discriminate E.
  eexists. reflexivity.
Defined.
